(** * prodat: the file-based code driver (snapshot engine)

    A shallow embedding of [prodat/core/controller/code/driver/file.py]
    (class [FileCodeDriver]) together with the parts of the Python runtime
    it calls: [hashlib.md5], [checksumdir.dirhash], the [os] / [shutil]
    file operations and text-mode line reading.

    The file system is one finite map from absolute paths (lists of
    components) to nodes; every driver method is a function from a file
    system to a new file system and either a raised exception or a value. *)

From stdpp Require Import gmap strings list fin_maps sorting.
From Stdlib Require Import ZArith Ascii.

(** ** hashlib.md5 (RFC 1321) *)

Module MD5.

Local Open Scope Z_scope.

Definition mask32 : Z := 4294967295.

Definition wrap32 (z : Z) : Z := Z.land z mask32.

Definition rotl32 (x n : Z) : Z :=
  wrap32 (Z.lor (Z.shiftl x n) (Z.shiftr x (32 - n))).

Definition not32 (x : Z) : Z := Z.lxor x mask32.

Definition K : list Z :=
  [ 3614090360; 3905402710; 606105819; 3250441966; 4118548399; 1200080426; 2821735955; 4249261313;
    1770035416; 2336552879; 4294925233; 2304563134; 1804603682; 4254626195; 2792965006; 1236535329;
    4129170786; 3225465664; 643717713; 3921069994; 3593408605; 38016083; 3634488961; 3889429448;
    568446438; 3275163606; 4107603335; 1163531501; 2850285829; 4243563512; 1735328473; 2368359562;
    4294588738; 2272392833; 1839030562; 4259657740; 2763975236; 1272893353; 4139469664; 3200236656;
    681279174; 3936430074; 3572445317; 76029189; 3654602809; 3873151461; 530742520; 3299628645;
    4096336452; 1126891415; 2878612391; 4237533241; 1700485571; 2399980690; 4293915773; 2240044497;
    1873313359; 4264355552; 2734768916; 1309151649; 4149444226; 3174756917; 718787259; 3951481745 ].

Definition S : list Z :=
  [ 7; 12; 17; 22; 7; 12; 17; 22; 7; 12; 17; 22; 7; 12; 17; 22;
    5; 9; 14; 20; 5; 9; 14; 20; 5; 9; 14; 20; 5; 9; 14; 20;
    4; 11; 16; 23; 4; 11; 16; 23; 4; 11; 16; 23; 4; 11; 16; 23;
    6; 10; 15; 21; 6; 10; 15; 21; 6; 10; 15; 21; 6; 10; 15; 21 ].

Definition zth (l : list Z) (i : Z) : Z := nth (Z.to_nat i) l 0.

(** The four 32-bit chaining variables. *)
Record state := State { sa : Z; sb : Z; sc : Z; sd : Z }.

Definition init : state :=
  State 1732584193 4023233417 2562383102 271733878.

(** Little-endian encoding of [v] on [n] bytes, and decoding. *)
Fixpoint le_bytes (n : nat) (v : Z) : list Z :=
  match n with
  | O => []
  | Datatypes.S n' => (v mod 256) :: le_bytes n' (v / 256)
  end.

Fixpoint le_word (bs : list Z) : Z :=
  match bs with
  | [] => 0
  | b :: bs' => b + 256 * le_word bs'
  end.

Fixpoint chunks {A} (fuel k : nat) (l : list A) : list (list A) :=
  match fuel with
  | O => []
  | Datatypes.S fuel' =>
      match l with
      | [] => []
      | _ => take k l :: chunks fuel' k (drop k l)
      end
  end.

Definition pad (msg : list Z) : list Z :=
  let len := Z.of_nat (length msg) in
  msg ++ [128] ++ repeat 0 (Z.to_nat ((55 - len) mod 64)) ++ le_bytes 8 (8 * len).

(** One of the 64 operations of a block. *)
Definition step (M : list Z) (st : state) (i : Z) : state :=
  let '(State A B C D) := st in
  let '(F, g) :=
    if i <? 16 then (Z.lor (Z.land B C) (Z.land (not32 B) D), i)
    else if i <? 32 then (Z.lor (Z.land D B) (Z.land (not32 D) C), (5 * i + 1) mod 16)
    else if i <? 48 then (Z.lxor (Z.lxor B C) D, (3 * i + 5) mod 16)
    else (Z.lxor C (Z.lor B (not32 D)), (7 * i) mod 16) in
  let F' := wrap32 (F + A + zth K i + zth M g) in
  State D (wrap32 (B + rotl32 F' (zth S i))) B C.

Definition block (st : state) (blk : list Z) : state :=
  let M := map le_word (chunks 16 4 blk) in
  let '(State A B C D) := foldl (step M) st (map Z.of_nat (seq 0 64)) in
  State (wrap32 (sa st + A)) (wrap32 (sb st + B))
        (wrap32 (sc st + C)) (wrap32 (sd st + D)).

Definition digest (msg : list Z) : list Z :=
  let p := pad msg in
  let '(State A B C D) := foldl block init (chunks (length p) 64 p) in
  le_bytes 4 A ++ le_bytes 4 B ++ le_bytes 4 C ++ le_bytes 4 D.

Definition hexdigits : list ascii :=
  ["0"; "1"; "2"; "3"; "4"; "5"; "6"; "7"; "8"; "9"; "a"; "b"; "c"; "d"; "e"; "f"]%char.

Definition hexdigit (n : Z) : ascii := nth (Z.to_nat n) hexdigits "0"%char.

Fixpoint hex (bs : list Z) : string :=
  match bs with
  | [] => ""
  | b :: bs' => String (hexdigit (b / 16)) (String (hexdigit (b mod 16)) (hex bs'))
  end.

Definition bytes_of_string (s : string) : list Z :=
  map (fun c => Z.of_N (N_of_ascii c)) (String.list_ascii_of_string s).

(** [hashlib.md5(data).hexdigest()] *)
Definition hexdigest (data : string) : string := hex (digest (bytes_of_string data)).

End MD5.

(** ** Text: the string operations the driver relies on *)

(** Relative and absolute paths are lists of components; [os.path.join] of
    a directory and a relative path held as components is [++]. Where the
    code handles a path as text (the commit record), [string_of_path]
    renders it with the separator and [path_join] reads it back. *)
Abbreviation path := (list string).

Definition string_of_path (p : path) : string := String.concat "/" p.

(** [s.split(c)] *)
Fixpoint split_on (c : ascii) (s : string) : list string :=
  match s with
  | EmptyString => [EmptyString]
  | String a r =>
      if decide (a = c) then EmptyString :: split_on c r
      else match split_on c r with
           | h :: t => String a h :: t
           | [] => [String a EmptyString]
           end
  end.

Definition nonempty (s : string) : bool :=
  match s with EmptyString => false | String _ _ => true end.

(** [os.path.join(base, s)] for a path [s] given as text: an absolute [s]
    discards [base]; empty components (doubled or trailing separators)
    do not name anything. *)
Definition path_join (base : path) (s : string) : path :=
  let names := filter (λ n, nonempty n = true) (split_on "/" s) in
  match s with
  | String a _ => if decide (a = "/"%char) then names else base ++ names
  | EmptyString => base ++ names
  end.

(** [str.isspace] on the ASCII range: tab to carriage return, the four
    separators 28 to 31, and the space. *)
Definition is_space (a : ascii) : bool :=
  let n := N_of_ascii a in
  ((9 <=? n) && (n <=? 13) || (28 <=? n) && (n <=? 32))%N.

(** [s.rstrip()] *)
Fixpoint rstrip (s : string) : string :=
  match s with
  | EmptyString => EmptyString
  | String a r =>
      match rstrip r with
      | EmptyString => if is_space a then EmptyString else String a EmptyString
      | r' => String a r'
      end
  end.

(** Text-mode reading translates CR LF and a lone CR to LF. *)
Fixpoint universal_newlines (s : string) : string :=
  match s with
  | EmptyString => EmptyString
  | String a r =>
      if decide (a = "013"%char) then
        String "010"
          match r with
          | String b r' =>
              if decide (b = "010"%char) then universal_newlines r'
              else universal_newlines r
          | EmptyString => EmptyString
          end
      else String a (universal_newlines r)
  end.

(** The lines of [for line in f]; the line terminator, which Python keeps,
    is dropped here since every use strips the line first, and the empty
    piece after a final terminator is skipped by the caller as a blank line. *)
Definition file_lines (content : string) : list string :=
  split_on "010" (universal_newlines content).

(** [s.split(",", 1)] unpacked into two names: [None] is the [ValueError]
    of a line without a comma. *)
Fixpoint split_comma (s : string) : option (string * string) :=
  match s with
  | EmptyString => None
  | String a r =>
      if decide (a = ","%char) then Some (EmptyString, r)
      else match split_comma r with
           | Some (x, y) => Some (String a x, y)
           | None => None
           end
  end.

Definition newline : string := String "010" EmptyString.

(** ** The file system *)

Inductive node := File (content : string) | Dir.

Abbreviation fs := (gmap (list string) node).

Definition isfile (s : fs) (p : path) : bool :=
  match s !! p with Some (File _) => true | _ => false end.

Definition isdir (s : fs) (p : path) : bool :=
  match s !! p with Some Dir => true | _ => false end.

Definition parent (p : path) : path := take (length p - 1) p.

Definition basename (p : path) : string := List.last p EmptyString.

(** All prefixes of a path, the path itself included. *)
Definition inits (p : path) : list path :=
  map (λ k, take k p) (seq 0 (S (length p))).

(** Representation invariant of a file system: what lies above a node is
    a directory. *)
Definition fs_wf (s : fs) : Prop :=
  ∀ p n, s !! (p ++ [n]) ≠ None → s !! p = Some Dir.

(** [os.makedirs(p, exist_ok=True)]: fails ([None], an [OSError]) when [p]
    or something above it is a regular file, and then creates nothing. *)
Definition makedirs (s : fs) (p : path) : option fs :=
  if existsb (isfile s) (inits p) then None
  else Some (foldr (λ q m, <[q := Dir]> m) s (inits p)).

(** [open(p, "a+")]: creates an empty file when there is none. *)
Definition open_append (s : fs) (p : path) : option fs :=
  match s !! p with
  | Some Dir => None
  | Some (File _) => Some s
  | None => if isdir s (parent p) then Some (<[p := File EmptyString]> s) else None
  end.

(** [f.write(data)] on a file opened for appending at [p]. *)
Definition write (s : fs) (p : path) (data : string) : fs :=
  match s !! p with
  | Some (File c) => <[p := File (c +:+ data)]> s
  | _ => s
  end.

(** [shutil.copy2(src, dst)]: a [dst] that is a directory receives the file
    under the base name of [src]. *)
Definition copy2 (s : fs) (src dst : path) : option fs :=
  match s !! src with
  | Some (File c) =>
      let target := if isdir s dst then dst ++ [basename src] else dst in
      if decide (src = target) then None
      else if isdir s target then None
      else if isdir s (parent target) then Some (<[target := File c]> s)
      else None
  | _ => None
  end.

Fixpoint strip_prefix (pre p : path) : option path :=
  match pre, p with
  | [], _ => Some p
  | a :: pre', b :: p' => if decide (a = b) then strip_prefix pre' p' else None
  | _ :: _, [] => None
  end.

(** [os.listdir(p)] *)
Definition listdir (s : fs) (p : path) : option (list string) :=
  if isdir s p then
    Some (omap (λ k, match strip_prefix p k with Some [n] => Some n | _ => None end)
               (map fst (map_to_list s)))
  else None.

(** Modelled from the spec: [prodat.core.util.misc_functions.list_all_filepaths]
    is imported by the driver and its source is missing; following section
    4.1 it "enumerates every regular file under Root", as root-relative
    paths. *)
Definition list_all_filepaths (s : fs) (root : path) : list path :=
  omap (λ kv, match kv.2, strip_prefix root kv.1 with
              | File _, Some (n :: r) => Some (n :: r)
              | _, _ => None
              end)
       (map_to_list s).

(** ** Exceptions and results *)

Inductive exn :=
  | PathDoesNotExist | FileIOError | UnstagedChanges
  | CodeNotInitialized | CommitDoesNotExist
  | OSError.

Inductive result (A : Type) := Ok (a : A) | Raise (e : exn).
Arguments Ok {A} a.
Arguments Raise {A} e.

#[global] Instance exn_eq_dec : EqDecision exn.
Proof. solve_decision. Defined.

#[global] Instance result_ret : MRet result := λ A a, Ok a.
#[global] Instance result_bind : MBind result :=
  λ A B k r, match r with Ok a => k a | Raise e => Raise e end.

(** ** Orders used by [sorted] *)

(** Python compares strings character by character, which is [String.le];
    tracked paths are sorted as text. *)
Definition path_le (p q : path) : Prop :=
  String.le (string_of_path p) (string_of_path q).

#[global] Instance path_le_dec p q : Decision (path_le p q).
Proof. unfold path_le. apply _. Defined.

(** ** checksumdir.dirhash *)

(** [checksumdir.dirhash(dirname)] with its default arguments: the MD5 hex
    digest of every file found by walking the directory, then
    [_reduce_hash]: the MD5 of the sorted digests fed one after another.
    With [include_paths] left at its default no file name takes part.
    The directory is given by the list of its files. *)
Definition _filehash (content : string) : string := MD5.hexdigest content.

(** What [_reduce_hash] feeds to its hasher, one [update] per digest. *)
Definition reduce_input (hashlist : list string) : string :=
  String.concat EmptyString (merge_sort String.le hashlist).

Definition _reduce_hash (hashlist : list string) : string :=
  MD5.hexdigest (reduce_input hashlist).

Definition dirhash (files : list (path * string)) : string :=
  _reduce_hash (map (λ f, _filehash f.2) files).

(** ** pathspec *)

(** The pattern matcher of the [pathspec] package, as used on the lines of
    a [.prodatignore] file: [gitignore_match content p] tells whether the
    patterns in [content] exclude the root-relative file path [p]. *)
Class Pathspec := gitignore_match : string → path → bool.

(** A [gitwildmatch] pattern that is a plain name (no separator, no glob
    character) matches every path with a component of that name. *)
Definition name_match (name : string) (p : path) : bool :=
  bool_decide (name ∈ p).

(** ** FileCodeDriver *)

Record FileCodeDriver := {
  root : path;
  _prodat_directory_name : string
}.

Section Methods.
Context `{PS : Pathspec} (self : FileCodeDriver).

Definition _prodat_directory_path : path := root self ++ [_prodat_directory_name self].
Definition _code_filepath : path := _prodat_directory_path ++ ["code"].
Definition _prodat_ignore_filepath : path := root self ++ [".prodatignore"].

Definition is_initialized (s : fs) : bool :=
  isdir s _prodat_directory_path && isdir s _code_filepath.

Definition init (s : fs) : fs * result bool :=
  match (if isdir s _prodat_directory_path then Some s
         else makedirs s _prodat_directory_path) with
  | None => (s, Raise OSError)
  | Some s1 =>
      match (if isdir s1 _code_filepath then Some s1
             else makedirs s1 _code_filepath) with
      | None => (s1, Raise OSError)
      | Some s2 => (s2, Ok true)
      end
  end.

Definition ignored (s : fs) (p : path) : bool :=
  name_match (_prodat_directory_name self) p
  || name_match ".git" p
  || match s !! _prodat_ignore_filepath with
     | Some (File content) => gitignore_match content p
     | _ => false
     end.

Definition _get_tracked_files (s : fs) : list path :=
  merge_sort path_le
    (filter (λ p, ignored s p = false) (list_all_filepaths s (root self))).

(** The temporary copy made by [_calculate_commit_hash]: one file per
    tracked path, holding the bytes the live file has when it is copied.
    [mkdtemp] picks a fresh directory under the code directory and the
    [finally] clause removes it, so the copy is a value of its own and the
    file system is the same before and after. *)
Fixpoint copy_tracked (s : fs) (tracked_files : list path) : result (list (path * string)) :=
  match tracked_files with
  | [] => Ok []
  | rel_filepath :: rest =>
      match s !! (root self ++ rel_filepath) with
      | Some (File c) =>
          match copy_tracked s rest with
          | Ok tmp => Ok ((rel_filepath, c) :: tmp)
          | Raise e => Raise e
          end
      | _ => Raise PathDoesNotExist
      end
  end.

Definition _get_dirhash (files : list (path * string)) : string := dirhash files.

Definition _calculate_commit_hash (s : fs) (tracked_files : list path) : result string :=
  if isdir s _code_filepath then
    tmp ← copy_tracked s tracked_files;
    mret (_get_dirhash tmp)
  else Raise OSError.

(** Reading in chunks of 65536 bytes and feeding them to one [md5] object
    digests the whole content. *)
Definition _get_filehash (s : fs) (absolute_filepath : path) : result string :=
  match s !! absolute_filepath with
  | Some (File c) => Ok (MD5.hexdigest c)
  | _ => Raise PathDoesNotExist
  end.

Definition list_refs (s : fs) : result (list string) :=
  if negb (is_initialized s) then Raise CodeNotInitialized
  else if negb (isdir s _code_filepath) then Ok []
  else match listdir s _code_filepath with
       | None => Raise FileIOError
       | Some names => Ok (filter (λ name, isfile s (_code_filepath ++ [name]) = true) names)
       end.

Definition exists_ref (s : fs) (commit_id : string) : result bool :=
  if negb (is_initialized s) then Raise CodeNotInitialized
  else
    commit_hashes ← list_refs s;
    mret (bool_decide (commit_id ∈ commit_hashes)).

Definition _has_unstaged_changes (s : fs) : result bool :=
  let tracked_filepaths := _get_tracked_files s in
  commits ← list_refs s;
  match tracked_filepaths with
  | [] => mret (bool_decide (length commits = 0%nat))
  | _ =>
      commit_hash ← _calculate_commit_hash s tracked_filepaths;
      e ← exists_ref s commit_hash;
      mret (negb e)
  end.

Definition check_unstaged_changes (s : fs) : result bool :=
  if negb (is_initialized s) then Raise CodeNotInitialized
  else
    match _has_unstaged_changes s with
    | Raise e => Raise e
    | Ok true => Raise UnstagedChanges
    | Ok false => Ok false
    end.

Definition current_hash (s : fs) : result string :=
  check_unstaged_changes s;;
  _calculate_commit_hash s (_get_tracked_files s).

Definition current_ref (s : fs) : result string :=
  if negb (is_initialized s) then Raise CodeNotInitialized
  else _calculate_commit_hash s (_get_tracked_files s).

(** The body of the [for] loop of [create_ref] for one tracked file, the
    commit record being open at [commit_filepath]. An [OSError] inside the
    [try] is turned into [FileIOError]. *)
Definition record_file (commit_filepath tracked_filepath : path) (s : fs)
  : fs * result unit :=
  let absolute_filepath := root self ++ tracked_filepath in
  if negb (isfile s absolute_filepath) then (s, Raise FileIOError)
  else
    let blob_dir := _code_filepath ++ tracked_filepath in
    match makedirs s blob_dir with
    | None => (s, Raise FileIOError)
    | Some s1 =>
        match _get_filehash s1 absolute_filepath with
        | Raise e => (s1, Raise e)
        | Ok filehash =>
            let new_blob_path := blob_dir ++ [filehash] in
            match (if isfile s1 new_blob_path then Some s1
                   else copy2 s1 absolute_filepath new_blob_path) with
            | None => (s1, Raise FileIOError)
            | Some s2 =>
                (write s2 commit_filepath
                   (string_of_path tracked_filepath +:+ "," +:+ filehash +:+ newline),
                 Ok ())
            end
        end
    end.

(** The [for] loop itself: it stops at the first exception. *)
Fixpoint record_files (commit_filepath : path) (tracked_filepaths : list path) (s : fs)
  : fs * result unit :=
  match tracked_filepaths with
  | [] => (s, Ok ())
  | tracked_filepath :: rest =>
      match record_file commit_filepath tracked_filepath s with
      | (s1, Ok _) => record_files commit_filepath rest s1
      | (s1, Raise e) => (s1, Raise e)
      end
  end.

(** The part of [create_ref] that records a new Snapshot under
    [commit_hash]: the commit record is opened for appending, then filled
    file by file. *)
Definition record_commit (commit_hash : string) (tracked_filepaths : list path) (s : fs)
  : fs * result string :=
  match makedirs s _code_filepath with
  | None => (s, Raise OSError)
  | Some s1 =>
      let commit_filepath := _code_filepath ++ [commit_hash] in
      match open_append s1 commit_filepath with
      | None => (s1, Raise FileIOError)
      | Some s2 =>
          match record_files commit_filepath tracked_filepaths s2 with
          | (s3, Raise e) => (s3, Raise e)
          | (s3, Ok _) => (s3, Ok commit_hash)
          end
      end
  end.

Definition create_ref (commit_id : option string) (s : fs) : fs * result string :=
  if negb (is_initialized s) then (s, Raise CodeNotInitialized)
  else
    match commit_id with
    | Some (String a r) =>
        let commit_id := String a r in
        match exists_ref s commit_id with
        | Raise e => (s, Raise e)
        | Ok false => (s, Raise CommitDoesNotExist)
        | Ok true => (s, Ok commit_id)
        end
    | _ =>
        let tracked_filepaths := _get_tracked_files s in
        match _calculate_commit_hash s tracked_filepaths with
        | Raise e => (s, Raise e)
        | Ok commit_hash =>
            match exists_ref s commit_hash with
            | Raise e => (s, Raise e)
            | Ok true => (s, Ok commit_hash)
            | Ok false => record_commit commit_hash tracked_filepaths s
            end
        end
    end.

(** [create_ref] without a commit id when another writer is at work: the
    calls are those of [create_ref], and [edit] is what the other writer
    does to the file system between the fingerprint and the recording. *)
Definition create_ref_interleaved (edit : fs → fs) (s : fs) : fs * result string :=
  if negb (is_initialized s) then (s, Raise CodeNotInitialized)
  else
    let tracked_filepaths := _get_tracked_files s in
    match _calculate_commit_hash s tracked_filepaths with
    | Raise e => (s, Raise e)
    | Ok commit_hash =>
        match exists_ref s commit_hash with
        | Raise e => (s, Raise e)
        | Ok true => (s, Ok commit_hash)
        | Ok false => record_commit commit_hash tracked_filepaths (edit s)
        end
    end.

Definition delete_ref (commit_id : string) (s : fs) : fs * result bool :=
  if negb (is_initialized s) then (s, Raise CodeNotInitialized)
  else
    match exists_ref s commit_id with
    | Raise e => (s, Raise e)
    | Ok false => (s, Raise FileIOError)
    | Ok true =>
        let commit_filepath := _code_filepath ++ [commit_id] in
        if isfile s commit_filepath then (delete commit_filepath s, Ok true)
        else (s, Raise FileIOError)
    end.

(** The first loop of [checkout_ref]: [os.remove] of every tracked file
    that is there. *)
Fixpoint remove_tracked (tracked_filepaths : list path) (s : fs) : fs :=
  match tracked_filepaths with
  | [] => s
  | tracked_filepath :: rest =>
      let absolute_filepath := root self ++ tracked_filepath in
      remove_tracked rest
        (if isfile s absolute_filepath then delete absolute_filepath s else s)
  end.

(** The body of the second loop of [checkout_ref] for one line of the
    commit record. Outside of any [try], an [OSError] of [makedirs] or
    [copy2] propagates as it is. *)
Definition restore_line (line : string) (s : fs) : fs * result unit :=
  let stripped := rstrip line in
  if negb (nonempty stripped) then (s, Ok ())
  else
    match split_comma stripped with
    | None => (s, Raise FileIOError)
    | Some (tracked_filepath, filehash) =>
        let source_absolute_filepath :=
          path_join (path_join _code_filepath tracked_filepath) filehash in
        if negb (isfile s source_absolute_filepath) then (s, Raise FileIOError)
        else
          let destination_absolute_filepath := path_join (root self) tracked_filepath in
          let dest_dir := parent destination_absolute_filepath in
          match makedirs s dest_dir with
          | None => (s, Raise OSError)
          | Some s1 =>
              match copy2 s1 source_absolute_filepath destination_absolute_filepath with
              | None => (s1, Raise OSError)
              | Some s2 => (s2, Ok ())
              end
          end
    end.

Fixpoint restore_lines (lines : list string) (s : fs) : fs * result bool :=
  match lines with
  | [] => (s, Ok true)
  | line :: rest =>
      match restore_line line s with
      | (s1, Ok _) => restore_lines rest s1
      | (s1, Raise e) => (s1, Raise e)
      end
  end.

Definition checkout_ref (commit_id : string) (s : fs) : fs * result bool :=
  if negb (is_initialized s) then (s, Raise CodeNotInitialized)
  else
    match exists_ref s commit_id with
    | Raise e => (s, Raise e)
    | Ok false => (s, Raise FileIOError)
    | Ok true =>
        match _has_unstaged_changes s with
        | Raise e => (s, Raise e)
        | Ok true => (s, Raise UnstagedChanges)
        | Ok false =>
            let tracked_filepaths := _get_tracked_files s in
            match _calculate_commit_hash s tracked_filepaths with
            | Raise e => (s, Raise e)
            | Ok h =>
                if decide (h = commit_id) then (s, Ok true)
                else
                  let s1 := remove_tracked tracked_filepaths s in
                  let commit_filepath := _code_filepath ++ [commit_id] in
                  match s1 !! commit_filepath with
                  | Some (File content) => restore_lines (file_lines content) s1
                  | _ => (s1, Raise FileIOError)
                  end
            end
        end
    end.

End Methods.

(** ** The constructor and [latest_ref] *)

(** [FileCodeDriver(root, prodat_directory_name)]: the root has to exist;
    the three paths kept by the object are derived from the two fields. *)
Definition __init__ (s : fs) (root : path) (prodat_directory_name : string)
  : result FileCodeDriver :=
  if bool_decide (is_Some (s !! root)) then
    Ok {| root := root; _prodat_directory_name := prodat_directory_name |}
  else Raise PathDoesNotExist.

Section LatestRef.
(** [os.path.getmtime]: the file system above keeps no times; they are
    read from [getmtime]. *)
Context (getmtime : path → Z) (self : FileCodeDriver).

(** [full_paths.sort(key=os.path.getmtime, reverse=True)]: the sort is
    stable, so a path goes past the paths with a greater time only. *)
Fixpoint insert_by_mtime (p : path) (l : list path) : list path :=
  match l with
  | [] => [p]
  | q :: r =>
      if (getmtime p <? getmtime q)%Z then q :: insert_by_mtime p r else p :: q :: r
  end.

Definition sort_by_mtime_reverse (l : list path) : list path :=
  foldr insert_by_mtime [] l.

Definition latest_ref (s : fs) : result (option string) :=
  if negb (is_initialized self s) then Raise CodeNotInitialized
  else
    commit_hashes ← list_refs self s;
    match commit_hashes with
    | [] => mret None
    | _ =>
        let full_paths :=
          filter (λ p, isfile s p = true)
                 (map (λ h, _code_filepath self ++ [h]) commit_hashes) in
        match sort_by_mtime_reverse full_paths with
        | [] => mret None
        | p :: _ => mret (Some (basename p))
        end
    end.

End LatestRef.

(** ** Vocabulary of the statements *)

(** The bytes of the regular file at [p] (empty when there is none). *)
Definition content_at (s : fs) (p : path) : string :=
  match s !! p with Some (File c) => c | _ => EmptyString end.

(** The files at the root-relative paths [paths], with their bytes. *)
Definition tree_of (self : FileCodeDriver) (s : fs) (paths : list path)
  : list (path * string) :=
  map (λ p, (p, content_at s (root self ++ p))) paths.

(** The tracked tree of a state: every tracked path with its bytes. *)
Definition tracked_tree `{PS : Pathspec} (self : FileCodeDriver) (s : fs)
  : list (path * string) :=
  tree_of self s (_get_tracked_files self s).

(** Where the blob of the bytes [c] of the file at [p] is stored. *)
Definition blob_path (self : FileCodeDriver) (p : path) (c : string) : path :=
  _code_filepath self ++ p ++ [MD5.hexdigest c].

(** A checkable form of [fs_wf]. *)
Definition fs_wf_check (s : fs) : bool :=
  forallb (λ k, match k with [] => true | _ => isdir s (parent k) end)
          (map fst (map_to_list s)).

(** The text of a commit record: one line per file of the tree. *)
Definition manifest_line (e : path * string) : string :=
  string_of_path e.1 +:+ "," +:+ MD5.hexdigest e.2 +:+ newline.

Definition manifest_text (t : list (path * string)) : string :=
  foldr (λ e acc, manifest_line e +:+ acc) EmptyString t.

(** No two different byte strings of [l] have the same MD5 digest. *)
Definition collision_free (l : list string) : bool :=
  forallb (λ x, forallb (λ y,
      implb (bool_decide (MD5.hexdigest x = MD5.hexdigest y)) (bool_decide (x = y))) l) l.

(** The bytes of the files of a tree, and the text hashed into its
    fingerprint. *)
Definition contents (t : list (path * string)) : list string := map snd t.

Definition fingerprint_input (t : list (path * string)) : string :=
  reduce_input (map (λ f, _filehash f.2) t).

(** Characters and names that go through a commit record unharmed: a
    character of a record line is neither the field separator nor a line
    terminator; a name, in addition, holds no path separator. *)
Fixpoint string_forall (P : ascii → bool) (s : string) : bool :=
  match s with
  | EmptyString => true
  | String a r => P a && string_forall P r
  end.

Definition text_char (a : ascii) : bool :=
  negb (bool_decide (a = ","%char)) && negb (bool_decide (a = "010"%char))
  && negb (bool_decide (a = "013"%char)).

Definition name_char (a : ascii) : bool :=
  text_char a && negb (bool_decide (a = "/"%char)).

Definition plain_name (n : string) : bool := nonempty n && string_forall name_char n.

Definition plain_path (p : path) : bool := forallb plain_name p.

Definition hex_char (a : ascii) : bool := bool_decide (a ∈ MD5.hexdigits).

(** A line of a commit record without its terminator. *)
Definition line_body (e : path * string) : string :=
  string_of_path e.1 +:+ String "," (MD5.hexdigest e.2).

(** One line of a commit record read back by [checkout_ref], in terms of
    the path and the digest it stands for. *)
Definition restore_entry (self : FileCodeDriver) (p : path) (filehash : string) (s : fs)
  : fs * result unit :=
  let source := _code_filepath self ++ p ++ [filehash] in
  if negb (isfile s source) then (s, Raise FileIOError)
  else
    match makedirs s (parent (root self ++ p)) with
    | None => (s, Raise OSError)
    | Some s1 =>
        match copy2 s1 source (root self ++ p) with
        | None => (s1, Raise OSError)
        | Some s2 => (s2, Ok ())
        end
    end.

Fixpoint restore_entries (self : FileCodeDriver) (t : list (path * string)) (s : fs)
  : fs * result bool :=
  match t with
  | [] => (s, Ok true)
  | e :: rest =>
      match restore_entry self e.1 (MD5.hexdigest e.2) s with
      | (s1, Ok _) => restore_entries self rest s1
      | (s1, Raise err) => (s1, Raise err)
      end
  end.

(** [s'] keeps every directory and every regular file of [s] (a file may
    get new bytes) and, outside of the paths in [touch], has the very same
    regular files as [s]. *)
Definition fs_grows (touch : path → Prop) (s s' : fs) : Prop :=
  (∀ q, s !! q = Some Dir → s' !! q = Some Dir) ∧
  (∀ q, isfile s q = true → isfile s' q = true) ∧
  (∀ q c, ¬ touch q → s' !! q = Some (File c) ↔ s !! q = Some (File c)).

(** The regular files a commit may write: its commit record and what lies
    under the blob directories. *)
Definition touched (self : FileCodeDriver) (commit_filepath : path) (q : path) : Prop :=
  q = commit_filepath ∨ ∃ p r, p ≠ [] ∧ r ≠ [] ∧ q = _code_filepath self ++ p ++ r.

(** ** Concrete projects *)

Module Scenario.

(** A matcher for the ignore files used below: the fragment of gitignore
    in which every line is a plain name, which excludes the paths having a
    component of that name. *)
Definition plain_names : Pathspec := λ content p,
  existsb (λ line, nonempty (rstrip line) && bool_decide (rstrip line ∈ p))
          (file_lines content).

Definition drv : FileCodeDriver :=
  {| root := ["home"; "proj"]; _prodat_directory_name := ".prodat" |}.

(** The same project checked out somewhere else. *)
Definition drv' : FileCodeDriver :=
  {| root := ["srv"; "copy"]; _prodat_directory_name := ".prodat" |}.

Definition run {A} (m : fs → fs * result A) (s : fs) : fs := (m s).1.

(** An empty project, initialized. *)
Definition empty_project : fs :=
  run (init drv) (list_to_map [([], Dir); (["home"], Dir); (["home"; "proj"], Dir)]).

(** The project of the end-to-end scenario: [a.txt] holds "x", [b.txt] "y". *)
Definition project_ab : fs :=
  <[ ["home"; "proj"; "b.txt"] := File "y" ]>
    (<[ ["home"; "proj"; "a.txt"] := File "x" ]> empty_project).

Definition committed_ab : fs := run (create_ref (PS := plain_names) drv None) project_ab.

Definition D1 : string := "284875f5fdbb778b2c07b081df382c5c".

(** [a.txt] edited to "z" after the commit. *)
Definition edited_ab : fs := <[ ["home"; "proj"; "a.txt"] := File "z" ]> committed_ab.

(** The empty project after its first commit, whose digest is the MD5 of
    nothing; then a file that bears this digest as its name. *)
Definition D0 : string := "d41d8cd98f00b204e9800998ecf8427e".

Definition committed_empty : fs := run (create_ref (PS := plain_names) drv None) empty_project.

Definition clashing_project : fs := <[ ["home"; "proj"; D0] := File "x" ]> committed_empty.

Definition Dx : string := "64eb18f6a8f793689ad1eb1136f43ccf".

(** A project with the single file [a.txt], and the same project after
    renaming the file to [b.txt]. *)
Definition project_a : fs := <[ ["home"; "proj"; "a.txt"] := File "x" ]> empty_project.

Definition project_renamed : fs := <[ ["home"; "proj"; "b.txt"] := File "x" ]> empty_project.

(** The end-to-end project copied to another place. *)
Definition project_ab_copy : fs :=
  <[ ["srv"; "copy"; "b.txt"] := File "y" ]>
    (<[ ["srv"; "copy"; "a.txt"] := File "x" ]>
       (run (init drv') (list_to_map [([], Dir); (["srv"], Dir); (["srv"; "copy"], Dir)]))).

(** Another writer replacing the bytes of [a.txt] by "z". *)
Definition edit_a (s : fs) : fs := <[ ["home"; "proj"; "a.txt"] := File "z" ]> s.

(** The end-to-end project after the edit, with an ignored file beside
    the tracked ones, committed again and then checked out at [D1]. *)
Definition edited_with_git : fs :=
  <[ ["home"; "proj"; ".git"; "config"] := File "g" ]>
    (<[ ["home"; "proj"; ".git"] := Dir ]> edited_ab).

Definition recommitted_ab : fs :=
  run (create_ref (PS := plain_names) drv None) edited_with_git.

Definition restored_ab : fs :=
  run (checkout_ref (PS := plain_names) drv D1) recommitted_ab.

(** The single-file project committed, then its file moved to [b.txt]. *)
Definition committed_a : fs := run (create_ref (PS := plain_names) drv None) project_a.

Definition moved_a : fs :=
  <[ ["home"; "proj"; "b.txt"] := File "x" ]> (delete ["home"; "proj"; "a.txt"] committed_a).

(** The single-file project committed, then [a.txt] replaced by a
    directory of that name holding one file, and committed again. *)
Definition dir_in_the_way : fs :=
  run (create_ref (PS := plain_names) drv None)
    (<[ ["home"; "proj"; "a.txt"; "inner"] := File "w" ]>
       (<[ ["home"; "proj"; "a.txt"] := Dir ]> committed_a)).

(** The end-to-end project committed, then [b.txt] put on the ignore list
    and given other bytes, and committed again. *)
Definition ignoring_b : fs :=
  run (create_ref (PS := plain_names) drv None)
    (<[ ["home"; "proj"; "b.txt"] := File "private" ]>
       (<[ ["home"; "proj"; ".prodatignore"] := File "b.txt" ]> committed_ab)).

(** The directory of the project before the store is initialized. *)
Definition bare_project : fs :=
  list_to_map [([], Dir); (["home"], Dir); (["home"; "proj"], Dir)].

(** The end-to-end project with a third file added after its commit,
    committed again, and then checked out at [D1]. *)
Definition committed_abc : fs :=
  run (create_ref (PS := plain_names) drv None)
    (<[ ["home"; "proj"; "c.txt"] := File "w" ]> committed_ab).

Definition restored_abc : fs := run (checkout_ref (PS := plain_names) drv D1) committed_abc.

(** The end-to-end project after its commit, with a commit record beside
    that of [D1] whose only line is no entry. *)
Definition corrupted_ab : fs :=
  <[ ["home"; "proj"; ".prodat"; "code"; "bad"] := File "garbage" ]> committed_ab.

(** Modification times under which the commit record of [D1] is the oldest. *)
Definition mtimes (p : path) : Z :=
  if decide (p = _code_filepath drv ++ [D1]) then 1%Z else 2%Z.

End Scenario.

(** * Properties *)

(** ** Strings *)

Lemma string_app_nil_l (s : string) : EmptyString +:+ s = s.
Proof. done. Qed.

Lemma string_app_nil_r (s : string) : s +:+ EmptyString = s.
Proof. induction s as [|a s IH]; [done|]. exact (f_equal (String a) IH). Qed.

Lemma string_app_assoc (s t u : string) : (s +:+ t) +:+ u = s +:+ t +:+ u.
Proof. induction s as [|a s IH]; [done|]. exact (f_equal (String a) IH). Qed.

Lemma string_app_cons (a : ascii) (s t : string) :
  String a s +:+ t = String a (s +:+ t).
Proof. done. Qed.

Lemma string_forall_app (P : ascii → bool) (s t : string) :
  string_forall P (s +:+ t) = string_forall P s && string_forall P t.
Proof.
  induction s as [|a s IH]; [done|].
  rewrite string_app_cons. simpl. by rewrite IH, andb_assoc.
Qed.

Lemma string_forall_impl (P Q : ascii → bool) (s : string) :
  (∀ a, P a = true → Q a = true) →
  string_forall P s = true → string_forall Q s = true.
Proof.
  intros HPQ. induction s as [|a s IH]; [done|]. simpl.
  rewrite !andb_true_iff. intros [??]. auto.
Qed.

(** *** Splitting *)

Lemma split_on_nosep (c : ascii) (s : string) :
  string_forall (λ a, negb (bool_decide (a = c))) s = true → split_on c s = [s].
Proof.
  induction s as [|a s IH]; [done|]. simpl.
  rewrite andb_true_iff, negb_true_iff, bool_decide_eq_false. intros [Ha Hs].
  rewrite decide_False by done. by rewrite IH.
Qed.

Lemma split_on_app (c : ascii) (s t : string) :
  string_forall (λ a, negb (bool_decide (a = c))) s = true →
  split_on c (s +:+ String c t) = s :: split_on c t.
Proof.
  induction s as [|a s IH].
  - intros _. rewrite string_app_nil_l. simpl. by rewrite decide_True.
  - simpl. rewrite andb_true_iff, negb_true_iff, bool_decide_eq_false. intros [Ha Hs].
    rewrite decide_False by done. by rewrite IH.
Qed.

Lemma split_comma_app (s t : string) :
  string_forall (λ a, negb (bool_decide (a = ","%char))) s = true →
  split_comma (s +:+ String "," t) = Some (s, t).
Proof.
  induction s as [|a s IH].
  - done.
  - simpl. rewrite andb_true_iff, negb_true_iff, bool_decide_eq_false. intros [Ha Hs].
    rewrite decide_False by done. by rewrite IH.
Qed.

Lemma rstrip_nospace (s : string) :
  string_forall (λ a, negb (is_space a)) s = true → rstrip s = s.
Proof.
  induction s as [|a s IH]; [done|]. simpl.
  rewrite andb_true_iff, negb_true_iff. intros [Ha Hs].
  rewrite IH by done. destruct s; [by rewrite Ha|done].
Qed.

Lemma rstrip_app (s t : string) :
  nonempty t = true → rstrip t = t → rstrip (s +:+ t) = s +:+ t.
Proof.
  intros Hne Ht. induction s as [|a s IH]; [done|].
  rewrite string_app_cons. simpl. rewrite IH.
  destruct (s +:+ t) eqn:E; [|done].
  destruct s, t; done.
Qed.

Lemma universal_newlines_id (s : string) :
  string_forall (λ a, negb (bool_decide (a = "013"%char))) s = true →
  universal_newlines s = s.
Proof.
  induction s as [|a s IH]; [done|]. simpl.
  rewrite andb_true_iff, negb_true_iff, bool_decide_eq_false. intros [Ha Hs].
  rewrite decide_False by done. by rewrite IH.
Qed.

(** *** Paths as text *)

Lemma string_of_path_cons (x y : string) (r : path) :
  string_of_path (x :: y :: r) = x +:+ String "/" (string_of_path (y :: r)).
Proof. done. Qed.

Lemma string_forall_render (P : ascii → bool) (p : path) :
  P "/"%char = true → Forall (λ n, string_forall P n = true) p →
  string_forall P (string_of_path p) = true.
Proof.
  intros Hsep. induction 1 as [|x p Hx Hp IH]; [done|].
  destruct p as [|y r]; [done|].
  rewrite string_of_path_cons, string_forall_app. simpl.
  by rewrite Hx, Hsep, IH.
Qed.

Lemma split_on_render (p : path) :
  p ≠ [] →
  Forall (λ n, string_forall (λ a, negb (bool_decide (a = "/"%char))) n = true) p →
  split_on "/" (string_of_path p) = p.
Proof.
  intros Hne Hp. induction Hp as [|x p Hx Hp IH]; [done|].
  destruct p as [|y r]; [by apply split_on_nosep|].
  rewrite string_of_path_cons, split_on_app by done. by rewrite IH.
Qed.

Lemma name_char_text (a : ascii) : name_char a = true → text_char a = true.
Proof. unfold name_char. by intros [??]%andb_true_iff. Qed.

Lemma name_char_noslash (a : ascii) :
  name_char a = true → negb (bool_decide (a = "/"%char)) = true.
Proof. unfold name_char. by intros [??]%andb_true_iff. Qed.

Lemma text_char_nocomma (a : ascii) :
  text_char a = true → negb (bool_decide (a = ","%char)) = true.
Proof. unfold text_char. by intros [[??]%andb_true_iff ?]%andb_true_iff. Qed.

Lemma text_char_nolf (a : ascii) :
  text_char a = true → negb (bool_decide (a = "010"%char)) = true.
Proof. unfold text_char. by intros [[??]%andb_true_iff ?]%andb_true_iff. Qed.

Lemma text_char_nocr (a : ascii) :
  text_char a = true → negb (bool_decide (a = "013"%char)) = true.
Proof. unfold text_char. by intros [[??]%andb_true_iff ?]%andb_true_iff. Qed.

Lemma plain_path_Forall (p : path) :
  plain_path p = true →
  Forall (λ n, nonempty n = true ∧ string_forall name_char n = true) p.
Proof.
  unfold plain_path. rewrite forallb_forall, Forall_forall.
  intros H n Hn%list_elem_of_In%H. by apply andb_true_iff in Hn.
Qed.

Lemma plain_path_text (p : path) :
  plain_path p = true → string_forall text_char (string_of_path p) = true.
Proof.
  intros Hp%plain_path_Forall. apply string_forall_render; [done|].
  eapply Forall_impl; [exact Hp|]. intros n [_ Hn].
  by eapply string_forall_impl; [apply name_char_text|].
Qed.

Lemma filter_all {A} (P : A → Prop) `{∀ x, Decision (P x)} (l : list A) :
  Forall P l → filter P l = l.
Proof.
  induction 1 as [|x l Hx _ IH]; [done|]. by rewrite filter_cons_True, IH.
Qed.

Lemma path_join_render (base p : path) :
  plain_path p = true → path_join base (string_of_path p) = base ++ p.
Proof.
  intros Hp%plain_path_Forall. unfold path_join.
  destruct p as [|x r]; [vm_compute filter; simpl; by rewrite app_nil_r|].
  rewrite split_on_render; [|done|].
  2:{ eapply Forall_impl; [exact Hp|]. intros n [_ Hn].
      by eapply string_forall_impl; [apply name_char_noslash|]. }
  assert (filter (λ n, nonempty n = true) (x :: r) = x :: r) as ->.
  { apply filter_all. eapply Forall_impl; [exact Hp|]. by intros n [? _]. }
  apply Forall_cons in Hp as [[Hx1 Hx2] _].
  destruct x as [|a x]; [done|]. simpl in Hx2. apply andb_true_iff in Hx2 as [Ha _].
  apply name_char_noslash, negb_true_iff, bool_decide_eq_false in Ha.
  destruct r as [|y r].
  - simpl. by rewrite decide_False.
  - rewrite string_of_path_cons, string_app_cons. by rewrite decide_False.
Qed.

Lemma path_join_name (base : path) (n : string) :
  plain_name n = true → path_join base n = base ++ [n].
Proof.
  intros Hn. apply (path_join_render base [n]). simpl. by rewrite Hn.
Qed.

(** ** Paths *)

Lemma strip_prefix_Some pre p r : strip_prefix pre p = Some r ↔ p = pre ++ r.
Proof.
  revert p. induction pre as [|a pre IH]; intros [|b p]; simpl.
  - split; [intros [= <-]|intros <-]; done.
  - split; [intros [= <-]|intros <-]; done.
  - split; [done|intros [=]].
  - case_decide as Hab.
    + subst b. rewrite IH. split; [intros ->|intros [= ->]]; done.
    + split; [done|intros [= -> _]; done].
Qed.

Lemma strip_prefix_app pre r : strip_prefix pre (pre ++ r) = Some r.
Proof. by apply strip_prefix_Some. Qed.

Lemma elem_of_inits (q p : path) : q ∈ inits p ↔ q `prefix_of` p.
Proof.
  unfold inits. rewrite list_elem_of_fmap. split.
  - intros (k & -> & _). exists (drop k p). by rewrite take_drop.
  - intros [r ->]. exists (length q). split.
    + by rewrite take_app_length.
    + apply elem_of_seq. rewrite length_app. lia.
Qed.

Lemma prefix_snoc_inv (q p : path) (n : string) :
  q `prefix_of` p ++ [n] → q = p ++ [n] ∨ q `prefix_of` p.
Proof.
  intros [r Hr]. destruct r as [|x r _] using rev_ind.
  - left. by rewrite app_nil_r in Hr.
  - right. rewrite app_assoc in Hr. apply app_inj_tail in Hr as [-> _].
    by exists r.
Qed.

Lemma parent_snoc (p : path) (n : string) : parent (p ++ [n]) = p.
Proof.
  unfold parent. rewrite length_app. simpl.
  replace (length p + 1 - 1)%nat with (length p) by lia.
  by rewrite take_app_length.
Qed.

Lemma basename_snoc (p : path) (n : string) : basename (p ++ [n]) = n.
Proof. unfold basename. by rewrite last_last. Qed.

(** ** File-system operations *)

Lemma isfile_true s p : isfile s p = true ↔ ∃ c, s !! p = Some (File c).
Proof.
  unfold isfile. destruct (s !! p) as [[c|]|]; split; try done; eauto.
  all: by intros [? [=]].
Qed.

Lemma isdir_true s p : isdir s p = true ↔ s !! p = Some Dir.
Proof. unfold isdir. by destruct (s !! p) as [[c|]|]. Qed.

Lemma isfile_isdir s p : isfile s p = true → isdir s p = false.
Proof. unfold isfile, isdir. by destruct (s !! p) as [[c|]|]. Qed.

Lemma lookup_mkdir_all (l : list path) (s : fs) (q : path) :
  foldr (λ q m, <[q := Dir]> m) s l !! q = if decide (q ∈ l) then Some Dir else s !! q.
Proof.
  induction l as [|a l IH]; cbn [foldr].
  - by rewrite decide_False by apply not_elem_of_nil.
  - destruct (decide (a = q)) as [->|Hne].
    + rewrite lookup_insert_eq. rewrite decide_True; [done|]. apply elem_of_cons; auto.
    + rewrite lookup_insert_ne by done. rewrite IH.
      destruct (decide (q ∈ l)) as [Hin|Hin].
      * rewrite decide_True; [done|]. apply elem_of_cons; auto.
      * rewrite decide_False; [done|]. rewrite elem_of_cons. by intros [?|?].
Qed.

Lemma makedirs_Some s p s' :
  makedirs s p = Some s' →
  (∀ q, q `prefix_of` p → isfile s q = false) ∧
  (∀ q, q `prefix_of` p → s' !! q = Some Dir) ∧
  (∀ q, ¬ q `prefix_of` p → s' !! q = s !! q).
Proof.
  unfold makedirs. destruct (existsb _ _) eqn:Hex; [done|].
  intros Heq. apply (inj Some) in Heq. subst s'.
  split_and!.
  - intros q Hq. destruct (isfile s q) eqn:Hf; [|done].
    assert (existsb (isfile s) (inits p) = true) as Ht; [|congruence].
    apply existsb_exists. exists q. split; [|done].
    apply list_elem_of_In, elem_of_inits, Hq.
  - intros q Hq. rewrite lookup_mkdir_all, decide_True; [done|].
    by apply elem_of_inits.
  - intros q Hq. rewrite lookup_mkdir_all, decide_False; [done|].
    by rewrite elem_of_inits.
Qed.

Lemma makedirs_file s p s' q c :
  makedirs s p = Some s' → s' !! q = Some (File c) ↔ s !! q = Some (File c).
Proof.
  intros (Hnf & Hpre & Hoth)%makedirs_Some.
  destruct (decide (q `prefix_of` p)) as [Hq|Hq].
  - rewrite (Hpre q Hq). specialize (Hnf q Hq).
    split; [done|]. intros Hs. apply not_true_iff_false in Hnf.
    exfalso. apply Hnf. apply isfile_true. eauto.
  - by rewrite (Hoth q Hq).
Qed.

Lemma makedirs_dir s p s' q :
  makedirs s p = Some s' → s !! q = Some Dir → s' !! q = Some Dir.
Proof.
  intros (Hnf & Hpre & Hoth)%makedirs_Some Hd.
  destruct (decide (q `prefix_of` p)) as [Hq|Hq]; [by apply Hpre|].
  by rewrite (Hoth q Hq).
Qed.

Lemma makedirs_isfile s p s' q :
  makedirs s p = Some s' → isfile s' q = isfile s q.
Proof.
  intros Hm. apply eq_true_iff_eq. rewrite !isfile_true.
  split; intros [c Hc]; exists c; by eapply (makedirs_file s p s').
Qed.

Lemma copy2_Some s src dst s' :
  copy2 s src dst = Some s' →
  ∃ c, s !! src = Some (File c) ∧
    let target := if isdir s dst then dst ++ [basename src] else dst in
    isdir s target = false ∧ s' = <[target := File c]> s.
Proof.
  unfold copy2. destruct (s !! src) as [[c|]|]; [|done..].
  case_decide; [done|].
  destruct (isdir s (if isdir s dst then _ else _)) eqn:Hd; [done|].
  destruct (isdir s (parent _)); [|done].
  intros [= <-]. eauto.
Qed.

Lemma open_append_Some s p s' :
  open_append s p = Some s' →
  (∃ c, s !! p = Some (File c) ∧ s' = s) ∨
  (s !! p = None ∧ s' = <[p := File EmptyString]> s).
Proof.
  unfold open_append. destruct (s !! p) as [[c|]|].
  - intros [= <-]. left. eauto.
  - done.
  - destruct (isdir _ _); [|done]. intros [= <-]. by right.
Qed.

Lemma elem_of_listdir s p l n :
  listdir s p = Some l → n ∈ l ↔ is_Some (s !! (p ++ [n])).
Proof.
  unfold listdir. destruct (isdir s p); [|done].
  intros Heq. apply (inj Some) in Heq. subst l.
  rewrite list_elem_of_omap. split.
  - intros (k & Hk & Hm).
    destruct (strip_prefix p k) as [[|n' [|]]|] eqn:E; try done.
    apply (inj Some) in Hm. subst n'. apply strip_prefix_Some in E as ->.
    apply list_elem_of_fmap in Hk as ([k' v] & Hk' & Hkv). simpl in Hk'. subst k'.
    apply elem_of_map_to_list in Hkv. eauto.
  - intros [v Hv]. exists (p ++ [n]). split.
    + apply list_elem_of_fmap. exists (p ++ [n], v). split; [done|].
      by apply elem_of_map_to_list.
    + by rewrite strip_prefix_app.
Qed.

Lemma elem_of_list_all_filepaths s rt r :
  r ∈ list_all_filepaths s rt ↔ r ≠ [] ∧ isfile s (rt ++ r) = true.
Proof.
  unfold list_all_filepaths. rewrite list_elem_of_omap. split.
  - intros ([k v] & Hkv & Hm). apply elem_of_map_to_list in Hkv. simpl in Hm.
    destruct v as [c|]; [|done].
    destruct (strip_prefix rt k) as [[|n r']|] eqn:E; try done.
    apply (inj Some) in Hm. subst r. apply strip_prefix_Some in E as ->.
    split; [done|]. apply isfile_true. eauto.
  - intros [Hne [c Hc]%isfile_true]. exists (rt ++ r, File c). split.
    + by apply elem_of_map_to_list.
    + simpl. rewrite strip_prefix_app. by destruct r.
Qed.

Lemma NoDup_omap_inj {A B} (f : A → option B) (l : list A) :
  (∀ x y z, x ∈ l → y ∈ l → f x = Some z → f y = Some z → x = y) →
  NoDup l → NoDup (omap f l).
Proof.
  intros Hinj Hnd. induction Hnd as [|a l Hni Hnd IH]; simpl; [constructor|].
  assert (NoDup (omap f l)) as IH'.
  { apply IH. intros x y z Hx Hy. apply Hinj; by apply elem_of_cons; right. }
  destruct (f a) as [b|] eqn:Hfa; [|done].
  constructor; [|done]. rewrite list_elem_of_omap. intros (x & Hx & Hfx).
  assert (a = x) as ->; [|done].
  eapply Hinj; [| |done..]; apply elem_of_cons; auto.
Qed.

Lemma NoDup_list_all_filepaths s rt : NoDup (list_all_filepaths s rt).
Proof.
  unfold list_all_filepaths. apply NoDup_omap_inj; [|apply NoDup_map_to_list].
  intros [k1 v1] [k2 v2] z H1%elem_of_map_to_list H2%elem_of_map_to_list.
  simpl. intros E1 E2.
  destruct v1 as [c1|]; [|done]. destruct v2 as [c2|]; [|done].
  destruct (strip_prefix rt k1) as [[|n1 r1]|] eqn:S1; try done.
  destruct (strip_prefix rt k2) as [[|n2 r2]|] eqn:S2; try done.
  apply strip_prefix_Some in S1, S2. simplify_eq. done.
Qed.

Section DriverFacts.
Context `{PS : Pathspec} (d : FileCodeDriver).

Lemma elem_of_tracked (s : fs) (p : path) :
  p ∈ _get_tracked_files d s ↔
  p ≠ [] ∧ isfile s (root d ++ p) = true ∧ ignored d s p = false.
Proof.
  unfold _get_tracked_files. rewrite merge_sort_Permutation.
  rewrite list_elem_of_filter, elem_of_list_all_filepaths. tauto.
Qed.

Lemma NoDup_tracked (s : fs) : NoDup (_get_tracked_files d s).
Proof.
  unfold _get_tracked_files. rewrite merge_sort_Permutation.
  apply NoDup_filter, NoDup_list_all_filepaths.
Qed.

Lemma list_refs_Ok (s : fs) :
  is_initialized d s = true →
  ∃ l, list_refs d s = Ok l ∧ ∀ c, c ∈ l ↔ isfile s (_code_filepath d ++ [c]) = true.
Proof.
  intros Hi. unfold list_refs. rewrite Hi. simpl.
  assert (isdir s (_code_filepath d) = true) as Hc.
  { unfold is_initialized in Hi. by apply andb_true_iff in Hi as [_ ?]. }
  rewrite Hc. simpl.
  destruct (listdir s (_code_filepath d)) as [names|] eqn:Hl.
  - eexists. split; [done|]. intros c. rewrite list_elem_of_filter.
    rewrite (elem_of_listdir _ _ _ _ Hl). split; [tauto|].
    intros Hf. split; [done|]. apply isfile_true in Hf as [x Hx]. eauto.
  - unfold listdir in Hl. by rewrite Hc in Hl.
Qed.

Lemma list_refs_uninitialized (s : fs) :
  is_initialized d s = false → list_refs d s = Raise CodeNotInitialized.
Proof. intros Hi. unfold list_refs. by rewrite Hi. Qed.

Lemma exists_ref_isfile (s : fs) (c : string) :
  is_initialized d s = true →
  exists_ref d s c = Ok (isfile s (_code_filepath d ++ [c])).
Proof.
  intros Hi. unfold exists_ref. rewrite Hi. simpl.
  destruct (list_refs_Ok s Hi) as (l & -> & Hl). simpl. unfold mret, result_ret. f_equal.
  apply eq_true_iff_eq. rewrite bool_decide_eq_true. apply Hl.
Qed.

Lemma exists_ref_Ok_initialized (s : fs) (c : string) (b : bool) :
  exists_ref d s c = Ok b → is_initialized d s = true.
Proof. unfold exists_ref. by destruct (is_initialized d s). Qed.

Lemma copy_tracked_Ok (s : fs) (l : list path) :
  Forall (λ p, isfile s (root d ++ p) = true) l →
  copy_tracked d s l = Ok (map (λ p, (p, content_at s (root d ++ p))) l).
Proof.
  induction 1 as [|p l Hp _ IH]; simpl; [done|].
  unfold content_at. apply isfile_true in Hp as [c ->]. by rewrite IH.
Qed.

Lemma tracked_isfile (s : fs) :
  Forall (λ p, isfile s (root d ++ p) = true) (_get_tracked_files d s).
Proof. apply Forall_forall. intros p Hp. by apply elem_of_tracked in Hp as (_ & ? & _). Qed.

Lemma calculate_commit_hash_tracked (s : fs) :
  is_initialized d s = true →
  _calculate_commit_hash d s (_get_tracked_files d s) = Ok (dirhash (tracked_tree d s)).
Proof.
  intros Hi. unfold _calculate_commit_hash.
  unfold is_initialized in Hi. apply andb_true_iff in Hi as [_ ->].
  by rewrite copy_tracked_Ok by apply tracked_isfile.
Qed.

Lemma current_ref_Ok (s : fs) :
  is_initialized d s = true → current_ref d s = Ok (dirhash (tracked_tree d s)).
Proof.
  intros Hi. unfold current_ref. rewrite Hi. simpl.
  by apply calculate_commit_hash_tracked.
Qed.

(** [_has_unstaged_changes] never raises once the layout is there. *)
Lemma has_unstaged_changes_Ok (s : fs) :
  is_initialized d s = true →
  ∃ commits, list_refs d s = Ok commits ∧
    (∀ c, c ∈ commits ↔ isfile s (_code_filepath d ++ [c]) = true) ∧
    _has_unstaged_changes d s =
      Ok (match _get_tracked_files d s with
          | [] => bool_decide (commits = [])
          | _ => negb (isfile s (_code_filepath d ++ [dirhash (tracked_tree d s)]))
          end).
Proof.
  intros Hi. unfold _has_unstaged_changes.
  destruct (list_refs_Ok s Hi) as (l & Hlr & Hl). exists l. rewrite Hlr.
  split_and!; [done..|]. simpl.
  destruct (_get_tracked_files d s) as [|p tr] eqn:Htr.
  - unfold mret, result_ret. f_equal. apply bool_decide_ext. by destruct l.
  - rewrite <-Htr. rewrite calculate_commit_hash_tracked by done. simpl.
    by rewrite exists_ref_isfile by done.
Qed.

End DriverFacts.

(** ** MD5 digests are 32 characters long *)

Lemma length_le_bytes (n : nat) (v : Z) : length (MD5.le_bytes n v) = n.
Proof. revert v. induction n as [|n IH]; intros v; simpl; [done|]. by rewrite IH. Qed.

Lemma length_hex (bs : list Z) : String.length (MD5.hex bs) = 2 * length bs.
Proof. induction bs as [|b bs IH]; simpl; [done|]. rewrite IH. lia. Qed.

Lemma length_hexdigest (data : string) : String.length (MD5.hexdigest data) = 32.
Proof.
  unfold MD5.hexdigest, MD5.digest. rewrite length_hex.
  destruct (foldl _ _ _) as [A B C D].
  by rewrite !length_app, !length_le_bytes.
Qed.

Lemma string_length_app (s t : string) :
  String.length (s +:+ t) = String.length s + String.length t.
Proof. induction s as [|a s IH]; [done|]. simpl. f_equal. exact IH. Qed.

Lemma string_app_inj_length (a b c e : string) :
  String.length a = String.length b → a +:+ c = b +:+ e → a = b ∧ c = e.
Proof.
  revert b. induction a as [|x a IH]; intros [|y b]; try done.
  intros [= Hl] Heq.
  change (String x (a +:+ c) = String y (b +:+ e)) in Heq.
  injection Heq as -> Heq. destruct (IH b Hl Heq) as [-> ->]. done.
Qed.

Lemma concat_empty_cons (x : string) (xs : list string) :
  String.concat EmptyString (x :: xs) = x +:+ String.concat EmptyString xs.
Proof. destruct xs; simpl; [by rewrite string_app_nil_r|done]. Qed.

Lemma concat_empty_inj (n : nat) (l1 l2 : list string) :
  0 < n →
  Forall (λ x, String.length x = n) l1 → Forall (λ x, String.length x = n) l2 →
  String.concat EmptyString l1 = String.concat EmptyString l2 → l1 = l2.
Proof.
  intros Hn H1. revert l2. induction H1 as [|x l1 Hx _ IH]; intros l2 H2 Heq.
  - destruct H2 as [|y l2 Hy _]; [done|]. rewrite concat_empty_cons in Heq.
    apply (f_equal String.length) in Heq. rewrite string_length_app in Heq.
    simpl in Heq. lia.
  - destruct H2 as [|y l2 Hy H2].
    + rewrite concat_empty_cons in Heq.
      apply (f_equal String.length) in Heq. rewrite string_length_app in Heq.
      simpl in Heq. lia.
    + rewrite !concat_empty_cons in Heq.
      apply string_app_inj_length in Heq as [-> Heq]; [|congruence].
      f_equal. by apply IH.
Qed.

Lemma Permutation_map_inj_on {A B} (f : A → B) (l1 l2 : list A) :
  (∀ x y, x ∈ l1 ++ l2 → y ∈ l1 ++ l2 → f x = f y → x = y) →
  map f l1 ≡ₚ map f l2 → l1 ≡ₚ l2.
Proof.
  revert l2. induction l1 as [|x l1 IH]; intros l2 Hinj Hp; simpl in Hp.
  - symmetry in Hp. apply Permutation_nil_r in Hp. by destruct l2.
  - assert (f x ∈ map f l2) as Hin.
    { rewrite <-Hp. apply elem_of_cons; auto. }
    apply list_elem_of_fmap in Hin as (y & Hfy & Hy).
    assert (y = x) as ->.
    { apply Hinj; [| |done]; rewrite elem_of_app, ?elem_of_cons; auto. }
    apply elem_of_Permutation in Hy as [l2' Hl2].
    rewrite Hl2 in Hp |- *. simpl in Hp. apply Permutation_cons_inv in Hp.
    constructor. apply IH; [|done].
    intros a b Ha Hb. apply Hinj.
    + rewrite elem_of_app in Ha |- *. rewrite Hl2, !elem_of_cons. tauto.
    + rewrite elem_of_app in Hb |- *. rewrite Hl2, !elem_of_cons. tauto.
Qed.

Lemma collision_free_spec (l : list string) (x y : string) :
  collision_free l = true → x ∈ l → y ∈ l →
  MD5.hexdigest x = MD5.hexdigest y → x = y.
Proof.
  unfold collision_free. rewrite forallb_forall. intros Hall Hx Hy Heq.
  apply list_elem_of_In, Hall in Hx. rewrite forallb_forall in Hx.
  apply list_elem_of_In, Hx in Hy.
  rewrite bool_decide_true in Hy by done. by apply bool_decide_eq_true in Hy.
Qed.

(** ** MD5 digests are made of hexadecimal digits *)

Lemma hexdigit_hex (n : Z) : hex_char (MD5.hexdigit n) = true.
Proof.
  unfold hex_char, MD5.hexdigit. apply bool_decide_eq_true.
  destruct (nth_in_or_default (Z.to_nat n) MD5.hexdigits "0"%char) as [H| ->].
  - by apply list_elem_of_In.
  - unfold MD5.hexdigits. apply elem_of_cons; auto.
Qed.

Lemma hex_hex (bs : list Z) : string_forall hex_char (MD5.hex bs) = true.
Proof. induction bs as [|b bs IH]; [done|]. simpl. by rewrite !hexdigit_hex, IH. Qed.

Lemma hex_char_name (a : ascii) :
  hex_char a = true → name_char a = true ∧ is_space a = false.
Proof.
  intros H%bool_decide_eq_true. unfold MD5.hexdigits in H.
  repeat (apply elem_of_cons in H as [->|H]; [by vm_compute|]).
  by apply not_elem_of_nil in H.
Qed.

Lemma hexdigest_nonempty (data : string) : nonempty (MD5.hexdigest data) = true.
Proof.
  pose proof (length_hexdigest data) as Hl.
  destruct (MD5.hexdigest data); [simpl in Hl; lia|done].
Qed.

Lemma hexdigest_plain (data : string) : plain_name (MD5.hexdigest data) = true.
Proof.
  unfold plain_name. rewrite hexdigest_nonempty. simpl.
  eapply string_forall_impl; [|apply hex_hex]. intros a Ha. by apply hex_char_name.
Qed.

Lemma hexdigest_nospace (data : string) :
  string_forall (λ a, negb (is_space a)) (MD5.hexdigest data) = true.
Proof.
  eapply string_forall_impl; [|apply hex_hex]. intros a Ha.
  apply hex_char_name in Ha as [_ ->]. done.
Qed.

(** ** Reading a commit record back *)

Lemma manifest_line_body (e : path * string) :
  manifest_line e = line_body e +:+ newline.
Proof. unfold manifest_line, line_body. by rewrite !string_app_assoc. Qed.

Lemma line_body_forall (P : ascii → bool) (e : path * string) :
  P ","%char = true → (∀ a, text_char a = true → P a = true) →
  plain_path e.1 = true → string_forall P (line_body e) = true.
Proof.
  intros Hc Ht Hp. unfold line_body. rewrite string_forall_app. simpl.
  rewrite Hc. apply andb_true_iff. split.
  - eapply string_forall_impl; [exact Ht|]. by apply plain_path_text.
  - eapply string_forall_impl; [|apply hex_hex]. intros a Ha.
    apply Ht, name_char_text. by apply hex_char_name.
Qed.

Lemma manifest_text_cons (e : path * string) (t : list (path * string)) :
  manifest_text (e :: t) = line_body e +:+ String "010" (manifest_text t).
Proof.
  simpl. rewrite manifest_line_body. unfold newline. by rewrite string_app_assoc.
Qed.

Lemma file_lines_manifest (t : list (path * string)) :
  Forall (λ e, plain_path e.1 = true) t →
  file_lines (manifest_text t) = map line_body t ++ [EmptyString].
Proof.
  intros Ht. unfold file_lines. rewrite universal_newlines_id.
  - induction Ht as [|e t He _ IH]; [done|].
    rewrite manifest_text_cons, split_on_app, IH; [done|].
    apply line_body_forall; [done|apply text_char_nolf|done].
  - induction Ht as [|e t He _ IH]; [done|].
    rewrite manifest_text_cons, string_forall_app. simpl. rewrite IH.
    rewrite line_body_forall; [done..|apply text_char_nocr|done].
Qed.

Section Restore.
Context `{PS : Pathspec} (d : FileCodeDriver).

Lemma restore_line_entry (s : fs) (p : path) (c : string) :
  plain_path p = true →
  restore_line d (line_body (p, c)) s = restore_entry d p (MD5.hexdigest c) s.
Proof.
  intros Hp. unfold restore_line, line_body. simpl.
  assert (rstrip (string_of_path p +:+ String "," (MD5.hexdigest c))
          = string_of_path p +:+ String "," (MD5.hexdigest c)) as ->.
  { apply rstrip_app; [done|].
    apply (rstrip_app (String "," EmptyString)); [apply hexdigest_nonempty|].
    apply rstrip_nospace, hexdigest_nospace. }
  assert (nonempty (string_of_path p +:+ String "," (MD5.hexdigest c)) = true) as ->.
  { by destruct (string_of_path p). }
  simpl. rewrite split_comma_app.
  2:{ eapply string_forall_impl; [apply text_char_nocomma|]. by apply plain_path_text. }
  rewrite !path_join_render by done.
  rewrite path_join_name by apply hexdigest_plain.
  unfold restore_entry. by rewrite <-!app_assoc.
Qed.

Lemma restore_lines_manifest (t : list (path * string)) (s : fs) :
  Forall (λ e, plain_path e.1 = true) t →
  restore_lines d (file_lines (manifest_text t)) s = restore_entries d t s.
Proof.
  intros Ht. rewrite file_lines_manifest by done. revert s.
  induction Ht as [|[p c] t Hp _ IH]; intros s; [done|].
  simpl. rewrite restore_line_entry by done.
  destruct (restore_entry d p _ s) as [s1 [[]|e]]; [|done]. apply IH.
Qed.

End Restore.

(** ** The fingerprint does not depend on the order of the files *)

Lemma dirhash_Permutation (t1 t2 : list (path * string)) :
  map snd t1 ≡ₚ map snd t2 → dirhash t1 = dirhash t2.
Proof.
  intros Hp. unfold dirhash, _reduce_hash, reduce_input. do 2 f_equal.
  apply (Sorted_unique String.le).
  - apply Sorted_merge_sort, _.
  - apply Sorted_merge_sort, _.
  - rewrite !merge_sort_Permutation.
    assert (∀ t : list (path * string),
              map (λ f, _filehash f.2) t = map _filehash (map snd t)) as E.
    { intros t. by rewrite map_map. }
    rewrite !E. by apply Permutation_map.
Qed.

Lemma dirhash_fingerprint_input (t : list (path * string)) :
  dirhash t = MD5.hexdigest (fingerprint_input t).
Proof. done. Qed.

(** Without an MD5 collision, equal fingerprints come from the same bytes. *)
Lemma dirhash_inj (t1 t2 : list (path * string)) :
  collision_free (contents t1 ++ contents t2) = true →
  collision_free [fingerprint_input t1; fingerprint_input t2] = true →
  dirhash t1 = dirhash t2 → contents t1 ≡ₚ contents t2.
Proof.
  intros Hfiles Htop Heq. rewrite !dirhash_fingerprint_input in Heq.
  apply (collision_free_spec _ _ _ Htop) in Heq;
    [|rewrite !elem_of_cons; auto..].
  unfold fingerprint_input, reduce_input in Heq.
  apply (concat_empty_inj 32) in Heq; [|lia|..].
  - apply (Permutation_map_inj_on MD5.hexdigest).
    { intros x y. by apply collision_free_spec. }
    unfold contents. rewrite !map_map.
    rewrite <-(merge_sort_Permutation String.le (map _ t1)).
    rewrite <-(merge_sort_Permutation String.le (map _ t2)).
    unfold _filehash in Heq. by rewrite Heq.
  - apply Forall_forall. intros h Hh. rewrite merge_sort_Permutation in Hh.
    apply list_elem_of_fmap in Hh as (f & -> & _). apply length_hexdigest.
  - apply Forall_forall. intros h Hh. rewrite merge_sort_Permutation in Hh.
    apply list_elem_of_fmap in Hh as (f & -> & _). apply length_hexdigest.
Qed.

Lemma NoDup_tracked_tree `{PS : Pathspec} (d : FileCodeDriver) (s : fs) :
  NoDup (tracked_tree d s).
Proof.
  unfold tracked_tree, tree_of.
  assert (Inj (=) (=) (λ p : path, (p, content_at s (root d ++ p)))) as Hinj.
  { by intros p q [= ->]. }
  apply (NoDup_fmap_2 _), NoDup_tracked.
Qed.

(** C2, as the code has it: the fingerprint is a function of the bytes of
    the tracked files alone. Two trees with the same tracked paths and the
    same bytes have the same fingerprint wherever their roots are; so have
    two trees whose files hold the same bytes under other names. And
    unless MD5 collides on the data at hand, two trees whose files do not
    hold the same bytes have different fingerprints. *)
Theorem fingerprint_of_contents `{PS : Pathspec} (d1 d2 : FileCodeDriver) (s1 s2 : fs) :
  is_initialized d1 s1 = true → is_initialized d2 s2 = true →
  let T1 := tracked_tree d1 s1 in
  let T2 := tracked_tree d2 s2 in
  ((∀ e, e ∈ T1 ↔ e ∈ T2) → current_ref d1 s1 = current_ref d2 s2) ∧
  (contents T1 ≡ₚ contents T2 → current_ref d1 s1 = current_ref d2 s2) ∧
  (collision_free (contents T1 ++ contents T2) = true →
   collision_free [fingerprint_input T1; fingerprint_input T2] = true →
   ¬ contents T1 ≡ₚ contents T2 → current_ref d1 s1 ≠ current_ref d2 s2).
Proof.
  intros H1 H2 T1 T2. rewrite !current_ref_Ok by done. fold T1 T2.
  split_and!.
  - intros Hsame. f_equal. apply dirhash_Permutation, Permutation_map.
    apply NoDup_Permutation; [apply NoDup_tracked_tree..|done].
  - intros Hp. f_equal. by apply dirhash_Permutation.
  - intros Hfiles Htop Hne [= Heq]. by apply Hne, dirhash_inj.
Qed.

(** ** What a commit leaves in place *)

Lemma fs_grows_refl touch s : fs_grows touch s s.
Proof. by split_and!. Qed.

Lemma fs_grows_trans touch s1 s2 s3 :
  fs_grows touch s1 s2 → fs_grows touch s2 s3 → fs_grows touch s1 s3.
Proof.
  intros (D1 & F1 & K1) (D2 & F2 & K2). split_and!; [by auto..|].
  intros q c Hq. by rewrite K2, K1.
Qed.

Lemma fs_grows_makedirs touch s p s' :
  makedirs s p = Some s' → fs_grows touch s s'.
Proof.
  intros Hm. split_and!.
  - intros q. by apply (makedirs_dir s p).
  - intros q. by rewrite (makedirs_isfile s p s').
  - intros q c _. by apply (makedirs_file s p).
Qed.

Lemma fs_grows_insert_file (touch : path → Prop) (s : fs) t c :
  isdir s t = false → touch t → fs_grows touch s (<[t := File c]> s).
Proof.
  intros Hd Ht. split_and!.
  - intros q Hq. rewrite lookup_insert_ne; [done|]. intros ->.
    apply isdir_true in Hq. congruence.
  - intros q Hq. destruct (decide (t = q)) as [->|Hne].
    + apply isfile_true. rewrite lookup_insert_eq. eauto.
    + unfold isfile. by rewrite lookup_insert_ne.
  - intros q c' Hq. rewrite lookup_insert_ne; [done|]. by intros ->.
Qed.

Lemma fs_grows_write (touch : path → Prop) (s : fs) cf data :
  touch cf → fs_grows touch s (write s cf data).
Proof.
  intros Ht. unfold write. destruct (s !! cf) as [[c|]|] eqn:Hcf;
    [|apply fs_grows_refl..].
  apply fs_grows_insert_file; [|done]. unfold isdir. by rewrite Hcf.
Qed.

Lemma fs_grows_copy2 (touch : path → Prop) (s : fs) src dst s' :
  copy2 s src dst = Some s' → touch dst → touch (dst ++ [basename src]) →
  fs_grows touch s s'.
Proof.
  intros (c & _ & Hd & ->)%copy2_Some H1 H2.
  apply fs_grows_insert_file; [done|]. by destruct (isdir s dst).
Qed.

Lemma fs_grows_open_append (touch : path → Prop) (s : fs) cf s' :
  open_append s cf = Some s' → touch cf → fs_grows touch s s'.
Proof.
  intros [(c & _ & ->)|(Hn & ->)]%open_append_Some Ht; [apply fs_grows_refl|].
  apply fs_grows_insert_file; [|done]. unfold isdir. by rewrite Hn.
Qed.

Section CommitFrame.
Context `{PS : Pathspec} (d : FileCodeDriver).

Lemma code_filepath_eq :
  _code_filepath d = root d ++ [_prodat_directory_name d; "code"].
Proof. unfold _code_filepath, _prodat_directory_path. by rewrite <-app_assoc. Qed.

Lemma touched_blob (cf p r : path) :
  p ≠ [] → r ≠ [] → touched d cf ((_code_filepath d ++ p) ++ r).
Proof. intros Hp Hr. right. exists p, r. by rewrite <-app_assoc. Qed.

Lemma record_file_grows (cf p : path) (s s' : fs) (r : result unit) :
  p ≠ [] → record_file d cf p s = (s', r) → fs_grows (touched d cf) s s'.
Proof.
  intros Hp. unfold record_file.
  destruct (isfile s (root d ++ p)); simpl; [|intros [= <- _]; apply fs_grows_refl].
  destruct (makedirs s (_code_filepath d ++ p)) as [s1|] eqn:Hm;
    [|intros [= <- _]; apply fs_grows_refl].
  pose proof (fs_grows_makedirs (touched d cf) _ _ _ Hm) as G1.
  destruct (_get_filehash s1 (root d ++ p)) as [fh|e]; [|by intros [= <- _]].
  destruct (if isfile s1 _ then _ else _) as [s2|] eqn:Hc; [|by intros [= <- _]].
  intros [= <- _].
  eapply fs_grows_trans; [exact G1|].
  eapply fs_grows_trans; [|apply fs_grows_write; by left].
  destruct (isfile s1 _); [injection Hc as <-; apply fs_grows_refl|].
  eapply fs_grows_copy2; [exact Hc|..].
  - by apply touched_blob.
  - rewrite <-app_assoc. by apply touched_blob.
Qed.

Lemma record_files_grows (cf : path) (tr : list path) (s s' : fs) (r : result unit) :
  Forall (λ p, p ≠ []) tr →
  record_files d cf tr s = (s', r) → fs_grows (touched d cf) s s'.
Proof.
  intros Hne. revert s. induction Hne as [|p tr Hp _ IH]; intros s; simpl.
  { intros [= <- _]. apply fs_grows_refl. }
  destruct (record_file d cf p s) as [s1 [[]|e]] eqn:Hs;
    apply record_file_grows in Hs; try done.
  - intros Hr%IH. by eapply fs_grows_trans.
  - by intros [= <- _].
Qed.

Lemma record_commit_grows (h : string) (tr : list path) (s s' : fs) (r : result string) :
  Forall (λ p, p ≠ []) tr →
  record_commit d h tr s = (s', r) →
  fs_grows (touched d (_code_filepath d ++ [h])) s s'.
Proof.
  intros Hne. unfold record_commit.
  destruct (makedirs s _) as [s1|] eqn:Hm; [|intros [= <- _]; apply fs_grows_refl].
  pose proof (fs_grows_makedirs (touched d (_code_filepath d ++ [h])) _ _ _ Hm) as G1.
  destruct (open_append s1 _) as [s2|] eqn:Ho; [|by intros [= <- _]].
  pose proof (fs_grows_open_append (touched d (_code_filepath d ++ [h])) _ _ _ Ho) as G2.
  destruct (record_files d _ tr s2) as [s3 r3] eqn:Hr.
  apply record_files_grows in Hr; [|done].
  assert (fs_grows (touched d (_code_filepath d ++ [h])) s s3) as G.
  { eapply fs_grows_trans; [exact G1|]. eapply fs_grows_trans; [|exact Hr].
    apply G2. by left. }
  destruct r3; by intros [= <- _].
Qed.

Lemma tracked_nonempty (s : fs) : Forall (λ p, p ≠ []) (_get_tracked_files d s).
Proof. apply Forall_forall. intros p Hp. by apply elem_of_tracked in Hp as (? & _). Qed.

(** Nothing that a commit writes lies outside of the code directory. *)
Lemma touched_under_code (h : string) (q : path) :
  touched d (_code_filepath d ++ [h]) q →
  ∃ r, r ≠ [] ∧ q = root d ++ [_prodat_directory_name d; "code"] ++ r.
Proof.
  unfold touched. rewrite code_filepath_eq. intros [->|(p & r & Hp & Hr & ->)].
  - exists [h]. split; [done|]. by rewrite <-app_assoc.
  - exists (p ++ r). split; [by destruct p|]. by rewrite <-app_assoc.
Qed.

Lemma not_touched_tracked (h : string) (p : path) :
  _prodat_directory_name d ∉ p → ¬ touched d (_code_filepath d ++ [h]) (root d ++ p).
Proof.
  intros Hn (r & _ & Heq)%touched_under_code.
  apply (inj (root d ++.)) in Heq. subst p. apply Hn. simpl. apply elem_of_cons; auto.
Qed.

Lemma not_touched_ignore_file (h : string) :
  ¬ touched d (_code_filepath d ++ [h]) (_prodat_ignore_filepath d).
Proof.
  intros (r & _ & Heq)%touched_under_code. unfold _prodat_ignore_filepath in Heq.
  apply (inj (root d ++.)) in Heq. done.
Qed.

Lemma not_touched_other_commit (h c : string) :
  c ≠ h → ¬ touched d (_code_filepath d ++ [h]) (_code_filepath d ++ [c]).
Proof.
  intros Hne [Heq|(p & r & Hp & Hr & Heq)]; apply (inj (_code_filepath d ++.)) in Heq.
  - congruence.
  - destruct p as [|x [|y p]], r; simplify_eq.
Qed.

Section Grown.
Variables (h : string) (s s' : fs).
Hypothesis G : fs_grows (touched d (_code_filepath d ++ [h])) s s'.

Lemma grows_initialized : is_initialized d s = true → is_initialized d s' = true.
Proof.
  destruct G as (GD & _). unfold is_initialized. rewrite !andb_true_iff, !isdir_true.
  intros [??]. split; by apply GD.
Qed.

Lemma grows_isfile (q : path) :
  ¬ touched d (_code_filepath d ++ [h]) q → isfile s' q = isfile s q.
Proof.
  destruct G as (_ & _ & GK). intros Hq. apply eq_true_iff_eq.
  rewrite !isfile_true. split; intros [c Hc]; exists c; by apply (GK q c Hq).
Qed.

Lemma grows_content_at (q : path) :
  ¬ touched d (_code_filepath d ++ [h]) q → content_at s' q = content_at s q.
Proof.
  destruct G as (_ & _ & GK). intros Hq. unfold content_at.
  destruct (s' !! q) as [[c|]|] eqn:E'.
  - apply (GK q c Hq) in E'. by rewrite E'.
  - destruct (s !! q) as [[c|]|] eqn:E; [|done..].
    apply (GK q c Hq) in E. congruence.
  - destruct (s !! q) as [[c|]|] eqn:E; [|done..].
    apply (GK q c Hq) in E. congruence.
Qed.

Lemma grows_ignored (p : path) : ignored d s' p = ignored d s p.
Proof.
  destruct G as (_ & _ & GK). unfold ignored. f_equal.
  pose proof (not_touched_ignore_file h) as Hq.
  destruct (s' !! _prodat_ignore_filepath d) as [[c|]|] eqn:E'.
  - apply (GK _ c Hq) in E'. by rewrite E'.
  - destruct (s !! _prodat_ignore_filepath d) as [[c|]|] eqn:E; [|done..].
    apply (GK _ c Hq) in E. congruence.
  - destruct (s !! _prodat_ignore_filepath d) as [[c|]|] eqn:E; [|done..].
    apply (GK _ c Hq) in E. congruence.
Qed.

Lemma ignored_false_name (x : fs) (p : path) :
  ignored d x p = false → _prodat_directory_name d ∉ p.
Proof.
  unfold ignored, name_match. rewrite !orb_false_iff, bool_decide_eq_false. tauto.
Qed.

Lemma grows_elem_of_tracked (p : path) :
  p ∈ _get_tracked_files d s' ↔ p ∈ _get_tracked_files d s.
Proof.
  rewrite !elem_of_tracked, grows_ignored.
  split; intros (Hp & Hf & Hi); split_and!; try done.
  - rewrite <-grows_isfile; [done|]. by eapply not_touched_tracked, ignored_false_name.
  - rewrite grows_isfile; [done|]. by eapply not_touched_tracked, ignored_false_name.
Qed.

Lemma grows_tracked : _get_tracked_files d s' ≡ₚ _get_tracked_files d s.
Proof.
  apply NoDup_Permutation; [apply NoDup_tracked..|]. apply grows_elem_of_tracked.
Qed.

Lemma grows_tracked_tree : tracked_tree d s' ≡ₚ tracked_tree d s.
Proof.
  unfold tracked_tree, tree_of.
  rewrite (Permutation_map _ grows_tracked).
  erewrite map_ext_in; [done|]. intros p Hp%list_elem_of_In. simpl. f_equal.
  apply grows_content_at.
  apply elem_of_tracked in Hp as (_ & _ & Hi).
  by eapply not_touched_tracked, ignored_false_name.
Qed.

Lemma grows_dirhash : dirhash (tracked_tree d s') = dirhash (tracked_tree d s).
Proof. apply dirhash_Permutation, Permutation_map, grows_tracked_tree. Qed.

End Grown.

Lemma record_commit_Ok (h0 h : string) (tr : list path) (s s1 : fs) :
  Forall (λ p, p ≠ []) tr →
  record_commit d h0 tr s = (s1, Ok h) →
  h = h0 ∧ isfile s1 (_code_filepath d ++ [h0]) = true.
Proof.
  intros Hne. unfold record_commit.
  destruct (makedirs s _) as [sa|]; [|done].
  destruct (open_append sa _) as [sb|] eqn:Ho; [|done].
  destruct (record_files d _ _ sb) as [sc [[]|e]] eqn:Hrf; [|done].
  intros [= <- <-]. split; [done|].
  apply record_files_grows in Hrf as (_ & GF & _); [|done].
  apply GF. apply isfile_true.
  apply open_append_Some in Ho as [(c & Hc & ->)|(_ & ->)]; [eauto|].
  rewrite lookup_insert_eq. eauto.
Qed.

(** What a successful [create_ref] without commit id establishes. *)
Lemma create_ref_None_Ok (s s1 : fs) (h : string) :
  create_ref d None s = (s1, Ok h) →
  is_initialized d s = true ∧ h = dirhash (tracked_tree d s) ∧
  is_initialized d s1 = true ∧ isfile s1 (_code_filepath d ++ [h]) = true ∧
  fs_grows (touched d (_code_filepath d ++ [h])) s s1.
Proof.
  unfold create_ref.
  destruct (is_initialized d s) eqn:Hi; [simpl|done].
  rewrite calculate_commit_hash_tracked, exists_ref_isfile by done.
  destruct (isfile s _) eqn:Hf.
  - intros [= <- <-]. split_and!; try done; apply fs_grows_refl.
  - intros Hr.
    pose proof (record_commit_grows _ _ _ _ _ (tracked_nonempty s) Hr) as G.
    apply record_commit_Ok in Hr as [-> Hf1]; [|apply tracked_nonempty].
    split_and!; try done. by eapply grows_initialized.
Qed.

(** C5: committing twice in a row is idempotent: when a commit returns a
    digest, the next commit returns the same digest and leaves the file
    system, hence the set of Snapshots, exactly as the first left it. *)
Theorem commit_idempotent (s s1 : fs) (h : string) :
  create_ref d None s = (s1, Ok h) →
  create_ref d None s1 = (s1, Ok h) ∧
  list_refs d (create_ref d None s1).1 = list_refs d s1.
Proof.
  intros (Hi & Hh & Hi1 & Hf1 & G)%create_ref_None_Ok.
  assert (create_ref d None s1 = (s1, Ok h)) as H2; [|by rewrite H2].
  unfold create_ref. rewrite Hi1. simpl.
  rewrite calculate_commit_hash_tracked, exists_ref_isfile by done.
  by rewrite (grows_dirhash _ _ _ G), <-Hh, Hf1.
Qed.

(** C4: on an initialized engine [_has_unstaged_changes] answers: with an
    empty Tracked Set, whether there is no Snapshot at all; otherwise,
    whether the current fingerprint is the digest of no Snapshot. With no
    tracked file and no Snapshot the answer is true, and false after a
    commit of that empty tree. *)
Theorem has_unstaged_changes_spec (s : fs) :
  is_initialized d s = true →
  ∃ commits, list_refs d s = Ok commits ∧
    current_ref d s = Ok (dirhash (tracked_tree d s)) ∧
    _has_unstaged_changes d s =
      Ok (match _get_tracked_files d s with
          | [] => bool_decide (commits = [])
          | _ => bool_decide (dirhash (tracked_tree d s) ∉ commits)
          end) ∧
    (_get_tracked_files d s = [] → commits = [] →
     _has_unstaged_changes d s = Ok true ∧
     ∀ s' h, create_ref d None s = (s', Ok h) → _has_unstaged_changes d s' = Ok false).
Proof.
  intros Hi. destruct (has_unstaged_changes_Ok d s Hi) as (l & Hl & Hin & Hu).
  exists l. split_and!; [done|by apply current_ref_Ok|..].
  - rewrite Hu. f_equal. destruct (_get_tracked_files d s); [done|].
    apply eq_true_iff_eq. rewrite negb_true_iff, bool_decide_eq_true.
    rewrite Hin. by destruct (isfile s _).
  - intros Htr ->. split; [by rewrite Hu, Htr|].
    intros s' h (_ & Hh & Hi' & Hf' & G)%create_ref_None_Ok.
    destruct (has_unstaged_changes_Ok d s' Hi') as (l' & _ & Hin' & ->).
    pose proof (grows_tracked _ _ _ G) as Hp. rewrite Htr in Hp.
    apply Permutation_nil_r in Hp. rewrite Hp. f_equal.
    apply bool_decide_eq_false. intros ->.
    apply Hin' in Hf'. by apply not_elem_of_nil in Hf'.
Qed.

(** *** The commit record, line by line *)

Lemma record_file_commit_record (h : string) (p : path) (s s' : fs)
    (r : result unit) (c0 : string) :
  let cf := _code_filepath d ++ [h] in
  p ≠ [] →
  s !! cf = Some (File c0) →
  record_file d cf p s = (s', r) →
  s' !! cf = Some (File (match r with
                         | Ok _ => c0 +:+ manifest_line (p, content_at s (root d ++ p))
                         | Raise _ => c0
                         end)).
Proof.
  intros cf Hp Hcf. unfold record_file.
  destruct (isfile s (root d ++ p)) eqn:Hf; simpl; [|by intros [= <- <-]].
  apply isfile_true in Hf as [c Hc].
  destruct (makedirs s (_code_filepath d ++ p)) as [s1|] eqn:Hm; [|by intros [= <- <-]].
  assert (s1 !! cf = Some (File c0)) as Hcf1
    by by apply (makedirs_file s (_code_filepath d ++ p) s1).
  assert (s1 !! (root d ++ p) = Some (File c)) as Hc1
    by by apply (makedirs_file s (_code_filepath d ++ p) s1).
  unfold _get_filehash. rewrite Hc1.
  destruct (if isfile s1 _ then _ else _) as [s2|] eqn:Hs2; [|by intros [= <- <-]].
  intros [= <- <-].
  assert (s2 !! cf = Some (File c0)) as Hcf2.
  { destruct (isfile s1 _); [by injection Hs2 as <-|].
    apply copy2_Some in Hs2 as (c' & _ & _ & ->). rewrite lookup_insert_ne; [done|].
    unfold cf. rewrite <-!app_assoc.
    destruct (isdir s1 _); intros Heq%(inj (_code_filepath d ++.));
      destruct p as [|x [|y p]]; simplify_eq. }
  unfold write. rewrite Hcf2, lookup_insert_eq.
  unfold manifest_line, content_at. by rewrite Hc.
Qed.

Lemma record_files_commit_record (h : string) (tr : list path) (s s' : fs)
    (r : result unit) (c0 : string) :
  let cf := _code_filepath d ++ [h] in
  Forall (λ p, p ≠ [] ∧ _prodat_directory_name d ∉ p) tr →
  s !! cf = Some (File c0) →
  record_files d cf tr s = (s', r) →
  ∃ k, s' !! cf = Some (File (c0 +:+ manifest_text
                                (map (λ p, (p, content_at s (root d ++ p))) (take k tr)))) ∧
       match r with Ok _ => k = length tr | Raise _ => k < length tr end.
Proof.
  intros cf Htr. revert s c0.
  induction Htr as [|p tr [Hp Hn] Htr IH]; intros s c0 Hcf; simpl.
  { intros [= <- <-]. exists 0. by rewrite string_app_nil_r. }
  destruct (record_file d cf p s) as [s1 r1] eqn:Hs.
  pose proof (record_file_commit_record h p s s1 r1 c0 Hp Hcf Hs) as Hcf1.
  pose proof (record_file_grows _ _ _ _ _ Hp Hs) as G.
  destruct r1 as [[]|e].
  - intros Hr. destruct (IH _ _ Hcf1 Hr) as (k & Hk & Hlen).
    exists (S k). split; [|destruct r; simpl; lia].
    rewrite Hk. do 2 f_equal. simpl. rewrite string_app_assoc. do 3 f_equal.
    apply map_ext_in. intros q Hq%list_elem_of_In%(subseteq_take k tr). f_equal.
    apply (grows_content_at h s s1 G).
    apply not_touched_tracked. rewrite Forall_forall in Htr. by apply Htr.
  - intros [= <- <-]. exists 0. rewrite string_app_nil_r. split; [done|simpl; lia].
Qed.

Lemma tracked_plain (s : fs) :
  Forall (λ p, p ≠ [] ∧ _prodat_directory_name d ∉ p) (_get_tracked_files d s).
Proof.
  apply Forall_forall. intros p (Hp & _ & Hi)%elem_of_tracked. split; [done|].
  by eapply ignored_false_name.
Qed.

(** C1, as the code has it: the commit record of a new Snapshot is created
    when recording starts and extended in place, one line per file. When a
    commit of a new fingerprint fails with [FileIOError] although its
    record could be opened, the record written so far stays: the new
    fingerprint has become an existing Snapshot, holding the lines of the
    first [k] tracked files only, next to the Snapshots there were. *)
Theorem failed_commit_leaves_record (s s' : fs) :
  is_initialized d s = true →
  let h := dirhash (tracked_tree d s) in
  exists_ref d s h = Ok false →
  isdir s (_code_filepath d ++ [h]) = false →
  create_ref d None s = (s', Raise FileIOError) →
  exists_ref d s' h = Ok true ∧
  (∀ c, c ≠ h → exists_ref d s' c = exists_ref d s c) ∧
  ∃ k, k < length (tracked_tree d s) ∧
       s' !! (_code_filepath d ++ [h])
         = Some (File (manifest_text (take k (tracked_tree d s)))).
Proof.
  intros Hi h He Hd. unfold create_ref. rewrite Hi. simpl.
  rewrite calculate_commit_hash_tracked by done. fold h. rewrite He.
  rewrite exists_ref_isfile in He by done. injection He as Hf.
  intros Hr.
  pose proof (record_commit_grows _ _ _ _ _ (tracked_nonempty s) Hr) as G.
  pose proof (grows_initialized _ _ _ G Hi) as Hi'.
  set (cf := _code_filepath d ++ [h]) in *.
  assert (s !! cf = None) as Hnone.
  { unfold isfile in Hf. unfold isdir in Hd. by destruct (s !! cf) as [[?|]|]. }
  revert Hr. unfold record_commit. fold cf.
  destruct (makedirs s (_code_filepath d)) as [s1|] eqn:Hm; [|done].
  pose proof (fs_grows_makedirs (touched d cf) _ _ _ Hm) as G1.
  apply makedirs_Some in Hm as (_ & Hpre & Hoth).
  assert (open_append s1 cf = Some (<[cf := File EmptyString]> s1)) as ->.
  { unfold open_append. rewrite Hoth, Hnone.
    - unfold cf. rewrite parent_snoc. unfold isdir. by rewrite Hpre.
    - intros [r Hpr]. unfold cf in Hpr. rewrite <-app_assoc in Hpr.
      apply (f_equal length) in Hpr. rewrite !length_app in Hpr. simpl in Hpr. lia. }
  assert (fs_grows (touched d cf) s (<[cf := File EmptyString]> s1)) as G2.
  { eapply fs_grows_trans; [exact G1|]. apply fs_grows_insert_file; [|by left].
    unfold isdir. rewrite Hoth, Hnone; [done|].
    intros [r Hpr]. unfold cf in Hpr. rewrite <-app_assoc in Hpr.
    apply (f_equal length) in Hpr. rewrite !length_app in Hpr. simpl in Hpr. lia. }
  destruct (record_files d cf _ _) as [s3 r3] eqn:Hrf.
  destruct r3 as [[]|e]; [done|]. intros [= <- ->].
  destruct (record_files_commit_record h _ _ _ _ EmptyString (tracked_plain s)
              (lookup_insert_eq _ _ _) Hrf) as (k & Hk & Hlen).
  split_and!.
  - rewrite exists_ref_isfile by done. f_equal. apply isfile_true. eauto.
  - intros c Hc. rewrite !exists_ref_isfile by done. f_equal.
    apply (grows_isfile h s s3 G). by apply not_touched_other_commit.
  - exists k. unfold tracked_tree, tree_of. rewrite length_map. split; [done|].
    unfold cf. rewrite Hk, string_app_nil_l. do 3 f_equal.
    change (map ?f ?l) with (f <$> l). rewrite <-fmap_take.
    apply list_fmap_ext. intros i q Hq. f_equal.
    apply (grows_content_at h s _ G2).
    apply not_touched_tracked.
    apply list_elem_of_lookup_2 in Hq.
    pose proof (tracked_plain s) as Hpl. rewrite Forall_forall in Hpl.
    apply Hpl. by eapply subseteq_take.
Qed.

(** *** Where the files of the store come from *)

(** The blob path of a file with bytes [c] at the tracked path [p]. *)
Lemma blob_path_inj (p q : path) (h1 h2 : string) :
  _code_filepath d ++ p ++ [h1] = _code_filepath d ++ q ++ [h2] → p = q ∧ h1 = h2.
Proof. intros Heq%(inj (_code_filepath d ++.)). by apply app_inj_tail in Heq. Qed.

Lemma blob_path_not_record (p : path) (h1 h : string) :
  p ≠ [] → _code_filepath d ++ p ++ [h1] ≠ _code_filepath d ++ [h].
Proof.
  intros Hp Heq%(inj (_code_filepath d ++.)). destruct p as [|x [|y p]]; simplify_eq.
Qed.

Lemma record_file_provenance (cf p : path) (s s' : fs) (r : result unit) (q : path) (c' : string) :
  record_file d cf p s = (s', r) → q ≠ cf →
  s' !! q = Some (File c') →
  s !! q = Some (File c') ∨
  (c' = content_at s (root d ++ p) ∧
   let blob := _code_filepath d ++ p ++ [MD5.hexdigest (content_at s (root d ++ p))] in
   q = blob ∨ q = blob ++ [basename (root d ++ p)]).
Proof.
  unfold record_file. intros Hr Hq.
  destruct (isfile s (root d ++ p)) eqn:Hf; simpl in Hr; [|injection Hr as <- _; auto].
  apply isfile_true in Hf as [c Hc].
  destruct (makedirs s (_code_filepath d ++ p)) as [s1|] eqn:Hm;
    [|injection Hr as <- _; auto].
  assert (s1 !! (root d ++ p) = Some (File c)) as Hc1
    by by apply (makedirs_file s (_code_filepath d ++ p) s1).
  unfold _get_filehash in Hr. rewrite Hc1 in Hr.
  destruct (if isfile s1 _ then _ else _) as [s2|] eqn:Hs2.
  2:{ injection Hr as <- _. intros H1. left.
      by apply (makedirs_file s (_code_filepath d ++ p) s1). }
  injection Hr as <- _.
  assert (write s2 cf (string_of_path p +:+ "," +:+ MD5.hexdigest c +:+ newline) !! q
          = s2 !! q) as ->.
  { unfold write. destruct (s2 !! cf) as [[?|]|]; [|done..]. by rewrite lookup_insert_ne. }
  destruct (isfile s1 _).
  { injection Hs2 as <-. intros H1. left.
    by apply (makedirs_file s (_code_filepath d ++ p) s1). }
  apply copy2_Some in Hs2 as (c2 & Hsrc & _ & ->).
  rewrite Hc1 in Hsrc. injection Hsrc as <-.
  set (target := if isdir s1 _ then _ else _).
  assert (target = _code_filepath d ++ p ++ [MD5.hexdigest c] ∨
          target = (_code_filepath d ++ p ++ [MD5.hexdigest c]) ++ [basename (root d ++ p)])
    as Htarget.
  { unfold target. destruct (isdir s1 _); rewrite <-?app_assoc; auto. }
  clearbody target.
  destruct (decide (target = q)) as [Heq|Hne].
  - rewrite Heq, lookup_insert_eq. intros [= <-]. right.
    unfold content_at. rewrite Hc. split; [done|]. simpl. by rewrite <-Heq.
  - rewrite lookup_insert_ne by done. intros H1. left.
    by apply (makedirs_file s (_code_filepath d ++ p) s1).
Qed.

Lemma record_files_provenance (h : string) (tr : list path) (s s' : fs)
    (r : result unit) (q : path) (c' : string) :
  let cf := _code_filepath d ++ [h] in
  Forall (λ p, p ≠ [] ∧ _prodat_directory_name d ∉ p) tr →
  record_files d cf tr s = (s', r) → q ≠ cf →
  s' !! q = Some (File c') →
  s !! q = Some (File c') ∨
  ∃ p, p ∈ tr ∧ c' = content_at s (root d ++ p) ∧
    let blob := _code_filepath d ++ p ++ [MD5.hexdigest (content_at s (root d ++ p))] in
    q = blob ∨ q = blob ++ [basename (root d ++ p)].
Proof.
  intros cf Htr. revert s. induction Htr as [|p tr [Hp Hn] Htr IH]; intros s; simpl.
  { intros [= <- _] _ H1. by left. }
  destruct (record_file d cf p s) as [s1 r1] eqn:Hs.
  pose proof (record_file_grows _ _ _ _ _ Hp Hs) as G.
  assert (∀ c0, s1 !! q = Some (File c0) → q ≠ cf →
     s !! q = Some (File c0) ∨
     ∃ p0, p0 ∈ p :: tr ∧ c0 = content_at s (root d ++ p0) ∧
       let blob := _code_filepath d ++ p0 ++ [MD5.hexdigest (content_at s (root d ++ p0))] in
       q = blob ∨ q = blob ++ [basename (root d ++ p0)]) as Hstep.
  { intros c0 H1 Hq.
    destruct (record_file_provenance _ _ _ _ _ _ _ Hs Hq H1) as [?|[-> Hwhere]]; [by left|].
    right. exists p. split; [apply elem_of_cons; auto|done]. }
  destruct r1 as [[]|e].
  - intros Hr Hq H1. destruct (IH _ Hr Hq H1) as [H0|(p0 & Hp0 & -> & Hwhere)].
    + by apply Hstep.
    + right. exists p0. split; [apply elem_of_cons; auto|].
      assert (content_at s1 (root d ++ p0) = content_at s (root d ++ p0)) as Hsame.
      { apply (grows_content_at h s s1 G), not_touched_tracked.
        rewrite Forall_forall in Htr. by apply Htr. }
      by rewrite Hsame in Hwhere |- *.
  - intros [= <- _] Hq H1. by apply Hstep.
Qed.

(** In a well-formed file system nothing lies below a regular file, so
    the tracked paths are free of prefixes. *)
Lemma wf_above_dir (s : fs) (a b : path) :
  fs_wf s → b ≠ [] → s !! (a ++ b) ≠ None → s !! a = Some Dir.
Proof.
  intros Hwf. induction b as [|n b IH] using rev_ind; [done|]. intros _ Hab.
  rewrite app_assoc in Hab. apply Hwf in Hab.
  destruct b as [|x b]; [by rewrite app_nil_r in Hab|].
  apply IH; [done|]. by rewrite Hab.
Qed.

Lemma wf_file_no_child (s : fs) (a b : path) :
  fs_wf s → isfile s a = true → isfile s (a ++ b) = true → b = [].
Proof.
  intros Hwf [c Hc]%isfile_true [c' Hc']%isfile_true.
  destruct (decide (b = [])) as [|Hb]; [done|].
  assert (s !! a = Some Dir); [|congruence].
  apply (wf_above_dir s a b); [done..|]. by rewrite Hc'.
Qed.

Lemma fs_wf_check_sound (s : fs) : fs_wf_check s = true → fs_wf s.
Proof.
  unfold fs_wf_check. rewrite forallb_forall. intros Hall p n Hne.
  destruct (s !! (p ++ [n])) as [v|] eqn:Hv; [|done].
  assert (In (p ++ [n]) (map fst (map_to_list s))) as Hin.
  { apply list_elem_of_In, list_elem_of_fmap. exists (p ++ [n], v).
    split; [done|]. by apply elem_of_map_to_list. }
  apply Hall in Hin. rewrite parent_snoc in Hin.
  apply isdir_true. by destruct (p ++ [n]) eqn:E; [destruct p|].
Qed.

Lemma record_files_Ok_isfile (h : string) (tr : list path) (s s' : fs) :
  Forall (λ p, p ≠ [] ∧ _prodat_directory_name d ∉ p) tr →
  record_files d (_code_filepath d ++ [h]) tr s = (s', Ok ()) →
  Forall (λ p, isfile s (root d ++ p) = true) tr.
Proof.
  intros Htr. revert s. induction Htr as [|p tr [Hp Hn] Htr IH]; intros s; simpl;
    [by constructor|].
  destruct (record_file d _ p s) as [s1 [[]|e]] eqn:Hs; [|done].
  intros Hr. constructor.
  - unfold record_file in Hs. by destruct (isfile s (root d ++ p)).
  - pose proof (record_file_grows _ _ _ _ _ Hp Hs) as G.
    apply IH in Hr. rewrite Forall_forall in Hr, Htr |- *. intros q Hq.
    rewrite <-(grows_isfile h s s1 G); [by apply Hr|].
    apply not_touched_tracked. by apply Htr.
Qed.

(** What a recorded Snapshot consists of: the commit record lists the
    files as they are read while recording, and a blob found under the
    digest of a file holds the bytes of that file unless it was there
    before. *)
Lemma record_commit_records (h h' : string) (tr : list path) (s0 s' : fs) :
  fs_wf s0 →
  Forall (λ p, p ≠ [] ∧ _prodat_directory_name d ∉ p) tr →
  isfile s0 (_code_filepath d ++ [h]) = false →
  record_commit d h tr s0 = (s', Ok h') →
  s' !! (_code_filepath d ++ [h]) = Some (File (manifest_text (tree_of d s0 tr))) ∧
  ∀ p c', p ∈ tr →
    let c := content_at s0 (root d ++ p) in
    s' !! blob_path d p c = Some (File c') →
    c' = c ∨ s0 !! blob_path d p c = Some (File c').
Proof.
  intros Hwf Htr Hnf. unfold record_commit.
  set (cf := _code_filepath d ++ [h]) in *.
  destruct (makedirs s0 (_code_filepath d)) as [s1|] eqn:Hm; [|done].
  pose proof (fs_grows_makedirs (touched d cf) _ _ _ Hm) as G1.
  destruct (open_append s1 cf) as [s2|] eqn:Ho; [|done].
  assert (s1 !! cf = None ∧ s2 = <[cf := File EmptyString]> s1) as [Hnone ->].
  { apply open_append_Some in Ho as [(c & Hc & _)|[??]]; [|done].
    rewrite <-(makedirs_isfile _ _ _ cf Hm) in Hnf.
    unfold isfile in Hnf. by rewrite Hc in Hnf. }
  assert (fs_grows (touched d cf) s0 (<[cf := File EmptyString]> s1)) as G2.
  { eapply fs_grows_trans; [exact G1|]. apply fs_grows_insert_file; [|by left].
    unfold isdir. by rewrite Hnone. }
  destruct (record_files d cf tr _) as [s3 [[]|e]] eqn:Hrf; [|done].
  intros [= <- _].
  assert (∀ p, p ∈ tr →
            content_at (<[cf := File EmptyString]> s1) (root d ++ p)
            = content_at s0 (root d ++ p)) as Hsame.
  { intros p Hp. apply (grows_content_at h s0 _ G2), not_touched_tracked.
    rewrite Forall_forall in Htr. by apply Htr. }
  split.
  - destruct (record_files_commit_record h _ _ _ _ EmptyString Htr
                (lookup_insert_eq _ _ _) Hrf) as (k & Hk & ->).
    unfold cf, tree_of. rewrite Hk, string_app_nil_l, firstn_all. do 2 f_equal.
    apply (f_equal manifest_text), map_ext_in.
    intros p Hp. apply list_elem_of_In in Hp. f_equal. by apply Hsame.
  - intros p c' Hp Hblob. set (c := content_at s0 (root d ++ p)) in *.
    assert (blob_path d p c ≠ cf) as Hne.
    { apply blob_path_not_record. rewrite Forall_forall in Htr. by apply Htr. }
    destruct (record_files_provenance h _ _ _ _ _ _ Htr Hrf Hne Hblob)
      as [Hold|(p0 & Hp0 & -> & Hwhere)].
    + right. rewrite lookup_insert_ne in Hold by done.
      by apply (makedirs_file s0 (_code_filepath d) s1).
    + left. rewrite (Hsame p0 Hp0) in Hwhere |- *. simpl in Hwhere.
      destruct Hwhere as [Heq|Heq].
      * apply blob_path_inj in Heq as [-> _]. done.
      * exfalso. unfold blob_path in Heq. rewrite <-!app_assoc in Heq.
        apply (inj (_code_filepath d ++.)) in Heq.
        change (p ++ [MD5.hexdigest c] =
                p0 ++ [MD5.hexdigest (content_at s0 (root d ++ p0)); basename (root d ++ p0)])
          in Heq.
        replace (p0 ++ [MD5.hexdigest (content_at s0 (root d ++ p0)); basename (root d ++ p0)])
          with ((p0 ++ [MD5.hexdigest (content_at s0 (root d ++ p0))]) ++ [basename (root d ++ p0)])
          in Heq by by rewrite <-app_assoc.
        apply app_inj_tail in Heq as [-> _].
        pose proof (record_files_Ok_isfile h _ _ _ Htr Hrf) as Hfiles.
        rewrite Forall_forall in Hfiles.
        assert (isfile s0 (root d ++ p0) = true) as F0.
        { rewrite <-(grows_isfile h s0 _ G2); [by apply Hfiles|].
          apply not_touched_tracked. rewrite Forall_forall in Htr. by apply Htr. }
        assert (isfile s0 ((root d ++ p0) ++ [MD5.hexdigest (content_at s0 (root d ++ p0))])
                = true) as F1.
        { rewrite <-app_assoc.
          rewrite <-(grows_isfile h s0 _ G2); [by apply Hfiles|].
          apply not_touched_tracked. rewrite Forall_forall in Htr. by apply Htr. }
        by pose proof (wf_file_no_child _ _ _ Hwf F0 F1).
Qed.

Lemma create_ref_interleaved_id (s : fs) :
  create_ref_interleaved d id s = create_ref d None s.
Proof. done. Qed.

(** C9, as the code has it: the fingerprint that names the Snapshot comes
    from the temporary copy taken first, from the tree as it is then; the
    digests of the commit record and the blobs are read from the live
    files afterwards, from the tree as another writer has left it by
    then. Without another writer the two are the same tree. *)
Theorem commit_fingerprint_then_live_read (edit : fs → fs) (s s' : fs) (h : string) :
  create_ref_interleaved d edit s = (s', Ok h) →
  exists_ref d s h = Ok false →
  fs_wf (edit s) →
  isfile (edit s) (_code_filepath d ++ [h]) = false →
  h = dirhash (tracked_tree d s) ∧
  s' !! (_code_filepath d ++ [h])
    = Some (File (manifest_text (tree_of d (edit s) (_get_tracked_files d s)))) ∧
  (∀ p c', p ∈ _get_tracked_files d s →
     let c := content_at (edit s) (root d ++ p) in
     s' !! blob_path d p c = Some (File c') →
     c' = c ∨ edit s !! blob_path d p c = Some (File c')) ∧
  create_ref_interleaved d id s = create_ref d None s.
Proof.
  intros Hc He Hwf Hnf. pose proof (exists_ref_Ok_initialized d _ _ _ He) as Hi.
  revert Hc. unfold create_ref_interleaved at 1. rewrite Hi. simpl.
  rewrite calculate_commit_hash_tracked by done.
  destruct (exists_ref d s (dirhash (tracked_tree d s))) as [[]|e] eqn:He0; [|intros Hr|done].
  { intros [= <- <-]. congruence. }
  assert (h = dirhash (tracked_tree d s)) as Hh.
  { revert Hr. unfold record_commit.
    destruct (makedirs _ _); [|done]. destruct (open_append _ _); [|done].
    destruct (record_files _ _ _ _) as [? [[]|?]]; [|done]. by intros [= _ <-]. }
  rewrite <-Hh in Hr.
  destruct (record_commit_records h h _ _ _ Hwf (tracked_plain s) Hnf Hr) as [Hrec Hblobs].
  split_and!; done.
Qed.

End CommitFrame.

(** ** Checking a Snapshot out *)

Lemma not_prefix_parent (q : path) : q ≠ [] → ¬ q `prefix_of` parent q.
Proof.
  intros Hq Hpre%prefix_length. unfold parent in Hpre. rewrite length_take in Hpre.
  destruct q; [done|]. simpl in Hpre. lia.
Qed.

Lemma parent_prefix (q : path) : parent q `prefix_of` q.
Proof. unfold parent. exists (drop (length q - 1) q). by rewrite take_drop. Qed.

Section Checkout.
Context `{PS : Pathspec} (d : FileCodeDriver).

Lemma remove_tracked_other (l : list path) (s : fs) (q : path) :
  (∀ p, p ∈ l → q ≠ root d ++ p) → remove_tracked d l s !! q = s !! q.
Proof.
  revert s. induction l as [|a l IH]; intros s Hq; simpl; [done|].
  rewrite IH.
  - destruct (isfile s (root d ++ a)); [|done]. rewrite lookup_delete_ne; [done|].
    intros Heq. eapply Hq; [|done]. apply elem_of_cons; auto.
  - intros p Hp. apply Hq, elem_of_cons; auto.
Qed.

Lemma remove_tracked_sub (l : list path) (s : fs) (q : path) (v : node) :
  remove_tracked d l s !! q = Some v → s !! q = Some v.
Proof.
  revert s. induction l as [|a l IH]; intros s; simpl; [done|].
  intros Hv%IH. destruct (isfile s (root d ++ a)); [|done].
  by apply lookup_delete_Some in Hv as [_ ?].
Qed.

Lemma restore_entry_Ok (p : path) (fh : string) (s s' : fs) :
  p ≠ [] → isdir s (root d ++ p) = false →
  restore_entry d p fh s = (s', Ok ()) →
  ∃ c s1, s !! (_code_filepath d ++ p ++ [fh]) = Some (File c) ∧
    makedirs s (parent (root d ++ p)) = Some s1 ∧
    s' = <[root d ++ p := File c]> s1.
Proof.
  intros Hp Hd. unfold restore_entry.
  destruct (isfile s _) eqn:Hf; simpl; [|done]. apply isfile_true in Hf as [c Hc].
  destruct (makedirs s _) as [s1|] eqn:Hm; [|done].
  destruct (copy2 s1 _ _) as [s2|] eqn:Hcp; [|done]. intros [= <-].
  exists c, s1. split_and!; [done..|].
  apply copy2_Some in Hcp as (c2 & Hsrc & _ & ->).
  apply (makedirs_file s _ s1 _ c2 Hm) in Hsrc. rewrite Hc in Hsrc. injection Hsrc as <-.
  assert (isdir s1 (root d ++ p) = false) as ->; [|done].
  unfold isdir. apply makedirs_Some in Hm as (_ & _ & Hoth). rewrite Hoth.
  - exact Hd.
  - apply not_prefix_parent. by destruct (root d), p.
Qed.

(** The restore loop writes every entry of the record to its path and
    leaves every other regular file as it is. *)
Lemma restore_entries_spec (t : list (path * string)) (s s3 : fs) :
  NoDup (t.*1) →
  Forall (λ e, e.1 ≠ [] ∧ _prodat_directory_name d ∉ e.1) t →
  (∀ e1 e2, e1 ∈ t → e2 ∈ t → e1.1 `prefix_of` e2.1 → e1.1 = e2.1) →
  (∀ e c', e ∈ t → s !! blob_path d e.1 e.2 = Some (File c') → c' = e.2) →
  (∀ e, e ∈ t → isdir s (root d ++ e.1) = false) →
  restore_entries d t s = (s3, Ok true) →
  (∀ e, e ∈ t → s3 !! (root d ++ e.1) = Some (File e.2)) ∧
  (∀ q c, (∀ e, e ∈ t → q ≠ root d ++ e.1) →
     s3 !! q = Some (File c) ↔ s !! q = Some (File c)).
Proof.
  intros Hnd Hpl. revert s Hnd.
  induction Hpl as [|[p c] t [Hp Hn] Hpl IH]; intros s Hnd Hpf Hbl Hdir;
    cbn [restore_entries].
  { intros [= <-]. split; [by intros e ?%not_elem_of_nil|done]. }
  simpl in Hp, Hn. cbn [fst snd].
  destruct (restore_entry d p (MD5.hexdigest c) s) as [s1' [[]|err]] eqn:Hs; [|done].
  intros Hr.
  assert (isdir s (root d ++ p) = false) as Hdp.
  { apply (Hdir (p, c)), elem_of_cons; auto. }
  destruct (restore_entry_Ok _ _ _ _ Hp Hdp Hs) as (c0 & s1 & Hsrc & Hm & ->).
  assert (c0 = c) as ->.
  { apply (Hbl (p, c)); [apply elem_of_cons; auto|done]. }
  rewrite fmap_cons in Hnd. apply NoDup_cons in Hnd as [Hpnot Hnd].
  assert (∀ q x, q ≠ root d ++ p →
            <[root d ++ p := File c]> s1 !! q = Some (File x) ↔ s !! q = Some (File x))
    as Hkeep.
  { intros q x Hq. rewrite lookup_insert_ne by done.
    by apply (makedirs_file s (parent (root d ++ p)) s1). }
  assert (∀ e, e ∈ t → root d ++ e.1 ≠ root d ++ p) as Hother.
  { intros e He Heq%(inj (root d ++.)). apply Hpnot.
    simpl. rewrite <-Heq. apply list_elem_of_fmap. eauto. }
  destruct (IH (<[root d ++ p := File c]> s1)) as [Hfiles Hframe]; try done.
  - intros e1 e2 H1 H2. apply Hpf; apply elem_of_cons; auto.
  - intros e c' He Hblob. apply (Hbl e c'); [apply elem_of_cons; auto|].
    apply Hkeep; [|done]. unfold blob_path. rewrite code_filepath_eq, <-app_assoc.
    intros Heq%(inj (root d ++.)). apply Hn. rewrite <-Heq. apply elem_of_cons; auto.
  - intros e He. apply not_true_iff_false. intros Hd1%isdir_true.
    rewrite lookup_insert_ne in Hd1 by (symmetry; by apply Hother).
    pose proof Hm as (_ & _ & Hoth)%makedirs_Some.
    destruct (decide ((root d ++ e.1) `prefix_of` parent (root d ++ p))) as [Hpre|Hnpre].
    + assert (e.1 `prefix_of` p) as Hep.
      { apply (prefix_app_inv (root d)). etrans; [exact Hpre|apply parent_prefix]. }
      apply (Hpf e (p, c)) in Hep; [|apply elem_of_cons; auto..].
      simpl in Hep. apply (Hother e He). by rewrite Hep.
    + rewrite Hoth in Hd1 by done. apply isdir_true in Hd1.
      rewrite Hdir in Hd1; [done|]. apply elem_of_cons; auto.
  - split.
    + intros e [->|He]%elem_of_cons; [|by apply Hfiles]. simpl.
      apply Hframe; [intros e He; symmetry; by apply Hother|].
      apply lookup_insert_eq.
    + intros q x Hq. rewrite Hframe.
      * apply Hkeep. apply (Hq (p, c)), elem_of_cons; auto.
      * intros e He. apply Hq, elem_of_cons; auto.
Qed.

End Checkout.

Section RoundTrip.
Context `{PS : Pathspec} (d : FileCodeDriver).

Lemma tree_of_fst (s : fs) (l : list path) : (tree_of d s l).*1 = l.
Proof. induction l as [|p l IH]; [done|]. simpl. by f_equal. Qed.

Lemma elem_of_tracked_tree (s : fs) (e : path * string) :
  e ∈ tracked_tree d s ↔
  e.1 ∈ _get_tracked_files d s ∧ e.2 = content_at s (root d ++ e.1).
Proof.
  unfold tracked_tree, tree_of. rewrite list_elem_of_fmap. split.
  - by intros (p & -> & Hp).
  - intros [Hp He]. exists e.1. split; [|done]. destruct e. simpl in *. by subst.
Qed.

Lemma tracked_prefix_free (s : fs) (p q : path) :
  fs_wf s → p ∈ _get_tracked_files d s → q ∈ _get_tracked_files d s →
  p `prefix_of` q → p = q.
Proof.
  intros Hwf (_ & Hp & _)%elem_of_tracked (_ & Hq & _)%elem_of_tracked [r ->].
  rewrite app_assoc in Hq. rewrite (wf_file_no_child _ _ _ Hwf Hp Hq).
  by rewrite app_nil_r.
Qed.

Lemma under_prodat_not_tracked (s : fs) (x p : path) :
  _prodat_directory_name d ∈ x → p ∈ _get_tracked_files d s →
  root d ++ x ≠ root d ++ p.
Proof.
  intros Hx Hp Heq%(inj (root d ++.)). subst x.
  pose proof (tracked_plain d s) as Hpl. rewrite Forall_forall in Hpl.
  by apply Hpl in Hp as [_ ?].
Qed.

Lemma blob_path_under_prodat (p : path) (c : string) :
  ∃ x, _prodat_directory_name d ∈ x ∧ blob_path d p c = root d ++ x.
Proof.
  exists ([_prodat_directory_name d; "code"] ++ p ++ [MD5.hexdigest c]). split.
  - apply elem_of_cons; auto.
  - unfold blob_path. by rewrite code_filepath_eq, <-app_assoc.
Qed.

Lemma commit_record_under_prodat (h : string) :
  ∃ x, _prodat_directory_name d ∈ x ∧ _code_filepath d ++ [h] = root d ++ x.
Proof.
  exists ([_prodat_directory_name d; "code"] ++ [h]). split.
  - apply elem_of_cons; auto.
  - by rewrite code_filepath_eq, <-app_assoc.
Qed.

(** C3, as the code has it: take a tree [T] whose commit recorded a new
    Snapshot, the tracked names being plain (no comma, separator or line
    terminator in them) and no older blob colliding with a file of [T].
    Later, in any state that still stores this Snapshot as it was
    committed, a checkout of its digest that succeeds from a tree with
    another fingerprint gives every tracked path of [T] not occupied by
    a directory the bytes it had in [T], and leaves untouched every
    regular file that is neither tracked then nor a path of [T]. *)
Theorem checkout_restores (s0 s1 s2 s3 : fs) (h : string) :
  fs_wf s0 →
  create_ref d None s0 = (s1, Ok h) →
  exists_ref d s0 h = Ok false →
  let T := tracked_tree d s0 in
  Forall (λ e, plain_path e.1 = true) T →
  (∀ e c', e ∈ T → s0 !! blob_path d e.1 e.2 = Some (File c') → c' = e.2) →
  s2 !! (_code_filepath d ++ [h]) = s1 !! (_code_filepath d ++ [h]) →
  (∀ e, e ∈ T → s2 !! blob_path d e.1 e.2 = s1 !! blob_path d e.1 e.2) →
  (∀ e, e ∈ T → isdir s2 (root d ++ e.1) = false) →
  current_ref d s2 ≠ Ok h →
  checkout_ref d h s2 = (s3, Ok true) →
  (∀ e, e ∈ T → s3 !! (root d ++ e.1) = Some (File e.2)) ∧
  (∀ q c, s2 !! q = Some (File c) →
     (∀ p, p ∈ _get_tracked_files d s2 → q ≠ root d ++ p) →
     (∀ e, e ∈ T → q ≠ root d ++ e.1) →
     s3 !! q = Some (File c)).
Proof.
  intros Hwf Hc He T Hplain Hold Hrec2 Hblob2 Hdir2 Hcur Hco.
  pose proof (exists_ref_Ok_initialized d _ _ _ He) as Hi0.
  pose proof (create_ref_None_Ok d _ _ _ Hc) as (_ & Hh & _).
  (* the commit recorded the tree *)
  assert (record_commit d h (_get_tracked_files d s0) s0 = (s1, Ok h)) as Hr.
  { revert Hc. unfold create_ref. rewrite Hi0. simpl.
    rewrite calculate_commit_hash_tracked by done. by rewrite <-Hh, He. }
  rewrite exists_ref_isfile in He by done. injection He as Hnf.
  destruct (record_commit_records d h h _ _ _ Hwf (tracked_plain d s0) Hnf Hr)
    as [Hrec Hblobs].
  fold (tracked_tree d s0) in Hrec. fold T in Hrec.
  (* the checkout gets to the restore loop *)
  revert Hco. unfold checkout_ref.
  destruct (is_initialized d s2) eqn:Hi2; [simpl|done].
  destruct (exists_ref d s2 h) as [[]|]; try done.
  destruct (_has_unstaged_changes d s2) as [[]|]; try done.
  rewrite calculate_commit_hash_tracked by done.
  case_decide as Hdec.
  { exfalso. apply Hcur. rewrite current_ref_Ok by done. by rewrite Hdec. }
  set (s2' := remove_tracked d (_get_tracked_files d s2) s2).
  assert (∀ x, _prodat_directory_name d ∈ x →
               s2' !! (root d ++ x) = s2 !! (root d ++ x)) as Hstore.
  { intros x Hx. apply remove_tracked_other. intros p Hp.
    by apply (under_prodat_not_tracked s2). }
  destruct (commit_record_under_prodat h) as (xr & Hxr & Hcf).
  rewrite Hcf, Hstore, <-Hcf, Hrec2, Hrec by done.
  rewrite restore_lines_manifest by done. intros Hre.
  destruct (restore_entries_spec d T s2' s3) as [Hfiles Hframe]; try done.
  - unfold T, tracked_tree. rewrite tree_of_fst. apply NoDup_tracked.
  - apply Forall_forall. intros e [He _]%elem_of_tracked_tree.
    pose proof (tracked_plain d s0) as Hpl. rewrite Forall_forall in Hpl.
    by apply Hpl.
  - intros e1 e2 [H1 _]%elem_of_tracked_tree [H2 _]%elem_of_tracked_tree.
    by apply (tracked_prefix_free s0).
  - intros e c' He Hb.
    destruct (blob_path_under_prodat e.1 e.2) as (xb & Hxb & Hbp).
    rewrite Hbp, Hstore, <-Hbp, Hblob2 in Hb by done.
    pose proof He as [Hp He2]%elem_of_tracked_tree.
    rewrite He2 in Hb. destruct (Hblobs e.1 c' Hp Hb) as [->|Hb0]; [done|].
    rewrite <-He2 in Hb0. by apply (Hold e c').
  - intros e He. apply not_true_iff_false. intros Hd%isdir_true.
    apply remove_tracked_sub in Hd. apply isdir_true in Hd.
    by rewrite Hdir2 in Hd.
  - split; [done|]. intros q c Hq Hnt HnT. apply Hframe; [done|].
    unfold s2'. by rewrite remove_tracked_other.
Qed.

End RoundTrip.

(** ** Guards *)

Section Guards.
Context `{PS : Pathspec} (d : FileCodeDriver).

Lemma restore_line_exn (line : string) (s s' : fs) (e : exn) :
  restore_line d line s = (s', Raise e) → e = FileIOError ∨ e = OSError.
Proof.
  unfold restore_line.
  destruct (nonempty (rstrip line)); simpl; [|done].
  destruct (split_comma (rstrip line)) as [[tp fh]|]; [|intros [= _ <-]; auto].
  destruct (isfile s _); simpl; [|intros [= _ <-]; auto].
  destruct (makedirs s _) as [s1|]; [|intros [= _ <-]; auto].
  destruct (copy2 s1 _ _) as [s2|]; [done|intros [= _ <-]; auto].
Qed.

Lemma restore_lines_exn (lines : list string) (s s' : fs) (e : exn) :
  restore_lines d lines s = (s', Raise e) → e = FileIOError ∨ e = OSError.
Proof.
  revert s. induction lines as [|line rest IH]; intros s; simpl; [done|].
  destruct (restore_line d line s) as [s1 [[]|e1]] eqn:Hl; [by apply IH|].
  intros [= _ <-]. by eapply restore_line_exn.
Qed.

(** C10: [current_hash] requires a clean tree: where [_has_unstaged_changes]
    answers true it raises [UnstagedChanges], while [current_ref] returns
    the fingerprint of the tracked tree of that same state. *)
Theorem current_hash_requires_clean_tree (s : fs) :
  is_initialized d s = true →
  _has_unstaged_changes d s = Ok true →
  current_hash d s = Raise UnstagedChanges ∧
  current_ref d s = Ok (dirhash (tracked_tree d s)).
Proof.
  intros Hi Hu. split; [|by apply current_ref_Ok].
  unfold current_hash, check_unstaged_changes. by rewrite Hi, Hu.
Qed.

(** C7: for an existing Snapshot, [checkout_ref] raises [UnstagedChanges]
    exactly when [_has_unstaged_changes] answers true, and then leaves the
    file system as it is; on a clean tree it goes past the guard. *)
Theorem checkout_guard (s : fs) (commit_id : string) :
  exists_ref d s commit_id = Ok true →
  ∃ unstaged, _has_unstaged_changes d s = Ok unstaged ∧
    if unstaged then checkout_ref d commit_id s = (s, Raise UnstagedChanges)
    else (checkout_ref d commit_id s).2 ≠ Raise UnstagedChanges.
Proof.
  intros He. pose proof (exists_ref_Ok_initialized d _ _ _ He) as Hi.
  destruct (has_unstaged_changes_Ok d s Hi) as (l & _ & _ & Hu).
  eexists. split; [exact Hu|].
  unfold checkout_ref. rewrite Hi, He, Hu. simpl.
  destruct (match _get_tracked_files d s with [] => _ | _ => _ end); [done|].
  rewrite calculate_commit_hash_tracked by done.
  case_decide; [done|].
  destruct (remove_tracked d _ s !! _) as [[content|]|]; [|done..].
  destruct (restore_lines d _ _) as [s' [b|e]] eqn:Hr; [done|].
  simpl. apply restore_lines_exn in Hr as [->| ->]; done.
Qed.

(** C6, as the code has it: deleting or checking out a digest that names no
    Snapshot raises [FileIOError] and leaves the file system as it is. *)
Theorem absent_commit_rejected (s : fs) (commit_id : string) :
  exists_ref d s commit_id = Ok false →
  delete_ref d commit_id s = (s, Raise FileIOError) ∧
  checkout_ref d commit_id s = (s, Raise FileIOError).
Proof.
  intros He. pose proof (exists_ref_Ok_initialized d _ _ _ He) as Hi.
  unfold delete_ref, checkout_ref. by rewrite Hi, He.
Qed.

(** C8: deleting a Snapshot removes its commit record and nothing else:
    every stored blob and every other commit record is as before. *)
Theorem delete_ref_frame (s : fs) (commit_id : string) :
  exists_ref d s commit_id = Ok true →
  ∃ s', delete_ref d commit_id s = (s', Ok true) ∧
    s' !! (_code_filepath d ++ [commit_id]) = None ∧
    (∀ q, q ≠ _code_filepath d ++ [commit_id] → s' !! q = s !! q) ∧
    (∀ p filehash, p ≠ [] →
       s' !! (_code_filepath d ++ p ++ [filehash]) = s !! (_code_filepath d ++ p ++ [filehash])) ∧
    (∀ other, other ≠ commit_id →
       s' !! (_code_filepath d ++ [other]) = s !! (_code_filepath d ++ [other])).
Proof.
  intros He. pose proof (exists_ref_Ok_initialized d _ _ _ He) as Hi.
  pose proof He as He'. rewrite exists_ref_isfile in He' by done.
  injection He' as He'.
  exists (delete (_code_filepath d ++ [commit_id]) s).
  unfold delete_ref. rewrite Hi, He, He'. simpl.
  split_and!; [done|apply lookup_delete_eq|..].
  - intros q Hq. by rewrite lookup_delete_ne.
  - intros p filehash Hp. rewrite lookup_delete_ne; [done|].
    intros Heq%(inj (_code_filepath d ++.)).
    destruct p as [|x [|y p]]; simplify_eq.
  - intros other Hne. rewrite lookup_delete_ne; [done|].
    intros Heq%(inj (_code_filepath d ++.)). congruence.
Qed.

End Guards.

(** ** The guards on the end-to-end project *)

Lemma current_hash_requires_clean_tree_witness :
  let s := Scenario.edited_ab in
  is_initialized Scenario.drv s = true ∧
  _has_unstaged_changes (PS := Scenario.plain_names) Scenario.drv s = Ok true ∧
  current_hash (PS := Scenario.plain_names) Scenario.drv s = Raise UnstagedChanges ∧
  current_ref (PS := Scenario.plain_names) Scenario.drv s
    = Ok (dirhash (tracked_tree (PS := Scenario.plain_names) Scenario.drv s)).
Proof.
  intros s.
  assert (is_initialized Scenario.drv s = true) as Hi by (vm_compute; reflexivity).
  assert (_has_unstaged_changes (PS := Scenario.plain_names) Scenario.drv s = Ok true) as Hu
    by (vm_compute; reflexivity).
  split; [exact Hi|]. split; [exact Hu|].
  exact (current_hash_requires_clean_tree Scenario.drv s Hi Hu).
Defined.

Lemma checkout_guard_witness :
  let s := Scenario.edited_ab in
  exists_ref Scenario.drv s Scenario.D1 = Ok true ∧
  ∃ unstaged, _has_unstaged_changes (PS := Scenario.plain_names) Scenario.drv s = Ok unstaged ∧
    if unstaged
    then checkout_ref (PS := Scenario.plain_names) Scenario.drv Scenario.D1 s
         = (s, Raise UnstagedChanges)
    else (checkout_ref (PS := Scenario.plain_names) Scenario.drv Scenario.D1 s).2
         ≠ Raise UnstagedChanges.
Proof.
  intros s.
  assert (exists_ref Scenario.drv s Scenario.D1 = Ok true) as He by (vm_compute; reflexivity).
  split; [exact He|].
  exact (checkout_guard (PS := Scenario.plain_names) Scenario.drv s Scenario.D1 He).
Defined.

(** C6 as stated fails on the kind of error: for the absent digest
    ["0000"], [delete_ref] and [checkout_ref] raise [FileIOError], not
    [CommitDoesNotExist]; [create_ref] given that digest is the one that
    raises [CommitDoesNotExist]. *)
Lemma absent_commit_not_CommitDoesNotExist :
  let s := Scenario.committed_ab in
  exists_ref Scenario.drv s "0000" = Ok false ∧
  (delete_ref Scenario.drv "0000" s).2 = Raise FileIOError ∧
  (delete_ref Scenario.drv "0000" s).2 ≠ Raise CommitDoesNotExist ∧
  (checkout_ref (PS := Scenario.plain_names) Scenario.drv "0000" s).2 = Raise FileIOError ∧
  (checkout_ref (PS := Scenario.plain_names) Scenario.drv "0000" s).2 ≠ Raise CommitDoesNotExist ∧
  (create_ref (PS := Scenario.plain_names) Scenario.drv (Some "0000") s).2
    = Raise CommitDoesNotExist.
Proof. vm_compute. split_and!; done. Qed.

Lemma absent_commit_rejected_witness :
  let s := Scenario.committed_ab in
  exists_ref Scenario.drv s "0000" = Ok false ∧
  delete_ref Scenario.drv "0000" s = (s, Raise FileIOError) ∧
  checkout_ref (PS := Scenario.plain_names) Scenario.drv "0000" s = (s, Raise FileIOError).
Proof.
  intros s.
  assert (exists_ref Scenario.drv s "0000" = Ok false) as He by (vm_compute; reflexivity).
  split; [exact He|].
  exact (absent_commit_rejected (PS := Scenario.plain_names) Scenario.drv s "0000" He).
Defined.

Lemma delete_ref_frame_witness :
  let s := Scenario.committed_ab in
  let d := Scenario.drv in
  exists_ref d s Scenario.D1 = Ok true ∧
  ∃ s', delete_ref d Scenario.D1 s = (s', Ok true) ∧
    s' !! (_code_filepath d ++ [Scenario.D1]) = None ∧
    (∀ q, q ≠ _code_filepath d ++ [Scenario.D1] → s' !! q = s !! q) ∧
    (∀ p filehash, p ≠ [] →
       s' !! (_code_filepath d ++ p ++ [filehash]) = s !! (_code_filepath d ++ p ++ [filehash])) ∧
    (∀ other, other ≠ Scenario.D1 →
       s' !! (_code_filepath d ++ [other]) = s !! (_code_filepath d ++ [other])).
Proof.
  intros s d.
  assert (exists_ref d s Scenario.D1 = Ok true) as He by (vm_compute; reflexivity).
  split; [exact He|].
  exact (delete_ref_frame d s Scenario.D1 He).
Defined.

(** ** Commits on the concrete projects *)

(** A run is settled by its result: the file system it leaves is the one
    [Scenario.run] names. *)
Lemma run_result {A} (m : fs → fs * result A) (s : fs) (r : result A) :
  (m s).2 = r → m s = (Scenario.run m s, r).
Proof. intros <-. unfold Scenario.run. by destruct (m s). Qed.

Lemma commit_idempotent_witness :
  create_ref (PS := Scenario.plain_names) Scenario.drv None Scenario.project_ab
    = (Scenario.committed_ab, Ok Scenario.D1) ∧
  create_ref (PS := Scenario.plain_names) Scenario.drv None Scenario.committed_ab
    = (Scenario.committed_ab, Ok Scenario.D1) ∧
  list_refs Scenario.drv
      (create_ref (PS := Scenario.plain_names) Scenario.drv None Scenario.committed_ab).1
    = list_refs Scenario.drv Scenario.committed_ab.
Proof.
  assert (create_ref (PS := Scenario.plain_names) Scenario.drv None Scenario.project_ab
            = (Scenario.committed_ab, Ok Scenario.D1)) as H1
    by (apply run_result; vm_compute; reflexivity).
  split; [exact H1|].
  exact (commit_idempotent (PS := Scenario.plain_names) Scenario.drv _ _ _ H1).
Defined.

Lemma has_unstaged_changes_spec_witness :
  is_initialized Scenario.drv Scenario.empty_project = true ∧
  _has_unstaged_changes (PS := Scenario.plain_names) Scenario.drv Scenario.empty_project
    = Ok true ∧
  _has_unstaged_changes (PS := Scenario.plain_names) Scenario.drv Scenario.committed_empty
    = Ok false.
Proof.
  assert (is_initialized Scenario.drv Scenario.empty_project = true) as Hi
    by (vm_compute; reflexivity).
  split; [exact Hi|].
  destruct (has_unstaged_changes_spec (PS := Scenario.plain_names) Scenario.drv _ Hi)
    as (commits & Hl & _ & _ & Hboot).
  assert (commits = []) as Hc.
  { assert (list_refs Scenario.drv Scenario.empty_project = Ok []) as Hl'
      by (vm_compute; reflexivity).
    rewrite Hl' in Hl. by injection Hl. }
  assert (_get_tracked_files (PS := Scenario.plain_names) Scenario.drv
            Scenario.empty_project = []) as Ht by (vm_compute; reflexivity).
  destruct (Hboot Ht Hc) as [Hu Hafter]. split; [exact Hu|].
  apply (Hafter Scenario.committed_empty Scenario.D0).
  apply run_result; vm_compute; reflexivity.
Defined.

(** C1 as stated fails: a file named like the digest of the empty tree
    cannot get its blob directory, since the commit record of that tree
    is in the way. The commit raises [FileIOError], yet its own record,
    opened before and still empty, is now listed as a Snapshot, and the
    tree counts as clean. *)
Lemma failed_commit_leaves_snapshot :
  let s := Scenario.clashing_project in
  let d := Scenario.drv in
  fs_wf_check s = true ∧
  list_refs d s = Ok [Scenario.D0] ∧
  current_ref (PS := Scenario.plain_names) d s = Ok Scenario.Dx ∧
  exists_ref d s Scenario.Dx = Ok false ∧
  ∃ s', create_ref (PS := Scenario.plain_names) d None s = (s', Raise FileIOError) ∧
    exists_ref d s' Scenario.Dx = Ok true ∧
    list_refs d s' = Ok [Scenario.Dx; Scenario.D0] ∧
    s' !! (_code_filepath d ++ [Scenario.Dx]) = Some (File EmptyString) ∧
    _has_unstaged_changes (PS := Scenario.plain_names) d s' = Ok false.
Proof.
  intros s d. split_and!; [vm_compute; reflexivity..|].
  exists (Scenario.run (create_ref (PS := Scenario.plain_names) d None) s).
  split_and!; [apply run_result|..]; vm_compute; reflexivity.
Qed.

Lemma failed_commit_leaves_record_witness :
  let s := Scenario.clashing_project in
  let d := Scenario.drv in
  let s' := Scenario.run (create_ref (PS := Scenario.plain_names) d None) s in
  let h := dirhash (tracked_tree (PS := Scenario.plain_names) d s) in
  is_initialized d s = true ∧
  exists_ref d s h = Ok false ∧
  isdir s (_code_filepath d ++ [h]) = false ∧
  create_ref (PS := Scenario.plain_names) d None s = (s', Raise FileIOError) ∧
  exists_ref d s' h = Ok true ∧
  (∀ c, c ≠ h → exists_ref d s' c = exists_ref d s c) ∧
  ∃ k, k < length (tracked_tree (PS := Scenario.plain_names) d s) ∧
       s' !! (_code_filepath d ++ [h])
         = Some (File (manifest_text (take k (tracked_tree (PS := Scenario.plain_names) d s)))).
Proof.
  intros s d s' h.
  assert (is_initialized d s = true) as Hi by (vm_compute; reflexivity).
  assert (exists_ref d s h = Ok false) as He by (vm_compute; reflexivity).
  assert (isdir s (_code_filepath d ++ [h]) = false) as Hd by (vm_compute; reflexivity).
  assert (create_ref (PS := Scenario.plain_names) d None s = (s', Raise FileIOError)) as Hc
    by (apply run_result; vm_compute; reflexivity).
  split; [exact Hi|]. split; [exact He|]. split; [exact Hd|]. split; [exact Hc|].
  exact (failed_commit_leaves_record (PS := Scenario.plain_names) d s s' Hi He Hd Hc).
Defined.

(** ** Fingerprints of the concrete projects *)

(** C2 as stated fails on a rename: [a.txt] renamed to [b.txt] with the
    same bytes changes the Tracked Set and leaves the fingerprint as it was. *)
Lemma rename_keeps_fingerprint :
  let d := Scenario.drv in
  tracked_tree (PS := Scenario.plain_names) d Scenario.project_a = [(["a.txt"], "x")] ∧
  tracked_tree (PS := Scenario.plain_names) d Scenario.project_renamed = [(["b.txt"], "x")] ∧
  current_ref (PS := Scenario.plain_names) d Scenario.project_a = Ok Scenario.Dx ∧
  current_ref (PS := Scenario.plain_names) d Scenario.project_renamed = Ok Scenario.Dx.
Proof. intros d. split_and!; vm_compute; reflexivity. Qed.

Lemma fingerprint_of_contents_witness :
  let cur := current_ref (PS := Scenario.plain_names) in
  (is_initialized Scenario.drv Scenario.project_ab = true ∧
   is_initialized Scenario.drv' Scenario.project_ab_copy = true ∧
   cur Scenario.drv Scenario.project_ab = cur Scenario.drv' Scenario.project_ab_copy) ∧
  (is_initialized Scenario.drv Scenario.project_a = true ∧
   is_initialized Scenario.drv Scenario.project_renamed = true ∧
   cur Scenario.drv Scenario.project_a = cur Scenario.drv Scenario.project_renamed) ∧
  (is_initialized Scenario.drv Scenario.project_ab = true ∧
   is_initialized Scenario.drv Scenario.edited_ab = true ∧
   cur Scenario.drv Scenario.project_ab ≠ cur Scenario.drv Scenario.edited_ab).
Proof.
  intros cur.
  assert (is_initialized Scenario.drv Scenario.project_ab = true) as Iab
    by (vm_compute; reflexivity).
  assert (is_initialized Scenario.drv' Scenario.project_ab_copy = true) as Icp
    by (vm_compute; reflexivity).
  assert (is_initialized Scenario.drv Scenario.project_a = true) as Ia
    by (vm_compute; reflexivity).
  assert (is_initialized Scenario.drv Scenario.project_renamed = true) as Irn
    by (vm_compute; reflexivity).
  assert (is_initialized Scenario.drv Scenario.edited_ab = true) as Ied
    by (vm_compute; reflexivity).
  split; [|split].
  - split; [exact Iab|]. split; [exact Icp|].
    apply (fingerprint_of_contents (PS := Scenario.plain_names) _ _ _ _ Iab Icp).
    assert (tracked_tree (PS := Scenario.plain_names) Scenario.drv Scenario.project_ab
            = tracked_tree (PS := Scenario.plain_names) Scenario.drv' Scenario.project_ab_copy)
      as -> by (vm_compute; reflexivity).
    done.
  - split; [exact Ia|]. split; [exact Irn|].
    apply (fingerprint_of_contents (PS := Scenario.plain_names) _ _ _ _ Ia Irn).
    assert (contents (tracked_tree (PS := Scenario.plain_names) Scenario.drv Scenario.project_a)
            = contents (tracked_tree (PS := Scenario.plain_names) Scenario.drv
                          Scenario.project_renamed))
      as -> by (vm_compute; reflexivity).
    done.
  - split; [exact Iab|]. split; [exact Ied|].
    apply (fingerprint_of_contents (PS := Scenario.plain_names) _ _ _ _ Iab Ied).
    + vm_compute; reflexivity.
    + vm_compute; reflexivity.
    + assert (contents (tracked_tree (PS := Scenario.plain_names) Scenario.drv
                          Scenario.project_ab) = ["x"; "y"]) as ->
        by (vm_compute; reflexivity).
      assert (contents (tracked_tree (PS := Scenario.plain_names) Scenario.drv
                          Scenario.edited_ab) = ["z"; "y"]) as ->
        by (vm_compute; reflexivity).
      by intros [?|?]%Permutation_length_2_inv.
Defined.

(** ** A commit with another writer at work *)

(** C9 as stated fails: [a.txt] holds "x" when the temporary copy is taken
    and fingerprinted, and is edited to "z" before it is recorded. The
    Snapshot is named by the fingerprint of "x", while its commit record
    carries the digest of "z" and the only blob stored holds "z". *)
Lemma concurrent_edit_splits_versions :
  let d := Scenario.drv in
  let s := Scenario.project_a in
  let s' := Scenario.run (create_ref_interleaved (PS := Scenario.plain_names) d Scenario.edit_a) s in
  current_ref (PS := Scenario.plain_names) d s = Ok Scenario.Dx ∧
  tracked_tree (PS := Scenario.plain_names) d s = [(["a.txt"], "x")] ∧
  create_ref_interleaved (PS := Scenario.plain_names) d Scenario.edit_a s = (s', Ok Scenario.Dx) ∧
  s' !! (_code_filepath d ++ [Scenario.Dx])
    = Some (File ("a.txt,fbade9e36a3f36d3d676c1b808451dd7" +:+ newline)) ∧
  MD5.hexdigest "z" = "fbade9e36a3f36d3d676c1b808451dd7" ∧
  s' !! blob_path d ["a.txt"] "z" = Some (File "z") ∧
  s' !! blob_path d ["a.txt"] "x" = None.
Proof.
  intros d s s'. split_and!; [..|apply run_result| | | |]; vm_compute; reflexivity.
Qed.

Lemma commit_fingerprint_then_live_read_witness :
  let d := Scenario.drv in
  let s := Scenario.project_a in
  let s' := Scenario.run (create_ref_interleaved (PS := Scenario.plain_names) d Scenario.edit_a) s in
  create_ref_interleaved (PS := Scenario.plain_names) d Scenario.edit_a s = (s', Ok Scenario.Dx) ∧
  exists_ref d s Scenario.Dx = Ok false ∧
  fs_wf (Scenario.edit_a s) ∧
  isfile (Scenario.edit_a s) (_code_filepath d ++ [Scenario.Dx]) = false ∧
  Scenario.Dx = dirhash (tracked_tree (PS := Scenario.plain_names) d s) ∧
  s' !! (_code_filepath d ++ [Scenario.Dx])
    = Some (File (manifest_text
                    (tree_of d (Scenario.edit_a s)
                       (_get_tracked_files (PS := Scenario.plain_names) d s)))) ∧
  (∀ p c', p ∈ _get_tracked_files (PS := Scenario.plain_names) d s →
     let c := content_at (Scenario.edit_a s) (root d ++ p) in
     s' !! blob_path d p c = Some (File c') →
     c' = c ∨ Scenario.edit_a s !! blob_path d p c = Some (File c')) ∧
  create_ref_interleaved (PS := Scenario.plain_names) d id s
    = create_ref (PS := Scenario.plain_names) d None s.
Proof.
  intros d s s'.
  assert (create_ref_interleaved (PS := Scenario.plain_names) d Scenario.edit_a s
          = (s', Ok Scenario.Dx)) as Hc by (apply run_result; vm_compute; reflexivity).
  assert (exists_ref d s Scenario.Dx = Ok false) as He by (vm_compute; reflexivity).
  assert (fs_wf (Scenario.edit_a s)) as Hwf
    by (apply fs_wf_check_sound; vm_compute; reflexivity).
  assert (isfile (Scenario.edit_a s) (_code_filepath d ++ [Scenario.Dx]) = false) as Hnf
    by (vm_compute; reflexivity).
  split; [exact Hc|]. split; [exact He|]. split; [exact Hwf|]. split; [exact Hnf|].
  exact (commit_fingerprint_then_live_read (PS := Scenario.plain_names) d
           Scenario.edit_a s s' Scenario.Dx Hc He Hwf Hnf).
Defined.

(** ** Checkouts of the concrete projects *)

(** C3 as stated fails, in three ways.
    - The tree with [a.txt] is committed and the file is then moved to
      [b.txt]. The fingerprint is still the one committed, so the tree
      counts as clean and the checkout of that digest succeeds without
      doing anything: [a.txt] is not there afterwards.
    - [a.txt] is replaced by a directory of that name. The checkout
      succeeds, and the blob is copied into the directory under its own
      name: the path [a.txt] does not hold "x".
    - [b.txt] is put on the ignore list and given other bytes. The
      checkout of the first Snapshot succeeds and overwrites it. *)
Lemma checkout_does_not_round_trip :
  let d := Scenario.drv in
  let checkout := checkout_ref (PS := Scenario.plain_names) d in
  let tracked := _get_tracked_files (PS := Scenario.plain_names) d in
  (create_ref (PS := Scenario.plain_names) d None Scenario.project_a
     = (Scenario.committed_a, Ok Scenario.Dx) ∧
   tracked_tree (PS := Scenario.plain_names) d Scenario.project_a = [(["a.txt"], "x")]) ∧
  (let s3 := Scenario.run (checkout Scenario.Dx) Scenario.moved_a in
   fs_wf_check Scenario.moved_a = true ∧
   tracked Scenario.moved_a = [["b.txt"]] ∧
   checkout Scenario.Dx Scenario.moved_a = (s3, Ok true) ∧
   s3 !! (root d ++ ["a.txt"]) = None ∧
   s3 !! (root d ++ ["b.txt"]) = Some (File "x")) ∧
  (let s3 := Scenario.run (checkout Scenario.Dx) Scenario.dir_in_the_way in
   fs_wf_check Scenario.dir_in_the_way = true ∧
   tracked Scenario.dir_in_the_way = [["a.txt"; "inner"]] ∧
   checkout Scenario.Dx Scenario.dir_in_the_way = (s3, Ok true) ∧
   s3 !! (root d ++ ["a.txt"]) = Some Dir ∧
   s3 !! (root d ++ ["a.txt"; MD5.hexdigest "x"]) = Some (File "x")) ∧
  (let s3 := Scenario.run (checkout Scenario.D1) Scenario.ignoring_b in
   create_ref (PS := Scenario.plain_names) d None Scenario.project_ab
     = (Scenario.committed_ab, Ok Scenario.D1) ∧
   fs_wf_check Scenario.ignoring_b = true ∧
   tracked Scenario.ignoring_b = [[".prodatignore"]; ["a.txt"]] ∧
   Scenario.ignoring_b !! (root d ++ ["b.txt"]) = Some (File "private") ∧
   checkout Scenario.D1 Scenario.ignoring_b = (s3, Ok true) ∧
   s3 !! (root d ++ ["b.txt"]) = Some (File "y")).
Proof.
  intros d checkout tracked. cbv zeta.
  split_and!; try (apply run_result); vm_compute; reflexivity.
Qed.

Lemma checkout_restores_witness :
  let d := Scenario.drv in
  let T := tracked_tree (PS := Scenario.plain_names) d Scenario.project_ab in
  let s2 := Scenario.recommitted_ab in
  let s3 := Scenario.restored_ab in
  T = [(["a.txt"], "x"); (["b.txt"], "y")] ∧
  create_ref (PS := Scenario.plain_names) d None Scenario.project_ab
    = (Scenario.committed_ab, Ok Scenario.D1) ∧
  s2 !! (root d ++ ["a.txt"]) = Some (File "z") ∧
  checkout_ref (PS := Scenario.plain_names) d Scenario.D1 s2 = (s3, Ok true) ∧
  (∀ e, e ∈ T → s3 !! (root d ++ e.1) = Some (File e.2)) ∧
  (∀ q c, s2 !! q = Some (File c) →
     (∀ p, p ∈ _get_tracked_files (PS := Scenario.plain_names) d s2 → q ≠ root d ++ p) →
     (∀ e, e ∈ T → q ≠ root d ++ e.1) →
     s3 !! q = Some (File c)).
Proof.
  intros d T s2 s3.
  assert (T = [(["a.txt"], "x"); (["b.txt"], "y")]) as HT by (vm_compute; reflexivity).
  assert (create_ref (PS := Scenario.plain_names) d None Scenario.project_ab
          = (Scenario.committed_ab, Ok Scenario.D1)) as Hc
    by (apply run_result; vm_compute; reflexivity).
  assert (checkout_ref (PS := Scenario.plain_names) d Scenario.D1 s2 = (s3, Ok true)) as Hco
    by (apply run_result; vm_compute; reflexivity).
  split; [exact HT|]. split; [exact Hc|].
  split; [vm_compute; reflexivity|]. split; [exact Hco|].
  apply (checkout_restores (PS := Scenario.plain_names) d
           Scenario.project_ab Scenario.committed_ab s2 s3 Scenario.D1).
  - apply fs_wf_check_sound. vm_compute; reflexivity.
  - exact Hc.
  - vm_compute; reflexivity.
  - fold T. rewrite HT. repeat constructor.
  - fold T. rewrite HT. intros e c' He.
    apply elem_of_cons in He as [->|He]; [vm_compute; discriminate|].
    apply elem_of_cons in He as [->|He]; [vm_compute; discriminate|].
    destruct (not_elem_of_nil _ He).
  - vm_compute; reflexivity.
  - fold T. rewrite HT. intros e He.
    apply elem_of_cons in He as [->|He]; [vm_compute; reflexivity|].
    apply elem_of_cons in He as [->|He]; [vm_compute; reflexivity|].
    destruct (not_elem_of_nil _ He).
  - fold T. rewrite HT. intros e He.
    apply elem_of_cons in He as [->|He]; [vm_compute; reflexivity|].
    apply elem_of_cons in He as [->|He]; [vm_compute; reflexivity|].
    destruct (not_elem_of_nil _ He).
  - vm_compute. discriminate.
  - exact Hco.
Defined.

(** ** The model on known values *)

(** The test suite of RFC 1321, section A.5. *)
Lemma md5_test_suite :
  MD5.hexdigest "" = "d41d8cd98f00b204e9800998ecf8427e" ∧
  MD5.hexdigest "a" = "0cc175b9c0f1b6a831c399e269772661" ∧
  MD5.hexdigest "abc" = "900150983cd24fb0d6963f7d28e17f72" ∧
  MD5.hexdigest "message digest" = "f96b697d7cb7938d525a2f31aaf161d0" ∧
  MD5.hexdigest "abcdefghijklmnopqrstuvwxyz" = "c3fcd3d76192e4007dfb496cca67e13b" ∧
  MD5.hexdigest "ABCDEFGHIJKLMNOPQRSTUVWXYZabcdefghijklmnopqrstuvwxyz0123456789"
    = "d174ab98d277d9f5a5611c2c9f419d9f" ∧
  MD5.hexdigest
    "12345678901234567890123456789012345678901234567890123456789012345678901234567890"
    = "57edf4a22be3c955ac49da2e2107b67a".
Proof. split_and!; vm_compute; reflexivity. Qed.

(** The end-to-end scenario of the design: both files are committed at
    [D1]; after the edit of [a.txt] the tree is dirty and commits at
    another digest; the checkout of [D1] brings "x" and "y" back and does
    not touch the ignored file. *)
Lemma end_to_end_scenario :
  let d := Scenario.drv in
  let code := _code_filepath d in
  (create_ref (PS := Scenario.plain_names) d None Scenario.project_ab).2 = Ok Scenario.D1 ∧
  Scenario.committed_ab !! (code ++ [Scenario.D1])
    = Some (File (manifest_text [(["a.txt"], "x"); (["b.txt"], "y")])) ∧
  _has_unstaged_changes (PS := Scenario.plain_names) d Scenario.committed_ab = Ok false ∧
  _has_unstaged_changes (PS := Scenario.plain_names) d Scenario.edited_with_git = Ok true ∧
  (create_ref (PS := Scenario.plain_names) d None Scenario.edited_with_git).2
    = Ok "88834b7a66f24327f29317fdeee31685" ∧
  (checkout_ref (PS := Scenario.plain_names) d Scenario.D1 Scenario.recommitted_ab).2
    = Ok true ∧
  Scenario.restored_ab !! (root d ++ ["a.txt"]) = Some (File "x") ∧
  Scenario.restored_ab !! (root d ++ ["b.txt"]) = Some (File "y") ∧
  Scenario.restored_ab !! (root d ++ [".git"; "config"]) = Some (File "g").
Proof. intros d code. split_and!; vm_compute; reflexivity. Qed.

(** * Further properties of the driver *)

(** ** Setting the store up *)

Lemma makedirs_None (s : fs) (p q : path) :
  q `prefix_of` p → isfile s q = true → makedirs s p = None.
Proof.
  intros Hq Hf. unfold makedirs.
  assert (existsb (isfile s) (inits p) = true) as ->; [|done].
  apply existsb_exists. exists q. split; [|done].
  apply list_elem_of_In. by apply elem_of_inits.
Qed.

Lemma makedirs_is_Some (s : fs) (p : path) :
  (∀ q, q `prefix_of` p → isfile s q = false) → is_Some (makedirs s p).
Proof.
  intros Hq. unfold makedirs.
  destruct (existsb (isfile s) (inits p)) eqn:He; [|by eexists].
  apply existsb_exists in He as (q & Hin%list_elem_of_In%elem_of_inits & Hf).
  by rewrite Hq in Hf.
Qed.

(** [if not os.path.isdir(p): os.makedirs(p, exist_ok=True)] *)
Lemma ensure_dir_Some (s s' : fs) (p : path) :
  (if isdir s p then Some s else makedirs s p) = Some s' →
  isdir s' p = true ∧
  (∀ q c, s' !! q = Some (File c) ↔ s !! q = Some (File c)) ∧
  (∀ q, s !! q = Some Dir → s' !! q = Some Dir) ∧
  (∀ q, ¬ q `prefix_of` p → s' !! q = s !! q) ∧
  (∀ q, isdir s p = false → q `prefix_of` p → s' !! q = Some Dir).
Proof.
  destruct (isdir s p) eqn:Hd.
  - intros [= <-]. by split_and!.
  - intros Hm. pose proof (makedirs_Some _ _ _ Hm) as (_ & Hdirs & Hout).
    split_and!.
    + apply isdir_true. by apply Hdirs.
    + intros q c. by apply makedirs_file with p.
    + intros q. by apply makedirs_dir with p.
    + done.
    + intros q _. apply Hdirs.
Qed.

Section Init.
Context `{PS : Pathspec} (d : FileCodeDriver).

Lemma prodat_prefix_code : _prodat_directory_path d `prefix_of` _code_filepath d.
Proof. by exists ["code"]. Qed.

Lemma init_Ok (s s' : fs) (b : bool) :
  init d s = (s', Ok b) →
  b = true ∧ is_initialized d s' = true ∧
  (∀ q c, s' !! q = Some (File c) ↔ s !! q = Some (File c)) ∧
  (∀ q, s !! q = Some Dir → s' !! q = Some Dir) ∧
  (∀ q, ¬ q `prefix_of` _code_filepath d → s' !! q = s !! q).
Proof.
  unfold init.
  destruct (if isdir s _ then _ else _) as [s1|] eqn:H1; [|done].
  destruct (if isdir s1 _ then _ else _) as [s2|] eqn:H2; [|done].
  intros [= <- <-].
  apply ensure_dir_Some in H1 as (Hd1 & Hf1 & Hk1 & Ho1 & _).
  apply ensure_dir_Some in H2 as (Hd2 & Hf2 & Hk2 & Ho2 & _).
  split_and!; [done|..].
  - unfold is_initialized. rewrite Hd2, andb_true_r.
    apply isdir_true, Hk2. by apply isdir_true.
  - intros q c. by rewrite Hf2.
  - auto.
  - intros q Hq. rewrite Ho2, Ho1; [done| |done].
    intros Hp. apply Hq. etrans; [done|apply prodat_prefix_code].
Qed.

(** X1: when [init] succeeds it returns [True] and the layout is there
    ([is_initialized]); no regular file has changed and no directory is
    lost, only the code directory and what lies above it was created; a
    second [init] changes nothing. *)
Theorem init_establishes_layout (s s' : fs) (b : bool) :
  init d s = (s', Ok b) →
  b = true ∧ is_initialized d s' = true ∧
  (∀ q c, s' !! q = Some (File c) ↔ s !! q = Some (File c)) ∧
  (∀ q, s !! q = Some Dir → s' !! q = Some Dir) ∧
  (∀ q, ¬ q `prefix_of` _code_filepath d → s' !! q = s !! q) ∧
  init d s' = (s', Ok true).
Proof.
  intros Hi. pose proof (init_Ok _ _ _ Hi) as (Hb & Hinit & Hf & Hk & Ho).
  split_and!; try done.
  revert Hinit. unfold is_initialized, init.
  intros [-> ->]%andb_true_iff. done.
Qed.

End Init.

Lemma wf_prefix_dir (s : fs) (p q : path) :
  fs_wf s → is_Some (s !! p) → q `prefix_of` p → q ≠ p → s !! q = Some Dir.
Proof.
  intros Hwf [v Hv] [r ->] Hne. apply (wf_above_dir s q r); [done| |by rewrite Hv].
  intros ->. by rewrite app_nil_r in Hne.
Qed.

(** X2: on a well-formed file system, a driver constructed on an existing
    root keeps the root and the directory name it was given; its [init]
    raises [OSError] and changes nothing when the root, the prodat
    directory or the code directory is a regular file, and otherwise
    succeeds and leaves the store initialized. *)
Theorem init_after_construction (s : fs) (rt : path) (name : string) (d : FileCodeDriver) :
  fs_wf s → __init__ s rt name = Ok d →
  root d = rt ∧ _prodat_directory_name d = name ∧
  if isfile s rt || isfile s (_prodat_directory_path d) || isfile s (_code_filepath d)
  then init d s = (s, Raise OSError)
  else ∃ s', init d s = (s', Ok true) ∧ is_initialized d s' = true.
Proof.
  intros Hwf. unfold __init__. case_bool_decide as Hrt; [|done].
  intros [= <-]. simpl. split; [done|]. split; [done|].
  set (d := {| root := rt; _prodat_directory_name := name |}).
  assert (∀ q, q `prefix_of` _prodat_directory_path d → q ≠ _prodat_directory_path d →
               q ≠ rt → s !! q = Some Dir) as Habove.
  { intros q Hq Hne1 Hne2. apply prefix_snoc_inv in Hq as [?|Hq]; [done|].
    by apply (wf_prefix_dir s rt). }
  destruct (isfile s rt) eqn:Hfr; simpl.
  { unfold init.
    assert (isdir s (_prodat_directory_path d) = false) as ->.
    { apply not_true_iff_false. intros Hd%isdir_true.
      apply isfile_true in Hfr as [c Hc].
      rewrite (wf_above_dir s rt [name] Hwf) in Hc; [done|done|].
      unfold _prodat_directory_path in Hd. simpl in Hd. by rewrite Hd. }
    rewrite (makedirs_None s _ rt); [done| |done]. by exists [name]. }
  destruct (isfile s (_prodat_directory_path d)) eqn:Hfp; simpl.
  { unfold init. rewrite (isfile_isdir _ _ Hfp).
    by rewrite (makedirs_None s _ (_prodat_directory_path d)). }
  destruct (isfile s (_code_filepath d)) eqn:Hfc.
  { unfold init.
    assert (isdir s (_prodat_directory_path d) = true) as ->.
    { apply isdir_true. apply (wf_above_dir s _ ["code"]); [done..|].
      apply isfile_true in Hfc as [c Hc]. unfold _code_filepath in Hc. by rewrite Hc. }
    rewrite (isfile_isdir _ _ Hfc).
    by rewrite (makedirs_None s _ (_code_filepath d)). }
  assert (∀ q, q `prefix_of` _prodat_directory_path d → isfile s q = false) as Hnf1.
  { intros q Hq. destruct (decide (q = _prodat_directory_path d)) as [->|Hne1]; [done|].
    destruct (decide (q = rt)) as [->|Hne2]; [done|].
    unfold isfile. by rewrite Habove. }
  assert (∃ s1, (if isdir s (_prodat_directory_path d) then Some s
                 else makedirs s (_prodat_directory_path d)) = Some s1) as [s1 H1].
  { destruct (isdir s _); [by eexists|]. by apply makedirs_is_Some. }
  pose proof H1 as (_ & Hf1 & _)%ensure_dir_Some.
  assert (∀ q, isfile s1 q = isfile s q) as Hsame.
  { intros q. apply eq_true_iff_eq. rewrite !isfile_true.
    by setoid_rewrite Hf1. }
  assert (∃ s2, (if isdir s1 (_code_filepath d) then Some s1
                 else makedirs s1 (_code_filepath d)) = Some s2) as [s2 H2].
  { destruct (isdir s1 _); [by eexists|]. apply makedirs_is_Some.
    intros q Hq. rewrite Hsame.
    apply prefix_snoc_inv in Hq as [->|Hq]; [done|by apply Hnf1]. }
  assert (init d s = (s2, Ok true)) as Hi.
  { unfold init. by rewrite H1, H2. }
  exists s2. split; [done|]. by apply init_Ok in Hi as (_ & ? & _).
Qed.

(** ** The latest Snapshot *)

Section LatestRefFacts.
Context (getmtime : path → Z).

Lemma head_insert_by_mtime (p : path) (l : list path) :
  head (insert_by_mtime getmtime p l)
  = Some (match head l with
          | Some q => if (getmtime p <? getmtime q)%Z then q else p
          | None => p
          end).
Proof. destruct l as [|q r]; simpl; [done|]. by destruct (_ <? _)%Z. Qed.

Lemma head_sort_by_mtime_reverse (l : list path) :
  match head (sort_by_mtime_reverse getmtime l) with
  | None => l = []
  | Some p => p ∈ l ∧ ∀ q, q ∈ l → (getmtime q ≤ getmtime p)%Z
  end.
Proof.
  induction l as [|x l IH]; simpl; [done|].
  rewrite head_insert_by_mtime.
  destruct (head (sort_by_mtime_reverse getmtime l)) as [q|].
  - destruct IH as [Hq Hmax].
    destruct (getmtime x <? getmtime q)%Z eqn:Hlt.
    + apply Z.ltb_lt in Hlt. split; [by apply elem_of_cons; right|].
      intros e [->|He]%elem_of_cons; [lia|by apply Hmax].
    + apply Z.ltb_ge in Hlt. split; [by apply elem_of_cons; left|].
      intros e [->|He]%elem_of_cons; [lia|]. etrans; [by apply Hmax|done].
  - subst l. split; [by apply elem_of_cons; left|].
    intros e [->|He]%elem_of_cons; [lia|]. destruct (not_elem_of_nil _ He).
Qed.

Lemma latest_ref_Ok (d : FileCodeDriver) (s : fs) (l : list string) :
  is_initialized d s = true → list_refs d s = Ok l →
  (∀ c, c ∈ l ↔ isfile s (_code_filepath d ++ [c]) = true) →
  match l with
  | [] => latest_ref getmtime d s = Ok None
  | _ => ∃ h, latest_ref getmtime d s = Ok (Some h) ∧ h ∈ l ∧
         ∀ c, c ∈ l →
           (getmtime (_code_filepath d ++ [c]) ≤ getmtime (_code_filepath d ++ [h]))%Z
  end.
Proof.
  intros Hi Hlr Hl. unfold latest_ref. rewrite Hi, Hlr.
  destruct l as [|c0 l']; [done|].
  unfold mbind, result_bind. cbv beta iota. cbn [negb].
  set (l := c0 :: l') in *. assert (l ≠ []) as Hne by done. clearbody l.
  assert (filter (λ p, isfile s p = true) (map (λ h, _code_filepath d ++ [h]) l)
          = map (λ h, _code_filepath d ++ [h]) l) as ->.
  { apply filter_all. apply Forall_forall. intros p (c & -> & Hc)%list_elem_of_fmap.
    by apply Hl. }
  pose proof (head_sort_by_mtime_reverse (map (λ h, _code_filepath d ++ [h]) l)) as Hh.
  destruct (sort_by_mtime_reverse _ _) as [|p r]; simpl in Hh.
  { by apply fmap_nil_inv in Hh. }
  destruct Hh as [(h & -> & Hin)%list_elem_of_fmap Hmax].
  exists h. rewrite basename_snoc. split_and!; [done..|].
  intros c Hc. apply Hmax. apply list_elem_of_fmap. eauto.
Qed.

End LatestRefFacts.

Section Store.
Context `{PS : Pathspec} (d : FileCodeDriver).

(** X3: on an initialized store [latest_ref] returns [None] exactly when
    there is no Snapshot, and otherwise a Snapshot that exists and whose
    commit record has the greatest modification time. *)
Theorem latest_ref_spec (getmtime : path → Z) (s : fs) :
  is_initialized d s = true →
  ∃ l, list_refs d s = Ok l ∧
    (l = [] → latest_ref getmtime d s = Ok None) ∧
    (l ≠ [] →
     ∃ h, latest_ref getmtime d s = Ok (Some h) ∧ exists_ref d s h = Ok true ∧
       ∀ c, exists_ref d s c = Ok true →
         (getmtime (_code_filepath d ++ [c]) ≤ getmtime (_code_filepath d ++ [h]))%Z).
Proof.
  intros Hi. destruct (list_refs_Ok d s Hi) as (l & Hlr & Hl).
  exists l. split; [done|].
  pose proof (latest_ref_Ok getmtime d s l Hi Hlr Hl) as Hlat.
  split; [by intros ->|]. intros Hne. destruct l as [|c0 l']; [done|].
  destruct Hlat as (h & Hlat & Hin & Hmax). exists h.
  rewrite exists_ref_isfile by done. split_and!; [done|by rewrite (proj1 (Hl h))|].
  intros c. rewrite exists_ref_isfile by done. intros [= Hc]. by apply Hmax, Hl.
Qed.

Lemma clean_when_fingerprint_stored (s : fs) :
  is_initialized d s = true →
  isfile s (_code_filepath d ++ [dirhash (tracked_tree d s)]) = true →
  _has_unstaged_changes d s = Ok false.
Proof.
  intros Hi Hf. destruct (has_unstaged_changes_Ok d s Hi) as (l & _ & Hl & ->).
  f_equal. destruct (_get_tracked_files d s); [|by rewrite Hf].
  apply bool_decide_eq_false. intros ->. apply Hl in Hf.
  destruct (not_elem_of_nil _ Hf).
Qed.

Lemma dirty_when_no_snapshot (s : fs) :
  is_initialized d s = true →
  (∀ c, isfile s (_code_filepath d ++ [c]) = false) →
  list_refs d s = Ok [] ∧ _has_unstaged_changes d s = Ok true.
Proof.
  intros Hi Hnone. destruct (has_unstaged_changes_Ok d s Hi) as (l & Hlr & Hl & Hu).
  assert (l = []) as ->.
  { destruct l as [|c l]; [done|].
    assert (c ∈ c :: l) as Hc%Hl by (apply elem_of_cons; auto). by rewrite Hnone in Hc. }
  split; [done|]. rewrite Hu. f_equal.
  destruct (_get_tracked_files d s); [done|]. by rewrite Hnone.
Qed.

(** X4: right after [init] has created the code directory there is no
    Snapshot: [list_refs] is empty, [latest_ref] is [None], the tree
    counts as changed whatever it holds, and [check_unstaged_changes] and
    [current_hash] raise [UnstagedChanges]. *)
Theorem fresh_store_has_no_snapshot (getmtime : path → Z) (s s' : fs) :
  fs_wf s → isdir s (_code_filepath d) = false → init d s = (s', Ok true) →
  list_refs d s' = Ok [] ∧
  latest_ref getmtime d s' = Ok None ∧
  _has_unstaged_changes d s' = Ok true ∧
  check_unstaged_changes d s' = Raise UnstagedChanges ∧
  current_hash d s' = Raise UnstagedChanges.
Proof.
  intros Hwf Hnd (_ & Hi & Hf & _)%init_Ok.
  assert (∀ c, isfile s' (_code_filepath d ++ [c]) = false) as Hnone.
  { intros c. apply not_true_iff_false. intros (x & Hx%Hf)%isfile_true.
    rewrite (proj2 (isdir_true s _)) in Hnd; [done|].
    apply (wf_above_dir s _ [c]); [done..|]. by rewrite Hx. }
  destruct (dirty_when_no_snapshot s' Hi Hnone) as [Hlr Hu].
  assert (check_unstaged_changes d s' = Raise UnstagedChanges) as Hck.
  { unfold check_unstaged_changes. by rewrite Hi, Hu. }
  split_and!; try done.
  - pose proof (list_refs_Ok d s' Hi) as (l & Hlr' & Hl).
    rewrite Hlr in Hlr'. injection Hlr' as <-.
    apply (latest_ref_Ok getmtime d s' [] Hi Hlr Hl).
  - unfold current_hash. by rewrite Hck.
Qed.

(** X5: without the store layout every operation raises
    [CodeNotInitialized], also [_has_unstaged_changes] and [current_hash],
    which have no guard of their own; the operations that write leave the
    file system as it is. *)
Theorem uninitialized_store_raises (getmtime : path → Z) (s : fs)
    (c : string) (commit_id : option string) :
  is_initialized d s = false →
  list_refs d s = Raise CodeNotInitialized ∧
  exists_ref d s c = Raise CodeNotInitialized ∧
  latest_ref getmtime d s = Raise CodeNotInitialized ∧
  current_ref d s = Raise CodeNotInitialized ∧
  _has_unstaged_changes d s = Raise CodeNotInitialized ∧
  check_unstaged_changes d s = Raise CodeNotInitialized ∧
  current_hash d s = Raise CodeNotInitialized ∧
  create_ref d commit_id s = (s, Raise CodeNotInitialized) ∧
  delete_ref d c s = (s, Raise CodeNotInitialized) ∧
  checkout_ref d c s = (s, Raise CodeNotInitialized).
Proof.
  intros Hi.
  assert (list_refs d s = Raise CodeNotInitialized) as Hlr
    by (by apply list_refs_uninitialized).
  assert (check_unstaged_changes d s = Raise CodeNotInitialized) as Hck.
  { unfold check_unstaged_changes. by rewrite Hi. }
  split_and!.
  - done.
  - unfold exists_ref. by rewrite Hi.
  - unfold latest_ref. by rewrite Hi.
  - unfold current_ref. by rewrite Hi.
  - unfold _has_unstaged_changes. by rewrite Hlr.
  - done.
  - unfold current_hash. by rewrite Hck.
  - unfold create_ref. by rewrite Hi.
  - unfold delete_ref. by rewrite Hi.
  - unfold checkout_ref. by rewrite Hi.
Qed.

(** X6: [create_ref] given a commit id only validates it: it returns the
    id when its commit record is a regular file and raises
    [CommitDoesNotExist] otherwise, and the file system stays as it is; an
    empty id counts as no id, and a new Snapshot is committed. *)
Theorem create_ref_given_id (s : fs) (c : string) :
  is_initialized d s = true →
  (c ≠ EmptyString → isfile s (_code_filepath d ++ [c]) = true →
   create_ref d (Some c) s = (s, Ok c)) ∧
  (c ≠ EmptyString → isfile s (_code_filepath d ++ [c]) = false →
   create_ref d (Some c) s = (s, Raise CommitDoesNotExist)) ∧
  create_ref d (Some EmptyString) s = create_ref d None s.
Proof.
  intros Hi. split_and!; [| |done].
  - intros Hc Hf. destruct c as [|a r]; [done|].
    unfold create_ref. rewrite Hi. simpl. by rewrite exists_ref_isfile, Hf.
  - intros Hc Hf. destruct c as [|a r]; [done|].
    unfold create_ref. rewrite Hi. simpl. by rewrite exists_ref_isfile, Hf.
Qed.

(** X7: after a commit that returns a digest, the Snapshot of that digest
    exists, it is the fingerprint of the tree, the tree has no unstaged
    changes, and [current_hash] returns the digest. *)
Theorem commit_makes_tree_clean (s s1 : fs) (h : string) :
  create_ref d None s = (s1, Ok h) →
  exists_ref d s1 h = Ok true ∧
  current_ref d s1 = Ok h ∧
  _has_unstaged_changes d s1 = Ok false ∧
  check_unstaged_changes d s1 = Ok false ∧
  current_hash d s1 = Ok h.
Proof.
  intros (Hi & Hh & Hi1 & Hf1 & G)%create_ref_None_Ok.
  assert (dirhash (tracked_tree d s1) = h) as Hh1.
  { by rewrite (grows_dirhash _ _ _ _ G). }
  assert (_has_unstaged_changes d s1 = Ok false) as Hu.
  { apply clean_when_fingerprint_stored; [done|]. by rewrite Hh1. }
  assert (check_unstaged_changes d s1 = Ok false) as Hck.
  { unfold check_unstaged_changes. by rewrite Hi1, Hu. }
  split_and!; try done.
  - by rewrite exists_ref_isfile, Hf1.
  - by rewrite current_ref_Ok, Hh1.
  - unfold current_hash. rewrite Hck. simpl.
    by rewrite calculate_commit_hash_tracked, Hh1.
Qed.

(** X8: checking out the Snapshot whose digest is the current fingerprint
    returns [True] and leaves the file system as it is. *)
Theorem checkout_current_is_noop (s : fs) (c : string) :
  exists_ref d s c = Ok true → current_ref d s = Ok c →
  checkout_ref d c s = (s, Ok true).
Proof.
  intros He Hc. pose proof (exists_ref_Ok_initialized d _ _ _ He) as Hi.
  rewrite current_ref_Ok in Hc by done. injection Hc as Hc.
  pose proof He as He'. rewrite exists_ref_isfile in He' by done. injection He' as Hf.
  unfold checkout_ref. rewrite Hi, He. simpl.
  rewrite clean_when_fingerprint_stored; [|done|by rewrite Hc].
  rewrite calculate_commit_hash_tracked by done. by rewrite decide_True.
Qed.

End Store.

(** ** What the operations keep *)

Lemma app_ne_self (a b : path) : b ≠ [] → a ≠ a ++ b.
Proof.
  intros Hb Heq. apply Hb. apply (inj (a ++.)). by rewrite app_nil_r.
Qed.

Lemma NoDup_listdir (s : fs) (p : path) (l : list string) :
  listdir s p = Some l → NoDup l.
Proof.
  unfold listdir. destruct (isdir s p); [|done]. intros [= <-].
  apply NoDup_omap_inj; [|apply NoDup_fst_map_to_list].
  intros k1 k2 n _ _ E1 E2.
  destruct (strip_prefix p k1) as [[|n1 [|]]|] eqn:S1; try done.
  destruct (strip_prefix p k2) as [[|n2 [|]]|] eqn:S2; try done.
  apply strip_prefix_Some in S1, S2. by simplify_eq.
Qed.

Lemma path_le_total : Total path_le.
Proof. intros p q. unfold path_le. apply total, _. Qed.

Section Keeps.
Context `{PS : Pathspec} (d : FileCodeDriver).

(** X9: on an initialized store [list_refs] returns, without repetition,
    exactly the names of the regular files directly in the code directory;
    the blob directories beside them are not listed; [exists_ref] is
    membership in that list. *)
Theorem list_refs_spec (s : fs) :
  is_initialized d s = true →
  ∃ l, list_refs d s = Ok l ∧ NoDup l ∧
    (∀ c, c ∈ l ↔ isfile s (_code_filepath d ++ [c]) = true) ∧
    (∀ c, isdir s (_code_filepath d ++ [c]) = true → c ∉ l) ∧
    (∀ c, exists_ref d s c = Ok (bool_decide (c ∈ l))).
Proof.
  intros Hi. pose proof (list_refs_Ok d s Hi) as (l & Hlr & Hl).
  exists l. split_and!; try done.
  - revert Hlr. unfold list_refs. rewrite Hi. simpl.
    destruct (isdir s (_code_filepath d)); simpl; [|intros [= <-]; constructor].
    destruct (listdir s _) as [names|] eqn:Hn; [|done].
    intros [= <-]. by eapply NoDup_filter, NoDup_listdir.
  - intros c Hd Hc%Hl. apply isfile_isdir in Hc. by rewrite Hc in Hd.
  - intros c. unfold exists_ref. by rewrite Hi, Hlr.
Qed.

(** X10: [_get_tracked_files] returns a list without repetition, sorted as
    text, of root-relative paths of regular files, none of which has the
    prodat directory name or [.git] as a component or is matched by the
    ignore file; with no ignore file, every other regular file under the
    root is in the list. *)
Theorem tracked_files_spec (s : fs) :
  NoDup (_get_tracked_files d s) ∧
  Sorted path_le (_get_tracked_files d s) ∧
  (∀ p, p ∈ _get_tracked_files d s →
     p ≠ [] ∧ isfile s (root d ++ p) = true ∧
     (_prodat_directory_name d ∉ p) ∧ (".git" ∉ p) ∧
     (∀ content, s !! _prodat_ignore_filepath d = Some (File content) →
                 gitignore_match content p = false)) ∧
  (∀ p, p ≠ [] → isfile s (root d ++ p) = true →
     _prodat_directory_name d ∉ p → ".git" ∉ p →
     isfile s (_prodat_ignore_filepath d) = false →
     p ∈ _get_tracked_files d s).
Proof.
  split_and!.
  - apply NoDup_tracked.
  - unfold _get_tracked_files. apply (Sorted_merge_sort _ (Total0 := path_le_total)).
  - intros p (Hp & Hf & Hig)%elem_of_tracked. revert Hig.
    unfold ignored, name_match. rewrite !orb_false_iff, !bool_decide_eq_false.
    intros [[Hn Hg] Hm]. split_and!; try done.
    intros content Hc. by rewrite Hc in Hm.
  - intros p Hp Hf Hn Hg Hnf. apply elem_of_tracked. split_and!; try done.
    unfold ignored, name_match. rewrite !orb_false_iff, !bool_decide_eq_false.
    split_and!; try done. revert Hnf. unfold isfile.
    by destruct (s !! _prodat_ignore_filepath d) as [[]|].
Qed.


Lemma create_ref_effect (commit_id : option string) (s s' : fs) (r : result string) :
  create_ref d commit_id s = (s', r) →
  s' = s ∨
  (is_initialized d s = true ∧
   isfile s (_code_filepath d ++ [dirhash (tracked_tree d s)]) = false ∧
   record_commit d (dirhash (tracked_tree d s)) (_get_tracked_files d s) s = (s', r)).
Proof.
  unfold create_ref. destruct (is_initialized d s) eqn:Hi; simpl; [|intros [= <- _]; auto].
  assert (match _calculate_commit_hash d s (_get_tracked_files d s) with
          | Ok commit_hash =>
              match exists_ref d s commit_hash with
              | Ok true => (s, Ok commit_hash)
              | Ok false => record_commit d commit_hash (_get_tracked_files d s) s
              | Raise e => (s, Raise e)
              end
          | Raise e => (s, Raise e)
          end = (s', r) →
          s' = s ∨
          (true = true ∧
           isfile s (_code_filepath d ++ [dirhash (tracked_tree d s)]) = false ∧
           record_commit d (dirhash (tracked_tree d s)) (_get_tracked_files d s) s = (s', r)))
    as Hnew.
  { rewrite calculate_commit_hash_tracked, exists_ref_isfile by done.
    destruct (isfile s _) eqn:Hf; [intros [= <- _]; auto|]. auto. }
  destruct commit_id as [[|a c]|]; [done| |done].
  destruct (exists_ref d s (String a c)) as [[]|]; intros [= <- _]; auto.
Qed.

(** X12: whatever [create_ref] returns or raises, the store stays
    initialized, no directory and no regular file disappears, every
    regular file outside of the code directory keeps its bytes, every
    commit record that was there keeps its bytes, no Snapshot other than
    that of the current fingerprint appears, and the tracked tree and its
    fingerprint are the same. *)
Theorem commit_keeps_tree_and_snapshots (commit_id : option string) (s s' : fs)
    (r : result string) :
  create_ref d commit_id s = (s', r) →
  (is_initialized d s = true → is_initialized d s' = true) ∧
  (∀ q, s !! q = Some Dir → s' !! q = Some Dir) ∧
  (∀ q, isfile s q = true → isfile s' q = true) ∧
  (∀ q c, (∀ x, x ≠ [] → q ≠ _code_filepath d ++ x) →
     s' !! q = Some (File c) ↔ s !! q = Some (File c)) ∧
  (∀ c content, s !! (_code_filepath d ++ [c]) = Some (File content) →
     s' !! (_code_filepath d ++ [c]) = Some (File content)) ∧
  (∀ c, current_ref d s ≠ Ok c → exists_ref d s' c = exists_ref d s c) ∧
  tracked_tree d s' ≡ₚ tracked_tree d s ∧
  current_ref d s' = current_ref d s.
Proof.
  intros [->|(Hi & Hnf & Hr)]%create_ref_effect; [by split_and!|].
  set (h := dirhash (tracked_tree d s)) in *.
  pose proof (record_commit_grows d _ _ _ _ _ (tracked_nonempty d s) Hr) as G.
  pose proof G as (Gd & Gf & Gk).
  split_and!; try done.
  - intros _. by eapply grows_initialized.
  - intros q c Hq. apply Gk. intros (x & Hx & ->)%touched_under_code.
    apply (Hq x Hx). by rewrite code_filepath_eq, <-app_assoc.
  - intros c content Hc. apply Gk; [|done]. apply not_touched_other_commit.
    intros ->. unfold isfile in Hnf. by rewrite Hc in Hnf.
  - intros c. rewrite current_ref_Ok by done. intros Hc.
    rewrite !exists_ref_isfile; [|done|by eapply grows_initialized].
    f_equal. eapply grows_isfile; [done|]. apply not_touched_other_commit.
    intros Heq. apply Hc. by rewrite Heq.
  - by eapply grows_tracked_tree.
  - rewrite !current_ref_Ok; [|done|by eapply grows_initialized].
    f_equal. by eapply grows_dirhash.
Qed.

Lemma ignored_false_git (x : fs) (p : path) : ignored d x p = false → ".git" ∉ p.
Proof.
  unfold ignored, name_match. rewrite !orb_false_iff, !bool_decide_eq_false. tauto.
Qed.

Lemma tracked_agree (s s' : fs) :
  (∀ p, _prodat_directory_name d ∉ p → ".git" ∉ p →
        s' !! (root d ++ p) = s !! (root d ++ p)) →
  s' !! _prodat_ignore_filepath d = s !! _prodat_ignore_filepath d →
  _get_tracked_files d s' ≡ₚ _get_tracked_files d s ∧
  tracked_tree d s' ≡ₚ tracked_tree d s.
Proof.
  intros Hout Hig.
  assert (∀ p, ignored d s' p = ignored d s p) as Hign.
  { intros p. unfold ignored. by rewrite Hig. }
  assert (_get_tracked_files d s' ≡ₚ _get_tracked_files d s) as Hperm.
  { apply NoDup_Permutation; [apply NoDup_tracked..|]. intros p.
    rewrite !elem_of_tracked, Hign.
    split; intros (Hp & Hf & Hi); split_and!; try done;
      pose proof (ignored_false_name d _ _ Hi) as Hn;
      pose proof (ignored_false_git _ _ Hi) as Hg;
      unfold isfile in *; [by rewrite <-Hout|by rewrite Hout]. }
  split; [done|]. unfold tracked_tree, tree_of.
  rewrite (Permutation_map _ Hperm).
  erewrite map_ext_in; [done|]. intros p Hp%list_elem_of_In. simpl. f_equal.
  unfold content_at. apply elem_of_tracked in Hp as (_ & _ & Hi).
  rewrite Hout; [done|by eapply ignored_false_name|by eapply ignored_false_git].
Qed.

(** X13: the tracked tree and its fingerprint depend on nothing under the
    prodat directory or under a [.git] directory: two initialized file
    systems that agree on every other path under the root, and on the
    ignore file, have the same tracked tree and the same fingerprint. *)
Theorem fingerprint_ignores_store_and_git (s s' : fs) :
  is_initialized d s = true → is_initialized d s' = true →
  (∀ p, _prodat_directory_name d ∉ p → ".git" ∉ p →
        s' !! (root d ++ p) = s !! (root d ++ p)) →
  s' !! _prodat_ignore_filepath d = s !! _prodat_ignore_filepath d →
  tracked_tree d s' ≡ₚ tracked_tree d s ∧
  current_ref d s' = current_ref d s.
Proof.
  intros Hi Hi' Hout Hig. destruct (tracked_agree s s' Hout Hig) as [_ Htree].
  split; [done|]. rewrite !current_ref_Ok by done. f_equal.
  apply dirhash_Permutation. by rewrite Htree.
Qed.

(** X14: after [delete_ref] has returned, the Snapshot is gone and every
    other one is as before; deleting it again or checking it out raises
    [FileIOError]; the tracked tree and its fingerprint are untouched, so
    a non-empty tree that was at this Snapshot now has unstaged changes. *)
Theorem delete_ref_forgets (s s' : fs) (c : string) :
  delete_ref d c s = (s', Ok true) →
  is_initialized d s' = true ∧
  exists_ref d s' c = Ok false ∧
  (∀ c', c' ≠ c → exists_ref d s' c' = exists_ref d s c') ∧
  delete_ref d c s' = (s', Raise FileIOError) ∧
  checkout_ref d c s' = (s', Raise FileIOError) ∧
  tracked_tree d s' ≡ₚ tracked_tree d s ∧
  current_ref d s' = current_ref d s ∧
  (current_ref d s = Ok c → _get_tracked_files d s ≠ [] →
   _has_unstaged_changes d s' = Ok true).
Proof.
  unfold delete_ref at 1.
  destruct (is_initialized d s) eqn:Hi; [simpl|done].
  destruct (exists_ref d s c) as [[]|]; try done.
  destruct (isfile s (_code_filepath d ++ [c])) eqn:Hf; [|done].
  intros [= <-]. set (cf := _code_filepath d ++ [c]).
  assert (is_initialized d (delete cf s) = true) as Hi'.
  { revert Hi. unfold is_initialized, isdir. rewrite !lookup_delete_ne; [done|..].
    - apply not_eq_sym, app_ne_self. done.
    - unfold cf, _code_filepath. rewrite <-app_assoc.
      apply not_eq_sym, app_ne_self. done. }
  assert (exists_ref d (delete cf s) c = Ok false) as He'.
  { rewrite exists_ref_isfile by done. unfold isfile. fold cf.
    by rewrite lookup_delete_eq. }
  assert ((∀ p, _prodat_directory_name d ∉ p →
             delete cf s !! (root d ++ p) = s !! (root d ++ p)) ∧
          delete cf s !! _prodat_ignore_filepath d = s !! _prodat_ignore_filepath d)
    as [Hout Hig].
  { destruct (commit_record_under_prodat d c) as (x & Hx & Hcf). fold cf in Hcf.
    split.
    - intros p Hp. rewrite lookup_delete_ne; [done|].
      rewrite Hcf. intros Heq%(inj (root d ++.)). by subst.
    - rewrite lookup_delete_ne; [done|]. unfold cf. rewrite code_filepath_eq.
      unfold _prodat_ignore_filepath. rewrite <-app_assoc.
      intros Heq%(inj (root d ++.)). done. }
  destruct (tracked_agree s (delete cf s) (λ p Hn _, Hout p Hn) Hig) as [Hperm Htree].
  assert (dirhash (tracked_tree d (delete cf s)) = dirhash (tracked_tree d s)) as Hh.
  { apply dirhash_Permutation. by rewrite Htree. }
  split_and!; try done.
  - intros c' Hne. rewrite !exists_ref_isfile by done. f_equal. unfold isfile.
    rewrite lookup_delete_ne; [done|]. unfold cf.
    intros Heq%(inj (_code_filepath d ++.)). congruence.
  - unfold delete_ref. by rewrite Hi', He'.
  - unfold checkout_ref. by rewrite Hi', He'.
  - rewrite !current_ref_Ok by done. by rewrite Hh.
  - rewrite current_ref_Ok by done. intros [= Hc] Hne.
    destruct (has_unstaged_changes_Ok d _ Hi') as (l & _ & _ & ->). f_equal.
    destruct (_get_tracked_files d (delete cf s)) as [|p tr] eqn:Htr.
    + by apply Permutation_nil_l in Hperm.
    + rewrite Hh, Hc. fold cf. unfold isfile. by rewrite lookup_delete_eq.
Qed.

End Keeps.

(** ** Stored blobs are never written again *)

Section Blobs.
Context `{PS : Pathspec} (d : FileCodeDriver).

Lemma record_file_keeps (cf p : path) (s s' : fs) (r : result unit) (q : path) (c0 : string) :
  record_file d cf p s = (s', r) → q ≠ cf →
  s !! q = Some (File c0) →
  s' !! q = Some (File c0) ∨
  ∃ fh, q = ((_code_filepath d ++ p) ++ [fh]) ++ [basename (root d ++ p)].
Proof.
  intros Hr Hq Hs. revert Hr. unfold record_file.
  destruct (isfile s (root d ++ p)); simpl; [|intros [= <- _]; auto].
  destruct (makedirs s _) as [s1|] eqn:Hm; [|intros [= <- _]; auto].
  assert (s1 !! q = Some (File c0)) as H1 by (by apply (makedirs_file _ _ _ _ _ Hm)).
  destruct (_get_filehash s1 _) as [fh|e]; [|intros [= <- _]; auto].
  assert (∀ x data, x !! q = Some (File c0) → write x cf data !! q = Some (File c0)) as Hw.
  { intros x data Hx. unfold write. destruct (x !! cf) as [[c|]|]; try done.
    by rewrite lookup_insert_ne. }
  destruct (isfile s1 (_ ++ [fh])) eqn:Hb.
  - intros [= <- _]. left. by apply Hw.
  - destruct (copy2 s1 _ _) as [s2|] eqn:Hc; [|intros [= <- _]; auto].
    intros [= <- _]. apply copy2_Some in Hc as (c & Hsrc & Htd & ->). cbv zeta in Htd.
    destruct (isdir s1 ((_code_filepath d ++ p) ++ [fh])).
    + destruct (decide (q = ((_code_filepath d ++ p) ++ [fh]) ++ [basename (root d ++ p)]))
        as [->|Hne]; [right; eauto|].
      left. apply Hw. by rewrite lookup_insert_ne.
    + destruct (decide (q = (_code_filepath d ++ p) ++ [fh])) as [->|Hne].
      * unfold isfile in Hb. by rewrite H1 in Hb.
      * left. apply Hw. by rewrite lookup_insert_ne.
Qed.

Lemma record_files_keeps (cf : path) (tr : list path) (s s' : fs) (r : result unit)
    (q : path) (c0 : string) :
  record_files d cf tr s = (s', r) → q ≠ cf →
  s !! q = Some (File c0) →
  s' !! q = Some (File c0) ∨
  ∃ p fh, p ∈ tr ∧ q = ((_code_filepath d ++ p) ++ [fh]) ++ [basename (root d ++ p)].
Proof.
  intros Hr Hq. revert s Hr. induction tr as [|p tr IH]; intros s; simpl.
  { intros [= <- _]. auto. }
  destruct (record_file d cf p s) as [s1 [[]|e]] eqn:Hp.
  - intros Hr Hs.
    destruct (record_file_keeps _ _ _ _ _ _ _ Hp Hq Hs) as [H1|[fh ->]].
    + destruct (IH _ Hr H1) as [?|(p' & fh & Hin & ->)]; [auto|].
      right. exists p', fh. split; [by apply elem_of_cons; right|done].
    + right. exists p, fh. split; [by apply elem_of_cons; left|done].
  - intros [= <- _] Hs.
    destruct (record_file_keeps _ _ _ _ _ _ _ Hp Hq Hs) as [H1|[fh ->]]; [auto|].
    right. exists p, fh. split; [by apply elem_of_cons; left|done].
Qed.

(** X15: on a well-formed file system, a blob that is already stored for a
    tracked file under the digest of its bytes is left as it is by a
    commit, whatever the commit returns and whatever the blob holds. *)
Theorem commit_never_overwrites_blob (commit_id : option string) (s s' : fs)
    (r : result string) (p : path) (c0 : string) :
  fs_wf s → create_ref d commit_id s = (s', r) →
  p ∈ _get_tracked_files d s →
  s !! blob_path d p (content_at s (root d ++ p)) = Some (File c0) →
  s' !! blob_path d p (content_at s (root d ++ p)) = Some (File c0).
Proof.
  intros Hwf [->|(Hi & Hnf & Hr)]%create_ref_effect Hp Hb; [done|].
  set (B := blob_path d p (content_at s (root d ++ p))) in *.
  set (h := dirhash (tracked_tree d s)) in *.
  assert (p ≠ []) as Hne by (by apply elem_of_tracked in Hp as (? & _)).
  assert (B ≠ _code_filepath d ++ [h]) as Hcf by (by apply blob_path_not_record).
  revert Hr. unfold record_commit.
  destruct (makedirs s _) as [sa|] eqn:Hm; [|by intros [= <- _]].
  assert (sa !! B = Some (File c0)) as Ha by (by apply (makedirs_file _ _ _ _ _ Hm)).
  destruct (open_append sa _) as [sb|] eqn:Ho; [|by intros [= <- _]].
  assert (sb !! B = Some (File c0)) as Hsb.
  { apply open_append_Some in Ho as [(_ & _ & ->)|(_ & ->)]; [done|].
    by rewrite lookup_insert_ne. }
  destruct (record_files d _ _ sb) as [sc r'] eqn:Hrf.
  intros Hr. assert (s' = sc) as ->.
  { by destruct r' as [[]|]; injection Hr. }
  destruct (record_files_keeps _ _ _ _ _ _ _ Hrf Hcf Hsb) as [?|(p0 & fh & Hp0 & Heq)];
    [done|exfalso].
  unfold B, blob_path in Heq. rewrite <-!app_assoc in Heq.
  apply (inj (_code_filepath d ++.)) in Heq.
  rewrite app_assoc in Heq. apply app_inj_tail in Heq as [Heq _].
  assert (p0 = p) as ->.
  { apply (tracked_prefix_free d s); [done..|]. by exists [fh]. }
  by apply app_ne_self in Heq.
Qed.

End Blobs.

(** ** What can be raised *)

Section Raised.
Context `{PS : Pathspec} (d : FileCodeDriver).

Lemma record_file_exn (cf p : path) (s s' : fs) (e : exn) :
  record_file d cf p s = (s', Raise e) → e = FileIOError.
Proof.
  unfold record_file.
  destruct (isfile s (root d ++ p)) eqn:Hf; simpl; [|by intros [= _ <-]].
  destruct (makedirs s _) as [s1|] eqn:Hm; [|by intros [= _ <-]].
  unfold _get_filehash. rewrite <-(makedirs_isfile _ _ _ (root d ++ p) Hm) in Hf.
  apply isfile_true in Hf as [c ->].
  destruct (if isfile s1 _ then _ else _); [done|by intros [= _ <-]].
Qed.

Lemma record_files_exn (cf : path) (tr : list path) (s s' : fs) (e : exn) :
  record_files d cf tr s = (s', Raise e) → e = FileIOError.
Proof.
  revert s. induction tr as [|p tr IH]; intros s; simpl; [done|].
  destruct (record_file d cf p s) as [s1 [[]|e1]] eqn:Hp; [by apply IH|].
  intros [= _ <-]. by eapply record_file_exn.
Qed.

(** X16: on a well-formed file system with the store initialized, the
    read-only operations do not raise; [check_unstaged_changes] and
    [current_hash] raise nothing but [UnstagedChanges]; a commit raises
    nothing but [FileIOError]; [create_ref] given an id nothing but
    [CommitDoesNotExist]; [delete_ref] nothing but [FileIOError], and only
    for a Snapshot that does not exist; [checkout_ref] nothing but
    [FileIOError], [UnstagedChanges] and [OSError]. *)
Theorem raised_exceptions (getmtime : path → Z) (s : fs) (c : string) (e : exn) :
  fs_wf s → is_initialized d s = true →
  (∃ l, list_refs d s = Ok l) ∧
  (∃ b, exists_ref d s c = Ok b) ∧
  (∃ o, latest_ref getmtime d s = Ok o) ∧
  (∃ h, current_ref d s = Ok h) ∧
  (∃ b, _has_unstaged_changes d s = Ok b) ∧
  (check_unstaged_changes d s = Raise e → e = UnstagedChanges) ∧
  (current_hash d s = Raise e → e = UnstagedChanges) ∧
  ((create_ref d None s).2 = Raise e → e = FileIOError) ∧
  (c ≠ EmptyString → (create_ref d (Some c) s).2 = Raise e → e = CommitDoesNotExist) ∧
  ((delete_ref d c s).2 = Raise e → e = FileIOError ∧ exists_ref d s c = Ok false) ∧
  ((checkout_ref d c s).2 = Raise e →
   e = FileIOError ∨ e = UnstagedChanges ∨ e = OSError).
Proof.
  intros Hwf Hi.
  destruct (has_unstaged_changes_Ok d s Hi) as (l & Hlr & Hl & Hu).
  assert (check_unstaged_changes d s = Raise e → e = UnstagedChanges) as Hck.
  { unfold check_unstaged_changes. rewrite Hi, Hu. simpl.
    by destruct (match _get_tracked_files d s with [] => _ | _ => _ end); intros [= <-]. }
  split_and!; eauto.
  - rewrite exists_ref_isfile by done. eauto.
  - pose proof (latest_ref_Ok getmtime d s l Hi Hlr Hl) as Hlat.
    destruct l; [eauto|]. destruct Hlat as (h & ? & _). eauto.
  - rewrite current_ref_Ok by done. eauto.
  - unfold current_hash.
    destruct (check_unstaged_changes d s) as [b|e'] eqn:Hc; simpl.
    + by rewrite calculate_commit_hash_tracked.
    + intros [= <-]. by apply Hck.
  - unfold create_ref. rewrite Hi. simpl.
    rewrite calculate_commit_hash_tracked, exists_ref_isfile by done.
    destruct (isfile s _); [done|]. unfold record_commit.
    destruct (makedirs_is_Some s (_code_filepath d)) as [sa ->].
    { intros q [r Hq]. apply not_true_iff_false. intros (x & Hx)%isfile_true.
      assert (isdir s (_code_filepath d) = true) as Hd%isdir_true.
      { unfold is_initialized in Hi. by apply andb_true_iff in Hi as [_ ?]. }
      destruct r as [|n r]; [rewrite Hq, app_nil_r in Hd; congruence|].
      rewrite (wf_above_dir s q (n :: r)) in Hx; [done..|]. by rewrite <-Hq, Hd. }
    destruct (open_append sa _) as [sb|]; [|by intros [= <-]].
    destruct (record_files d _ _ sb) as [sc [[]|e']] eqn:Hrf; [done|].
    simpl. intros [= <-]. by eapply record_files_exn.
  - intros Hc. destruct c as [|a c']; [done|].
    unfold create_ref. rewrite Hi. simpl. rewrite exists_ref_isfile by done.
    destruct (isfile s (_code_filepath d ++ [String a c'])); simpl;
      [done|by intros [= <-]].
  - unfold delete_ref. rewrite Hi. simpl. rewrite exists_ref_isfile by done.
    destruct (isfile s (_code_filepath d ++ [c])); simpl; [done|]. by intros [= <-].
  - unfold checkout_ref. rewrite Hi. simpl. rewrite exists_ref_isfile by done.
    destruct (isfile s (_code_filepath d ++ [c])); [|intros [= <-]; auto].
    rewrite Hu. destruct (match _get_tracked_files d s with [] => _ | _ => _ end);
      [intros [= <-]; auto|].
    rewrite calculate_commit_hash_tracked by done. case_decide; [done|].
    destruct (remove_tracked d _ s !! _) as [[content|]|]; [|intros [= <-]; auto..].
    destruct (restore_lines d _ _) as [s' [b|e']] eqn:Hr; [done|].
    simpl. intros [= <-]. apply restore_lines_exn in Hr as [->| ->]; auto.
Qed.

End Raised.

(** ** The commit record, read back *)

Lemma line_body_parse (e : path * string) :
  plain_path e.1 = true →
  rstrip (line_body e) = line_body e ∧ nonempty (line_body e) = true ∧
  split_comma (line_body e) = Some (string_of_path e.1, MD5.hexdigest e.2).
Proof.
  intros Hp. unfold line_body. split_and!.
  - apply rstrip_app; [done|].
    apply (rstrip_app (String "," EmptyString)); [apply hexdigest_nonempty|].
    apply rstrip_nospace, hexdigest_nospace.
  - by destruct (string_of_path e.1).
  - apply split_comma_app.
    eapply string_forall_impl; [apply text_char_nocomma|]. by apply plain_path_text.
Qed.

Section ReadBack.
Context `{PS : Pathspec} (d : FileCodeDriver).

(** X17: the commit record written by a commit that creates a Snapshot,
    split the way [checkout_ref] splits it, gives back the tracked paths in
    order, each with the MD5 digest of its bytes, provided the names hold
    no comma, separator or line terminator; and joining such a path to the
    root or to the code directory gives the path it was written from. *)
Theorem fresh_commit_record_reads_back (s s' : fs) (h : string) :
  fs_wf s → exists_ref d s h = Ok false → create_ref d None s = (s', Ok h) →
  Forall (λ p, plain_path p = true) (_get_tracked_files d s) →
  ∃ content, s' !! (_code_filepath d ++ [h]) = Some (File content) ∧
    map (λ line, split_comma (rstrip line))
        (filter (λ line, nonempty (rstrip line) = true) (file_lines content))
    = map (λ p, Some (string_of_path p, MD5.hexdigest (content_at s (root d ++ p))))
          (_get_tracked_files d s) ∧
    ∀ p, p ∈ _get_tracked_files d s →
      path_join (root d) (string_of_path p) = root d ++ p ∧
      path_join (_code_filepath d) (string_of_path p) = _code_filepath d ++ p.
Proof.
  intros Hwf He Hc Hplain.
  pose proof (exists_ref_Ok_initialized d _ _ _ He) as Hi.
  pose proof (create_ref_None_Ok d _ _ _ Hc) as (_ & Hh & _).
  assert (record_commit d h (_get_tracked_files d s) s = (s', Ok h)) as Hr.
  { revert Hc. unfold create_ref. rewrite Hi. simpl.
    rewrite calculate_commit_hash_tracked by done. by rewrite <-Hh, He. }
  rewrite exists_ref_isfile in He by done. injection He as Hnf.
  destruct (record_commit_records d h h _ _ _ Hwf (tracked_plain d s) Hnf Hr) as [Hrec _].
  eexists. split; [exact Hrec|]. split.
  - assert (Forall (λ e : path * string, plain_path e.1 = true)
              (tree_of d s (_get_tracked_files d s))) as Ht.
    { unfold tree_of. by rewrite Forall_fmap. }
    rewrite file_lines_manifest by done.
    rewrite filter_app.
    assert (filter (λ line, nonempty (rstrip line) = true) [EmptyString] = []) as ->.
    { rewrite filter_cons_False; [done|]. simpl. done. }
    rewrite app_nil_r. rewrite filter_all.
    + unfold tree_of. rewrite !map_map. apply map_ext_in.
      intros p Hp%list_elem_of_In. rewrite Forall_forall in Hplain.
      destruct (line_body_parse (p, content_at s (root d ++ p))) as (-> & _ & ->);
        [by apply Hplain|done].
    + apply Forall_forall. intros line (e & -> & Hin)%list_elem_of_fmap.
      rewrite Forall_forall in Ht.
      by destruct (line_body_parse e (Ht e Hin)) as (-> & -> & _).
  - intros p Hp. rewrite Forall_forall in Hplain.
    by rewrite !path_join_render by by apply Hplain.
Qed.

End ReadBack.

(** ** What a checkout removes *)

Section Removes.
Context `{PS : Pathspec} (d : FileCodeDriver).

Lemma remove_tracked_gone (l : list path) (s : fs) (p : path) :
  p ∈ l → isfile (remove_tracked d l s) (root d ++ p) = false.
Proof.
  revert s. induction l as [|x l IH]; intros s Hp; [destruct (not_elem_of_nil _ Hp)|].
  simpl. apply elem_of_cons in Hp as [->|Hp]; [|by apply IH].
  apply not_true_iff_false. intros (c & Hc)%isfile_true.
  apply remove_tracked_sub in Hc.
  destruct (isfile s (root d ++ x)) eqn:Hf.
  - by rewrite lookup_delete_eq in Hc.
  - unfold isfile in Hf. by rewrite Hc in Hf.
Qed.

Lemma remove_tracked_dir (l : list path) (s : fs) (q : path) :
  s !! q = Some Dir → remove_tracked d l s !! q = Some Dir.
Proof.
  revert s. induction l as [|x l IH]; intros s Hq; [done|]. simpl. apply IH.
  destruct (isfile s (root d ++ x)) eqn:Hf; [|done].
  rewrite lookup_delete_ne; [done|]. intros <-. unfold isfile in Hf. by rewrite Hq in Hf.
Qed.

Lemma restore_entry_dir (p : path) (fh : string) (s s' : fs) (r : result unit) (q : path) :
  restore_entry d p fh s = (s', r) → s !! q = Some Dir → s' !! q = Some Dir.
Proof.
  unfold restore_entry. destruct (isfile s _); simpl; [|by intros [= <- _]].
  destruct (makedirs s _) as [s1|] eqn:Hm; [|by intros [= <- _]].
  intros Hr Hq. apply (makedirs_dir _ _ _ _ Hm) in Hq.
  destruct (copy2 s1 _ _) as [s2|] eqn:Hc; [|by injection Hr as <- _].
  injection Hr as <- _.
  by apply (fs_grows_copy2 (λ _, True)) in Hc as (Gd & _); [apply Gd|..].
Qed.

Lemma restore_entries_dir (t : list (path * string)) (s s' : fs) (r : result bool) (q : path) :
  restore_entries d t s = (s', r) → s !! q = Some Dir → s' !! q = Some Dir.
Proof.
  revert s. induction t as [|e t IH]; intros s; simpl; [by intros [= <- _]|].
  destruct (restore_entry d e.1 _ s) as [s1 [[]|err]] eqn:He.
  - intros Hr Hq. apply (IH _ Hr). by eapply restore_entry_dir.
  - intros [= <- _] Hq. by eapply restore_entry_dir.
Qed.

Lemma checkout_restore_frame (s0 s1 s2 s3 : fs) (h : string) :
  fs_wf s0 →
  create_ref d None s0 = (s1, Ok h) →
  exists_ref d s0 h = Ok false →
  let T := tracked_tree d s0 in
  Forall (λ e, plain_path e.1 = true) T →
  (∀ e c', e ∈ T → s0 !! blob_path d e.1 e.2 = Some (File c') → c' = e.2) →
  s2 !! (_code_filepath d ++ [h]) = s1 !! (_code_filepath d ++ [h]) →
  (∀ e, e ∈ T → s2 !! blob_path d e.1 e.2 = s1 !! blob_path d e.1 e.2) →
  (∀ e, e ∈ T → isdir s2 (root d ++ e.1) = false) →
  current_ref d s2 ≠ Ok h →
  checkout_ref d h s2 = (s3, Ok true) →
  (is_initialized d s2 = true ∧
   s2 !! (_code_filepath d ++ [h]) = Some (File (manifest_text T)) ∧
   ∀ q, s2 !! q = Some Dir → s3 !! q = Some Dir) ∧
  (∀ e, e ∈ T → s3 !! (root d ++ e.1) = Some (File e.2)) ∧
  (∀ q c, (∀ e, e ∈ T → q ≠ root d ++ e.1) →
     s3 !! q = Some (File c) ↔
     remove_tracked d (_get_tracked_files d s2) s2 !! q = Some (File c)).
Proof.
  intros Hwf Hc He T Hplain Hold Hrec2 Hblob2 Hdir2 Hcur Hco.
  pose proof (exists_ref_Ok_initialized d _ _ _ He) as Hi0.
  pose proof (create_ref_None_Ok d _ _ _ Hc) as (_ & Hh & _).
  assert (record_commit d h (_get_tracked_files d s0) s0 = (s1, Ok h)) as Hr.
  { revert Hc. unfold create_ref. rewrite Hi0. simpl.
    rewrite calculate_commit_hash_tracked by done. by rewrite <-Hh, He. }
  rewrite exists_ref_isfile in He by done. injection He as Hnf.
  destruct (record_commit_records d h h _ _ _ Hwf (tracked_plain d s0) Hnf Hr)
    as [Hrec Hblobs].
  fold (tracked_tree d s0) in Hrec. fold T in Hrec.
  revert Hco. unfold checkout_ref.
  destruct (is_initialized d s2) eqn:Hi2; [simpl|done].
  destruct (exists_ref d s2 h) as [[]|]; try done.
  destruct (_has_unstaged_changes d s2) as [[]|]; try done.
  rewrite calculate_commit_hash_tracked by done.
  case_decide as Hdec.
  { exfalso. apply Hcur. rewrite current_ref_Ok by done. by rewrite Hdec. }
  set (s2' := remove_tracked d (_get_tracked_files d s2) s2).
  assert (∀ x, _prodat_directory_name d ∈ x →
               s2' !! (root d ++ x) = s2 !! (root d ++ x)) as Hstore.
  { intros x Hx. apply remove_tracked_other. intros p Hp.
    by apply (under_prodat_not_tracked d s2). }
  destruct (commit_record_under_prodat d h) as (xr & Hxr & Hcf).
  rewrite Hcf, Hstore, <-Hcf, Hrec2, Hrec by done.
  rewrite restore_lines_manifest by done. intros Hre. split.
  { split_and!; [done..|].
    intros q Hq. apply (restore_entries_dir _ _ _ _ _ Hre).
    by apply remove_tracked_dir. }
  apply (restore_entries_spec d T s2' s3); try done.
  - unfold T, tracked_tree. rewrite tree_of_fst. apply NoDup_tracked.
  - apply Forall_forall. intros e [He _]%elem_of_tracked_tree.
    pose proof (tracked_plain d s0) as Hpl. rewrite Forall_forall in Hpl.
    by apply Hpl.
  - intros e1 e2 [H1 _]%elem_of_tracked_tree [H2 _]%elem_of_tracked_tree.
    by apply (tracked_prefix_free d s0).
  - intros e c' He Hb.
    destruct (blob_path_under_prodat d e.1 e.2) as (xb & Hxb & Hbp).
    rewrite Hbp, Hstore, <-Hbp, Hblob2 in Hb by done.
    pose proof He as [Hp He2]%elem_of_tracked_tree.
    rewrite He2 in Hb. destruct (Hblobs e.1 c' Hp Hb) as [->|Hb0]; [done|].
    rewrite <-He2 in Hb0. by apply (Hold e c').
  - intros e He. apply not_true_iff_false. intros Hd%isdir_true.
    apply remove_tracked_sub in Hd. apply isdir_true in Hd.
    by rewrite Hdir2 in Hd.
Qed.

(** X18: under the conditions of C3, a checkout that succeeds removes every
    file that was tracked before it and is not a path of the Snapshot,
    and leaves every regular file of the store as it is. *)
Theorem checkout_removes_unlisted (s0 s1 s2 s3 : fs) (h : string) :
  fs_wf s0 →
  create_ref d None s0 = (s1, Ok h) →
  exists_ref d s0 h = Ok false →
  let T := tracked_tree d s0 in
  Forall (λ e, plain_path e.1 = true) T →
  (∀ e c', e ∈ T → s0 !! blob_path d e.1 e.2 = Some (File c') → c' = e.2) →
  s2 !! (_code_filepath d ++ [h]) = s1 !! (_code_filepath d ++ [h]) →
  (∀ e, e ∈ T → s2 !! blob_path d e.1 e.2 = s1 !! blob_path d e.1 e.2) →
  (∀ e, e ∈ T → isdir s2 (root d ++ e.1) = false) →
  current_ref d s2 ≠ Ok h →
  checkout_ref d h s2 = (s3, Ok true) →
  (∀ p, p ∈ _get_tracked_files d s2 → p ∉ _get_tracked_files d s0 →
        isfile s3 (root d ++ p) = false) ∧
  (∀ x c, _prodat_directory_name d ∈ x →
     s3 !! (root d ++ x) = Some (File c) ↔ s2 !! (root d ++ x) = Some (File c)).
Proof.
  intros Hwf Hc He T Hplain Hold Hrec2 Hblob2 Hdir2 Hcur Hco.
  destruct (checkout_restore_frame s0 s1 s2 s3 h) as (_ & _ & Hframe); try done.
  split.
  - intros p Hp Hnew. apply not_true_iff_false. intros (c & Hc3)%isfile_true.
    apply Hframe in Hc3.
    + pose proof (remove_tracked_gone (_get_tracked_files d s2) s2 p Hp) as Hg.
      unfold isfile in Hg. by rewrite Hc3 in Hg.
    + intros e [He1 _]%elem_of_tracked_tree Heq%(inj (root d ++.)). by subst.
  - intros x c Hx. rewrite Hframe.
    + rewrite remove_tracked_other; [done|]. intros p Hp.
      by apply (under_prodat_not_tracked d s2).
    + intros e [He1 _]%elem_of_tracked_tree. by apply (under_prodat_not_tracked d s0).
Qed.

End Removes.

(** ** Digests of files *)

(** X19: [_get_filehash] raises [PathDoesNotExist] exactly when the path is
    no regular file; otherwise it returns the MD5 digest of the bytes, 32
    hexadecimal digits that make a valid file name, and the same digest
    for the same bytes at any path of any file system. *)
Theorem get_filehash_spec (s : fs) (p : path) :
  match _get_filehash s p with
  | Ok h =>
      ∃ c, s !! p = Some (File c) ∧ h = MD5.hexdigest c ∧
           String.length h = 32 ∧ string_forall hex_char h = true ∧
           plain_name h = true ∧
           ∀ s' p', s' !! p' = Some (File c) → _get_filehash s' p' = Ok h
  | Raise e => e = PathDoesNotExist ∧ isfile s p = false
  end.
Proof.
  unfold _get_filehash, isfile. destruct (s !! p) as [[c|]|]; [|done..].
  exists c. split_and!; try done.
  - apply length_hexdigest.
  - apply hex_hex.
  - apply hexdigest_plain.
  - by intros s' p' ->.
Qed.

Section AfterCheckout.
Context `{PS : Pathspec} (d : FileCodeDriver).

Lemma remove_tracked_None (l : list path) (s : fs) (p : path) :
  p ∈ l → isfile s (root d ++ p) = true → remove_tracked d l s !! (root d ++ p) = None.
Proof.
  intros Hp Hf. pose proof (remove_tracked_gone d l s p Hp) as Hg.
  destruct (remove_tracked d l s !! (root d ++ p)) as [v|] eqn:Hv; [|done].
  pose proof (remove_tracked_sub d _ _ _ _ Hv) as Hs.
  apply isfile_true in Hf as [c Hc]. rewrite Hc in Hs. injection Hs as <-.
  unfold isfile in Hg. by rewrite Hv in Hg.
Qed.

(** X20: a checkout is not atomic: past the guards, when the first line of
    the commit record is no entry or names a blob that is not stored,
    [checkout_ref] raises [FileIOError] after it has removed every tracked
    file, and nothing else has changed. *)
Theorem failed_checkout_loses_tree (s : fs) (c content line : string) (rest : list string) :
  exists_ref d s c = Ok true →
  _has_unstaged_changes d s = Ok false →
  current_ref d s ≠ Ok c →
  s !! (_code_filepath d ++ [c]) = Some (File content) →
  file_lines content = line :: rest →
  nonempty (rstrip line) = true →
  (split_comma (rstrip line) = None ∨
   ∃ tracked_filepath filehash,
     split_comma (rstrip line) = Some (tracked_filepath, filehash) ∧
     isfile s (path_join (path_join (_code_filepath d) tracked_filepath) filehash) = false) →
  ∃ s', checkout_ref d c s = (s', Raise FileIOError) ∧
    (∀ p, p ∈ _get_tracked_files d s → s' !! (root d ++ p) = None) ∧
    (∀ q, (∀ p, p ∈ _get_tracked_files d s → q ≠ root d ++ p) → s' !! q = s !! q).
Proof.
  intros He Hu Hcur Hrec Hlines Hne Hbad.
  pose proof (exists_ref_Ok_initialized d _ _ _ He) as Hi.
  exists (remove_tracked d (_get_tracked_files d s) s). split_and!.
  - unfold checkout_ref. rewrite Hi, He, Hu. simpl.
    rewrite calculate_commit_hash_tracked by done.
    rewrite decide_False.
    2:{ intros Heq. apply Hcur. rewrite current_ref_Ok by done. by rewrite Heq. }
    destruct (commit_record_under_prodat d c) as (x & Hx & Hcf).
    rewrite Hcf, remove_tracked_other, <-Hcf, Hrec, Hlines.
    2:{ intros p Hp. by apply (under_prodat_not_tracked d s). }
    simpl. unfold restore_line. rewrite Hne. simpl.
    destruct Hbad as [->|(tp & fh & -> & Hnf)]; [done|].
    assert (isfile (remove_tracked d (_get_tracked_files d s) s)
              (path_join (path_join (_code_filepath d) tp) fh) = false) as ->; [|done].
    apply not_true_iff_false. intros (v & Hv)%isfile_true.
    apply remove_tracked_sub in Hv. unfold isfile in Hnf. by rewrite Hv in Hnf.
  - intros p Hp. apply remove_tracked_None; [done|].
    by apply elem_of_tracked in Hp as (_ & ? & _).
  - intros q Hq. by apply remove_tracked_other.
Qed.

(** X21: under the conditions of C3 and with no ignore file, after a
    checkout that succeeds the tracked tree is the tree of the Snapshot,
    its fingerprint is the digest checked out, the tree has no unstaged
    changes, and checking out the same digest again changes nothing. *)
Theorem checkout_restores_fingerprint (s0 s1 s2 s3 : fs) (h : string) :
  fs_wf s0 →
  create_ref d None s0 = (s1, Ok h) →
  exists_ref d s0 h = Ok false →
  let T := tracked_tree d s0 in
  Forall (λ e, plain_path e.1 = true) T →
  (∀ e c', e ∈ T → s0 !! blob_path d e.1 e.2 = Some (File c') → c' = e.2) →
  s2 !! (_code_filepath d ++ [h]) = s1 !! (_code_filepath d ++ [h]) →
  (∀ e, e ∈ T → s2 !! blob_path d e.1 e.2 = s1 !! blob_path d e.1 e.2) →
  (∀ e, e ∈ T → isdir s2 (root d ++ e.1) = false) →
  current_ref d s2 ≠ Ok h →
  checkout_ref d h s2 = (s3, Ok true) →
  isfile s0 (_prodat_ignore_filepath d) = false →
  isfile s2 (_prodat_ignore_filepath d) = false →
  tracked_tree d s3 ≡ₚ T ∧
  current_ref d s3 = Ok h ∧
  exists_ref d s3 h = Ok true ∧
  _has_unstaged_changes d s3 = Ok false ∧
  checkout_ref d h s3 = (s3, Ok true).
Proof.
  intros Hwf Hc He T Hplain Hold Hrec2 Hblob2 Hdir2 Hcur Hco Hig0 Hig2.
  destruct (checkout_restore_frame d s0 s1 s2 s3 h)
    as ((Hi2 & Hcf2 & Hdirs) & Hfiles & Hframe); try done.
  pose proof (create_ref_None_Ok d _ _ _ Hc) as (_ & Hh & _).
  set (s2' := remove_tracked d (_get_tracked_files d s2) s2) in *.
  assert (is_initialized d s3 = true) as Hi3.
  { revert Hi2. unfold is_initialized. rewrite !andb_true_iff, !isdir_true.
    intros [??]. split; by apply Hdirs. }
  assert (∀ (x : fs) p, isfile x (_prodat_ignore_filepath d) = false →
            ignored d x p = name_match (_prodat_directory_name d) p || name_match ".git" p)
    as Hign.
  { intros x p Hx. unfold ignored. unfold isfile in Hx.
    destruct (x !! _prodat_ignore_filepath d) as [[]|]; try done; apply orb_false_r. }
  assert (∀ p, p ∈ T.*1 ↔ p ∈ _get_tracked_files d s0) as HT1.
  { intros p. unfold T, tracked_tree. by rewrite tree_of_fst. }
  assert (isfile s3 (_prodat_ignore_filepath d) = false) as Hig3.
  { apply not_true_iff_false. intros (c & Hc3)%isfile_true.
    apply Hframe in Hc3.
    - apply remove_tracked_sub in Hc3. unfold isfile in Hig2. by rewrite Hc3 in Hig2.
    - intros e [He1 _]%elem_of_tracked_tree Heq%(inj (root d ++.)).
      rewrite <-Heq in He1. apply elem_of_tracked in He1 as (_ & Hf & _).
      unfold _prodat_ignore_filepath in Hig0. by rewrite Hf in Hig0. }
  assert (tracked_tree d s3 ≡ₚ T) as Htree.
  { apply NoDup_Permutation; [apply NoDup_tracked_tree..|]. intros e.
    unfold T at 1. rewrite !elem_of_tracked_tree. split.
    - intros [Hp3 He2]. pose proof Hp3 as (Hne & Hf3 & Hg3)%elem_of_tracked.
      rewrite Hign in Hg3 by done.
      destruct (decide (e.1 ∈ _get_tracked_files d s0)) as [Hin|Hnin].
      + split; [done|].
        assert ((e.1, content_at s0 (root d ++ e.1)) ∈ T) as HeT.
        { apply elem_of_tracked_tree. by split. }
        apply Hfiles in HeT. simpl in HeT. rewrite He2. unfold content_at at 1.
        by rewrite HeT.
      + exfalso. apply isfile_true in Hf3 as [c Hc3]. apply Hframe in Hc3.
        * pose proof (remove_tracked_sub d _ _ _ _ Hc3) as Hc2.
          assert (e.1 ∈ _get_tracked_files d s2) as Hin2.
          { apply elem_of_tracked. split_and!; [done|apply isfile_true; eauto|].
            by rewrite Hign. }
          pose proof (remove_tracked_gone d _ s2 _ Hin2) as Hg. fold s2' in Hg.
          unfold isfile in Hg. by rewrite Hc3 in Hg.
        * intros e' [He1 _]%elem_of_tracked_tree Heq%(inj (root d ++.)).
          apply Hnin. by rewrite Heq.
    - intros [Hp0 He2].
      assert (e ∈ T) as HeT by (by apply elem_of_tracked_tree).
      pose proof (Hfiles e HeT) as Hf3.
      pose proof Hp0 as (Hne & _ & Hg0)%elem_of_tracked. rewrite Hign in Hg0 by done.
      split.
      + apply elem_of_tracked. split_and!; [done|apply isfile_true; eauto|].
        by rewrite Hign.
      + unfold content_at at 1. by rewrite Hf3. }
  assert (dirhash (tracked_tree d s3) = h) as Hh3.
  { rewrite Hh. apply dirhash_Permutation. by rewrite Htree. }
  assert (isfile s3 (_code_filepath d ++ [h]) = true) as Hf3.
  { apply isfile_true. eexists. apply Hframe.
    - intros e [He1 _]%elem_of_tracked_tree.
      destruct (commit_record_under_prodat d h) as (x & Hx & ->).
      by apply (under_prodat_not_tracked d s0).
    - unfold s2'. rewrite remove_tracked_other; [exact Hcf2|].
      intros p Hp. destruct (commit_record_under_prodat d h) as (x & Hx & ->).
      by apply (under_prodat_not_tracked d s2). }
  assert (exists_ref d s3 h = Ok true) as He3.
  { by rewrite exists_ref_isfile, Hf3. }
  assert (current_ref d s3 = Ok h) as Hc3.
  { by rewrite current_ref_Ok, Hh3. }
  split_and!; try done.
  - apply clean_when_fingerprint_stored; [done|]. by rewrite Hh3.
  - unfold checkout_ref. rewrite Hi3, He3. simpl.
    rewrite clean_when_fingerprint_stored; [|done|by rewrite Hh3].
    rewrite calculate_commit_hash_tracked by done. by rewrite decide_True.
Qed.

End AfterCheckout.

(** ** A commit stores every blob *)

Lemma write_Dir (s : fs) (cf : path) (data : string) (q : path) :
  write s cf data !! q = Some Dir → s !! q = Some Dir.
Proof.
  unfold write. destruct (s !! cf) as [[c|]|] eqn:Hc; try done.
  destruct (decide (q = cf)) as [->|Hne]; [by rewrite lookup_insert_eq|].
  by rewrite lookup_insert_ne.
Qed.

Lemma prefix_app_self (a b : path) : b ≠ [] → ¬ (a ++ b) `prefix_of` a.
Proof.
  intros Hb [r Hr]. rewrite <-app_assoc in Hr.
  apply (app_ne_self a (b ++ r)); [|done]. by destruct b.
Qed.

Section StoresBlobs.
Context `{PS : Pathspec} (d : FileCodeDriver).

Lemma record_file_dirs (cf p : path) (s s' : fs) (r : result unit) (q : path) :
  record_file d cf p s = (s', r) → s' !! q = Some Dir →
  s !! q = Some Dir ∨ q `prefix_of` _code_filepath d ++ p.
Proof.
  unfold record_file.
  destruct (isfile s (root d ++ p)); simpl; [|intros [= <- _]; auto].
  destruct (makedirs s _) as [s1|] eqn:Hm; [|intros [= <- _]; auto].
  assert (s1 !! q = Some Dir → s !! q = Some Dir ∨ q `prefix_of` _code_filepath d ++ p)
    as H1.
  { intros Hq. destruct (decide (q `prefix_of` _code_filepath d ++ p)) as [?|Hn]; [auto|].
    left. apply makedirs_Some in Hm as (_ & _ & Hout). by rewrite <-Hout. }
  destruct (_get_filehash s1 _) as [fh|e]; [|intros [= <- _]; auto].
  destruct (isfile s1 (_ ++ [fh])).
  - intros [= <- _] Hq%write_Dir. auto.
  - destruct (copy2 s1 _ _) as [s2|] eqn:Hc; [|intros [= <- _]; auto].
    intros [= <- _] Hq%write_Dir. apply H1.
    apply copy2_Some in Hc as (c & _ & _ & ->). revert Hq.
    match goal with |- <[?t := _]> _ !! _ = _ → _ =>
      destruct (decide (q = t)) as [->|Hne] end.
    + by rewrite lookup_insert_eq.
    + by rewrite lookup_insert_ne.
Qed.

Lemma record_file_Ok_blob (cf p : path) (s s' : fs) :
  record_file d cf p s = (s', Ok ()) →
  isdir s (blob_path d p (content_at s (root d ++ p))) = false →
  isfile s' (blob_path d p (content_at s (root d ++ p))) = true.
Proof.
  unfold record_file, blob_path.
  destruct (isfile s (root d ++ p)) eqn:Hf; simpl; [|done].
  destruct (makedirs s _) as [s1|] eqn:Hm; [|done].
  unfold _get_filehash, content_at. apply isfile_true in Hf as [c Hc]. rewrite Hc.
  rewrite (proj2 (makedirs_file _ _ _ (root d ++ p) c Hm) Hc).
  rewrite app_assoc. set (blob := (_code_filepath d ++ p) ++ [MD5.hexdigest c]).
  intros Hr Hd.
  assert (isdir s1 blob = false) as Hd1.
  { unfold isdir. apply makedirs_Some in Hm as (_ & _ & Hout). rewrite Hout; [done|].
    by apply prefix_app_self. }
  assert (∀ x, isfile x blob = true →
               isfile (write x cf (string_of_path p +:+ "," +:+ MD5.hexdigest c +:+ newline))
                      blob = true) as Hw.
  { intros x Hx. by apply (fs_grows_write (λ _, True) x cf). }
  destruct (isfile s1 blob) eqn:Hb.
  - injection Hr as <-. by apply Hw.
  - destruct (copy2 s1 _ _) as [s2|] eqn:Hcp; [|done]. injection Hr as <-.
    apply Hw. apply copy2_Some in Hcp as (c' & _ & _ & ->). cbv zeta.
    fold blob. rewrite Hd1. unfold isfile. by rewrite lookup_insert_eq.
Qed.

Lemma record_files_Ok_blobs (h : string) (tr : list path) (s s' : fs) :
  Forall (λ p, p ≠ [] ∧ _prodat_directory_name d ∉ p) tr →
  (∀ p q, p ∈ tr → q ∈ tr → p `prefix_of` q → p = q) →
  record_files d (_code_filepath d ++ [h]) tr s = (s', Ok ()) →
  ∀ p, p ∈ tr →
    isdir s (blob_path d p (content_at s (root d ++ p))) = false →
    isfile s' (blob_path d p (content_at s (root d ++ p))) = true.
Proof.
  intros Htr. revert s. induction Htr as [|x tr [Hx Hxn] Htr IH]; intros s Hpf Hr p Hp.
  { destruct (not_elem_of_nil _ Hp). }
  simpl in Hr.
  destruct (record_file d _ x s) as [s1 [[]|e]] eqn:Hs1; [|done].
  pose proof (record_file_grows d _ _ _ _ _ Hx Hs1) as G1.
  assert (Forall (λ p, p ≠ []) tr) as Hne.
  { eapply Forall_impl; [exact Htr|]. by intros ? [? _]. }
  pose proof (record_files_grows d _ _ _ _ _ Hne Hr) as (_ & GF & _).
  destruct (decide (p = x)) as [->|Hpx].
  { intros Hd. apply GF. by apply (record_file_Ok_blob _ _ _ _ Hs1). }
  apply elem_of_cons in Hp as [?|Hp]; [done|].
  assert (_prodat_directory_name d ∉ p) as Hpn.
  { rewrite Forall_forall in Htr. by apply Htr. }
  assert (content_at s1 (root d ++ p) = content_at s (root d ++ p)) as Hc.
  { eapply grows_content_at; [done|]. by apply not_touched_tracked. }
  intros Hd. rewrite <-Hc. apply IH; try done.
  - intros a b Ha Hb. apply Hpf; by apply elem_of_cons; right.
  - rewrite Hc. apply not_true_iff_false. intros Hd1%isdir_true.
    apply (record_file_dirs _ _ _ _ _ _ Hs1) in Hd1 as [Hd0|Hpre].
    + apply isdir_true in Hd0. by rewrite Hd0 in Hd.
    + unfold blob_path in Hpre. apply prefix_app_inv in Hpre.
      assert (p `prefix_of` x) as Hpx'.
      { etrans; [|exact Hpre]. by exists [MD5.hexdigest (content_at s (root d ++ p))]. }
      apply Hpx. apply Hpf; [by apply elem_of_cons; right|by apply elem_of_cons; left|done].
Qed.

(** X22: on a well-formed file system, after a commit that creates a
    Snapshot every tracked file has a regular file at its blob path,
    unless a directory was in the way; it holds the bytes of the tracked
    file, or what was stored there before. *)
Theorem commit_stores_every_blob (s s' : fs) (h : string) :
  fs_wf s → exists_ref d s h = Ok false → create_ref d None s = (s', Ok h) →
  ∀ p, p ∈ _get_tracked_files d s →
    let c := content_at s (root d ++ p) in
    isdir s (blob_path d p c) = false →
    ∃ c', s' !! blob_path d p c = Some (File c') ∧
          (c' = c ∨ s !! blob_path d p c = Some (File c')).
Proof.
  intros Hwf He Hc p Hp c Hd.
  pose proof (exists_ref_Ok_initialized d _ _ _ He) as Hi.
  pose proof (create_ref_None_Ok d _ _ _ Hc) as (_ & Hh & _).
  assert (record_commit d h (_get_tracked_files d s) s = (s', Ok h)) as Hr.
  { revert Hc. unfold create_ref. rewrite Hi. simpl.
    rewrite calculate_commit_hash_tracked by done. by rewrite <-Hh, He. }
  rewrite exists_ref_isfile in He by done. injection He as Hnf.
  destruct (record_commit_records d h h _ _ _ Hwf (tracked_plain d s) Hnf Hr) as [_ Hblobs].
  assert (isfile s' (blob_path d p c) = true) as (c' & Hc')%isfile_true.
  { revert Hr. unfold record_commit.
    destruct (makedirs s _) as [sa|] eqn:Hm; [|done].
    destruct (open_append sa _) as [sb|] eqn:Ho; [|done].
    destruct (record_files d _ _ sb) as [sc [[]|e]] eqn:Hrf; [|done].
    intros [= ->].
    assert (p ≠ [] ∧ _prodat_directory_name d ∉ p) as [Hne Hpn].
    { pose proof (tracked_plain d s) as Hpl. rewrite Forall_forall in Hpl. by apply Hpl. }
    assert (∀ q, q ≠ _code_filepath d ++ [h] → ¬ q `prefix_of` _code_filepath d →
                 sb !! q = s !! q) as Hsame.
    { intros q Hq1 Hq2. apply makedirs_Some in Hm as (_ & _ & Hout).
      rewrite <-Hout by done.
      apply open_append_Some in Ho as [(_ & _ & ->)|(_ & ->)]; [done|].
      by rewrite lookup_insert_ne. }
    assert (content_at sb (root d ++ p) = c) as Hcb.
    { unfold c, content_at. rewrite Hsame; [done|..].
      - destruct (commit_record_under_prodat d h) as (x & Hx & ->).
        intros Heq%(inj (root d ++.)). by subst.
      - rewrite code_filepath_eq. intros [r Hr].
        rewrite <-app_assoc in Hr. apply (inj (root d ++.)) in Hr.
        destruct p as [|a p']; [done|]. injection Hr as Ha _.
        apply Hpn. rewrite <-Ha. apply elem_of_cons. auto. }
    rewrite <-Hcb.
    apply (record_files_Ok_blobs h (_get_tracked_files d s) sb s');
      [apply tracked_plain|intros a b; by apply tracked_prefix_free|done..|].
    rewrite Hcb. unfold isdir. rewrite Hsame; [done|..].
    - by apply blob_path_not_record.
    - unfold blob_path. apply prefix_app_self. by destruct p. }
  exists c'. split; [done|]. by apply (Hblobs p c' Hp).
Qed.

End StoresBlobs.

(** ** Lines of a commit record *)

Lemma rstrip_spaces (ws : string) : string_forall is_space ws = true → rstrip ws = EmptyString.
Proof.
  induction ws as [|a r IH]; simpl; [done|].
  intros [Ha Hr]%andb_true_iff. by rewrite IH, Ha.
Qed.

Lemma rstrip_app_spaces (l ws : string) :
  string_forall is_space ws = true → rstrip (l +:+ ws) = rstrip l.
Proof.
  intros Hws. induction l as [|a l IH].
  - rewrite string_app_nil_l. by apply rstrip_spaces.
  - rewrite string_app_cons. cbn [rstrip]. by rewrite IH.
Qed.



Section Lines.
Context `{PS : Pathspec} (d : FileCodeDriver).

(** X23: [checkout_ref] strips a line of a commit record on the right
    before it reads it: white space after an entry changes nothing, and a
    line of white space is skipped. *)
Theorem record_lines_tolerate_whitespace (line ws : string) (s : fs) :
  string_forall is_space ws = true →
  restore_line d (line +:+ ws) s = restore_line d line s ∧
  restore_line d ws s = (s, Ok ()).
Proof.
  intros Hws. unfold restore_line.
  rewrite rstrip_app_spaces, (rstrip_spaces ws) by done. by split.
Qed.


End Lines.

Lemma record_lines_tolerate_whitespace_witness :
  let d := Scenario.drv in
  let s := Scenario.committed_ab in
  let line := "a.txt,9dd4e461268c8034f5c8564e155c67a6" in
  let ws := String " " (String "009" EmptyString) in
  string_forall is_space ws = true ∧
  restore_line d (line +:+ ws) s = restore_line d line s ∧
  restore_line d ws s = (s, Ok ()).
Proof.
  intros d s line ws.
  assert (string_forall is_space ws = true) as Hws by (vm_compute; reflexivity).
  split; [exact Hws|]. exact (record_lines_tolerate_whitespace d line ws s Hws).
Defined.


(** ** The further properties on the concrete projects *)

Lemma init_establishes_layout_witness :
  let d := Scenario.drv in
  let s := Scenario.bare_project in
  let s' := Scenario.empty_project in
  init d s = (s', Ok true) ∧
  true = true ∧ is_initialized d s' = true ∧
  (∀ q c, s' !! q = Some (File c) ↔ s !! q = Some (File c)) ∧
  (∀ q, s !! q = Some Dir → s' !! q = Some Dir) ∧
  (∀ q, ¬ q `prefix_of` _code_filepath d → s' !! q = s !! q) ∧
  init d s' = (s', Ok true).
Proof.
  intros d s s'.
  assert (init d s = (s', Ok true)) as Hi by (apply run_result; vm_compute; reflexivity).
  split; [exact Hi|]. exact (init_establishes_layout d s s' true Hi).
Defined.

Lemma init_after_construction_witness :
  let s := Scenario.bare_project in
  let d := Scenario.drv in
  fs_wf s ∧ __init__ s ["home"; "proj"] ".prodat" = Ok d ∧
  root d = ["home"; "proj"] ∧ _prodat_directory_name d = ".prodat" ∧
  if isfile s ["home"; "proj"] || isfile s (_prodat_directory_path d)
     || isfile s (_code_filepath d)
  then init d s = (s, Raise OSError)
  else ∃ s', init d s = (s', Ok true) ∧ is_initialized d s' = true.
Proof.
  intros s d.
  assert (fs_wf s) as Hwf by (apply fs_wf_check_sound; vm_compute; reflexivity).
  assert (__init__ s ["home"; "proj"] ".prodat" = Ok d) as Hc by (vm_compute; reflexivity).
  split; [exact Hwf|]. split; [exact Hc|].
  exact (init_after_construction s ["home"; "proj"] ".prodat" d Hwf Hc).
Defined.

Lemma fresh_store_has_no_snapshot_witness :
  let d := Scenario.drv in
  let s := Scenario.bare_project in
  let s' := Scenario.empty_project in
  fs_wf s ∧ isdir s (_code_filepath d) = false ∧ init d s = (s', Ok true) ∧
  list_refs d s' = Ok [] ∧
  latest_ref Scenario.mtimes d s' = Ok None ∧
  _has_unstaged_changes (PS := Scenario.plain_names) d s' = Ok true ∧
  check_unstaged_changes (PS := Scenario.plain_names) d s' = Raise UnstagedChanges ∧
  current_hash (PS := Scenario.plain_names) d s' = Raise UnstagedChanges.
Proof.
  intros d s s'.
  assert (fs_wf s) as Hwf by (apply fs_wf_check_sound; vm_compute; reflexivity).
  assert (isdir s (_code_filepath d) = false) as Hd by (vm_compute; reflexivity).
  assert (init d s = (s', Ok true)) as Hi by (apply run_result; vm_compute; reflexivity).
  split; [exact Hwf|]. split; [exact Hd|]. split; [exact Hi|].
  exact (fresh_store_has_no_snapshot (PS := Scenario.plain_names) d Scenario.mtimes
           s s' Hwf Hd Hi).
Defined.

Lemma uninitialized_store_raises_witness :
  let d := Scenario.drv in
  let s := Scenario.bare_project in
  let c := Scenario.D1 in
  is_initialized d s = false ∧
  list_refs d s = Raise CodeNotInitialized ∧
  exists_ref d s c = Raise CodeNotInitialized ∧
  latest_ref Scenario.mtimes d s = Raise CodeNotInitialized ∧
  current_ref (PS := Scenario.plain_names) d s = Raise CodeNotInitialized ∧
  _has_unstaged_changes (PS := Scenario.plain_names) d s = Raise CodeNotInitialized ∧
  check_unstaged_changes (PS := Scenario.plain_names) d s = Raise CodeNotInitialized ∧
  current_hash (PS := Scenario.plain_names) d s = Raise CodeNotInitialized ∧
  create_ref (PS := Scenario.plain_names) d None s = (s, Raise CodeNotInitialized) ∧
  delete_ref d c s = (s, Raise CodeNotInitialized) ∧
  checkout_ref (PS := Scenario.plain_names) d c s = (s, Raise CodeNotInitialized).
Proof.
  intros d s c.
  assert (is_initialized d s = false) as Hi by (vm_compute; reflexivity).
  split; [exact Hi|].
  exact (uninitialized_store_raises (PS := Scenario.plain_names) d Scenario.mtimes
           s c None Hi).
Defined.

Lemma create_ref_given_id_witness :
  let d := Scenario.drv in
  let s := Scenario.committed_ab in
  let c := Scenario.D1 in
  is_initialized d s = true ∧
  (c ≠ EmptyString → isfile s (_code_filepath d ++ [c]) = true →
   create_ref (PS := Scenario.plain_names) d (Some c) s = (s, Ok c)) ∧
  (c ≠ EmptyString → isfile s (_code_filepath d ++ [c]) = false →
   create_ref (PS := Scenario.plain_names) d (Some c) s = (s, Raise CommitDoesNotExist)) ∧
  create_ref (PS := Scenario.plain_names) d (Some EmptyString) s
    = create_ref (PS := Scenario.plain_names) d None s.
Proof.
  intros d s c.
  assert (is_initialized d s = true) as Hi by (vm_compute; reflexivity).
  split; [exact Hi|].
  exact (create_ref_given_id (PS := Scenario.plain_names) d s c Hi).
Defined.

Lemma commit_makes_tree_clean_witness :
  let d := Scenario.drv in
  let s := Scenario.project_ab in
  let s1 := Scenario.committed_ab in
  let h := Scenario.D1 in
  create_ref (PS := Scenario.plain_names) d None s = (s1, Ok h) ∧
  exists_ref d s1 h = Ok true ∧
  current_ref (PS := Scenario.plain_names) d s1 = Ok h ∧
  _has_unstaged_changes (PS := Scenario.plain_names) d s1 = Ok false ∧
  check_unstaged_changes (PS := Scenario.plain_names) d s1 = Ok false ∧
  current_hash (PS := Scenario.plain_names) d s1 = Ok h.
Proof.
  intros d s s1 h.
  assert (create_ref (PS := Scenario.plain_names) d None s = (s1, Ok h)) as Hc
    by (apply run_result; vm_compute; reflexivity).
  split; [exact Hc|].
  exact (commit_makes_tree_clean (PS := Scenario.plain_names) d s s1 h Hc).
Defined.

Lemma checkout_current_is_noop_witness :
  let d := Scenario.drv in
  let s := Scenario.committed_ab in
  let c := Scenario.D1 in
  exists_ref d s c = Ok true ∧
  current_ref (PS := Scenario.plain_names) d s = Ok c ∧
  checkout_ref (PS := Scenario.plain_names) d c s = (s, Ok true).
Proof.
  intros d s c.
  assert (exists_ref d s c = Ok true) as He by (vm_compute; reflexivity).
  assert (current_ref (PS := Scenario.plain_names) d s = Ok c) as Hc
    by (vm_compute; reflexivity).
  split; [exact He|]. split; [exact Hc|].
  exact (checkout_current_is_noop (PS := Scenario.plain_names) d s c He Hc).
Defined.

Lemma commit_keeps_tree_and_snapshots_witness :
  let d := Scenario.drv in
  let s := Scenario.edited_ab in
  let s' := Scenario.run (create_ref (PS := Scenario.plain_names) d None) s in
  let r := Ok "88834b7a66f24327f29317fdeee31685" in
  create_ref (PS := Scenario.plain_names) d None s = (s', r) ∧
  (is_initialized d s = true → is_initialized d s' = true) ∧
  (∀ q, s !! q = Some Dir → s' !! q = Some Dir) ∧
  (∀ q, isfile s q = true → isfile s' q = true) ∧
  (∀ q c, (∀ x, x ≠ [] → q ≠ _code_filepath d ++ x) →
     s' !! q = Some (File c) ↔ s !! q = Some (File c)) ∧
  (∀ c content, s !! (_code_filepath d ++ [c]) = Some (File content) →
     s' !! (_code_filepath d ++ [c]) = Some (File content)) ∧
  (∀ c, current_ref (PS := Scenario.plain_names) d s ≠ Ok c →
     exists_ref d s' c = exists_ref d s c) ∧
  tracked_tree (PS := Scenario.plain_names) d s'
    ≡ₚ tracked_tree (PS := Scenario.plain_names) d s ∧
  current_ref (PS := Scenario.plain_names) d s'
    = current_ref (PS := Scenario.plain_names) d s.
Proof.
  intros d s s' r.
  assert (create_ref (PS := Scenario.plain_names) d None s = (s', r)) as Hc
    by (apply run_result; vm_compute; reflexivity).
  split; [exact Hc|].
  exact (commit_keeps_tree_and_snapshots (PS := Scenario.plain_names) d None s s' r Hc).
Defined.

Lemma delete_ref_forgets_witness :
  let d := Scenario.drv in
  let s := Scenario.committed_ab in
  let c := Scenario.D1 in
  let s' := Scenario.run (delete_ref d c) s in
  delete_ref d c s = (s', Ok true) ∧
  is_initialized d s' = true ∧
  exists_ref d s' c = Ok false ∧
  (∀ c', c' ≠ c → exists_ref d s' c' = exists_ref d s c') ∧
  delete_ref d c s' = (s', Raise FileIOError) ∧
  checkout_ref (PS := Scenario.plain_names) d c s' = (s', Raise FileIOError) ∧
  tracked_tree (PS := Scenario.plain_names) d s'
    ≡ₚ tracked_tree (PS := Scenario.plain_names) d s ∧
  current_ref (PS := Scenario.plain_names) d s'
    = current_ref (PS := Scenario.plain_names) d s ∧
  (current_ref (PS := Scenario.plain_names) d s = Ok c →
   _get_tracked_files (PS := Scenario.plain_names) d s ≠ [] →
   _has_unstaged_changes (PS := Scenario.plain_names) d s' = Ok true).
Proof.
  intros d s c s'.
  assert (delete_ref d c s = (s', Ok true)) as Hd
    by (apply run_result; vm_compute; reflexivity).
  split; [exact Hd|].
  exact (delete_ref_forgets (PS := Scenario.plain_names) d s s' c Hd).
Defined.

Lemma list_refs_spec_witness :
  let d := Scenario.drv in
  let s := Scenario.committed_ab in
  is_initialized d s = true ∧
  ∃ l, list_refs d s = Ok l ∧ NoDup l ∧
    (∀ c, c ∈ l ↔ isfile s (_code_filepath d ++ [c]) = true) ∧
    (∀ c, isdir s (_code_filepath d ++ [c]) = true → c ∉ l) ∧
    (∀ c, exists_ref d s c = Ok (bool_decide (c ∈ l))).
Proof.
  intros d s.
  assert (is_initialized d s = true) as Hi by (vm_compute; reflexivity).
  split; [exact Hi|]. exact (list_refs_spec d s Hi).
Defined.

Lemma fresh_commit_record_reads_back_witness :
  let d := Scenario.drv in
  let s := Scenario.project_ab in
  let s' := Scenario.committed_ab in
  let h := Scenario.D1 in
  let tracked := _get_tracked_files (PS := Scenario.plain_names) d s in
  fs_wf s ∧ exists_ref d s h = Ok false ∧
  create_ref (PS := Scenario.plain_names) d None s = (s', Ok h) ∧
  Forall (λ p, plain_path p = true) tracked ∧
  ∃ content, s' !! (_code_filepath d ++ [h]) = Some (File content) ∧
    map (λ line, split_comma (rstrip line))
        (filter (λ line, nonempty (rstrip line) = true) (file_lines content))
    = map (λ p, Some (string_of_path p, MD5.hexdigest (content_at s (root d ++ p))))
          tracked ∧
    ∀ p, p ∈ tracked →
      path_join (root d) (string_of_path p) = root d ++ p ∧
      path_join (_code_filepath d) (string_of_path p) = _code_filepath d ++ p.
Proof.
  intros d s s' h tracked.
  assert (fs_wf s) as Hwf by (apply fs_wf_check_sound; vm_compute; reflexivity).
  assert (exists_ref d s h = Ok false) as He by (vm_compute; reflexivity).
  assert (create_ref (PS := Scenario.plain_names) d None s = (s', Ok h)) as Hc
    by (apply run_result; vm_compute; reflexivity).
  assert (tracked = [["a.txt"]; ["b.txt"]]) as Ht by (vm_compute; reflexivity).
  assert (Forall (λ p, plain_path p = true) tracked) as Hp.
  { rewrite Ht. repeat constructor. }
  split; [exact Hwf|]. split; [exact He|]. split; [exact Hc|]. split; [exact Hp|].
  exact (fresh_commit_record_reads_back (PS := Scenario.plain_names) d s s' h Hwf He Hc Hp).
Defined.


Lemma checkout_removes_unlisted_witness :
  let d := Scenario.drv in
  let s0 := Scenario.project_ab in
  let s2 := Scenario.committed_abc in
  let s3 := Scenario.restored_abc in
  let tracked := _get_tracked_files (PS := Scenario.plain_names) d in
  tracked s0 = [["a.txt"]; ["b.txt"]] ∧
  tracked s2 = [["a.txt"]; ["b.txt"]; ["c.txt"]] ∧
  create_ref (PS := Scenario.plain_names) d None s0 = (Scenario.committed_ab, Ok Scenario.D1) ∧
  checkout_ref (PS := Scenario.plain_names) d Scenario.D1 s2 = (s3, Ok true) ∧
  (∀ p, p ∈ tracked s2 → p ∉ tracked s0 → isfile s3 (root d ++ p) = false) ∧
  (∀ x c, _prodat_directory_name d ∈ x →
     s3 !! (root d ++ x) = Some (File c) ↔ s2 !! (root d ++ x) = Some (File c)).
Proof.
  intros d s0 s2 s3 tracked.
  assert (tracked_tree (PS := Scenario.plain_names) d s0
          = [(["a.txt"], "x"); (["b.txt"], "y")]) as HT by (vm_compute; reflexivity).
  assert (create_ref (PS := Scenario.plain_names) d None s0
          = (Scenario.committed_ab, Ok Scenario.D1)) as Hc
    by (apply run_result; vm_compute; reflexivity).
  assert (checkout_ref (PS := Scenario.plain_names) d Scenario.D1 s2 = (s3, Ok true)) as Hco
    by (apply run_result; vm_compute; reflexivity).
  split; [vm_compute; reflexivity|]. split; [vm_compute; reflexivity|].
  split; [exact Hc|]. split; [exact Hco|].
  apply (checkout_removes_unlisted (PS := Scenario.plain_names) d
           s0 Scenario.committed_ab s2 s3 Scenario.D1).
  - apply fs_wf_check_sound. vm_compute; reflexivity.
  - exact Hc.
  - vm_compute; reflexivity.
  - rewrite HT. repeat constructor.
  - rewrite HT. intros e c' He.
    apply elem_of_cons in He as [->|He]; [vm_compute; discriminate|].
    apply elem_of_cons in He as [->|He]; [vm_compute; discriminate|].
    destruct (not_elem_of_nil _ He).
  - vm_compute; reflexivity.
  - rewrite HT. intros e He.
    apply elem_of_cons in He as [->|He]; [vm_compute; reflexivity|].
    apply elem_of_cons in He as [->|He]; [vm_compute; reflexivity|].
    destruct (not_elem_of_nil _ He).
  - rewrite HT. intros e He.
    apply elem_of_cons in He as [->|He]; [vm_compute; reflexivity|].
    apply elem_of_cons in He as [->|He]; [vm_compute; reflexivity|].
    destruct (not_elem_of_nil _ He).
  - vm_compute. discriminate.
  - exact Hco.
Defined.

Lemma latest_ref_spec_witness :
  let d := Scenario.drv in
  let s := Scenario.recommitted_ab in
  let getmtime := Scenario.mtimes in
  is_initialized d s = true ∧
  ∃ l, list_refs d s = Ok l ∧
    (l = [] → latest_ref getmtime d s = Ok None) ∧
    (l ≠ [] →
     ∃ h, latest_ref getmtime d s = Ok (Some h) ∧ exists_ref d s h = Ok true ∧
       ∀ c, exists_ref d s c = Ok true →
         (getmtime (_code_filepath d ++ [c]) ≤ getmtime (_code_filepath d ++ [h]))%Z).
Proof.
  intros d s getmtime.
  assert (is_initialized d s = true) as Hi by (vm_compute; reflexivity).
  split; [exact Hi|].
  exact (latest_ref_spec d getmtime s Hi).
Defined.

Lemma commit_never_overwrites_blob_witness :
  let d := Scenario.drv in
  let s := Scenario.edited_ab in
  let s' := Scenario.run (create_ref (PS := Scenario.plain_names) d None) s in
  let r := Ok "88834b7a66f24327f29317fdeee31685" in
  let p := ["b.txt"] in
  fs_wf s ∧
  create_ref (PS := Scenario.plain_names) d None s = (s', r) ∧
  p ∈ _get_tracked_files (PS := Scenario.plain_names) d s ∧
  s !! blob_path d p (content_at s (root d ++ p)) = Some (File "y") ∧
  s' !! blob_path d p (content_at s (root d ++ p)) = Some (File "y").
Proof.
  intros d s s' r p.
  assert (fs_wf s) as Hwf by (apply fs_wf_check_sound; vm_compute; reflexivity).
  assert (create_ref (PS := Scenario.plain_names) d None s = (s', r)) as Hc
    by (apply run_result; vm_compute; reflexivity).
  assert (p ∈ _get_tracked_files (PS := Scenario.plain_names) d s) as Hp.
  { assert (_get_tracked_files (PS := Scenario.plain_names) d s = [["a.txt"]; ["b.txt"]])
      as -> by (vm_compute; reflexivity).
    apply elem_of_cons. right. apply elem_of_cons. by left. }
  assert (s !! blob_path d p (content_at s (root d ++ p)) = Some (File "y")) as Hb
    by (vm_compute; reflexivity).
  split; [exact Hwf|]. split; [exact Hc|]. split; [exact Hp|]. split; [exact Hb|].
  exact (commit_never_overwrites_blob (PS := Scenario.plain_names) d None s s' r p "y"
           Hwf Hc Hp Hb).
Defined.

Lemma raised_exceptions_witness :
  let d := Scenario.drv in
  let s := Scenario.committed_ab in
  let c := "0000" in
  let e := FileIOError in
  let getmtime := Scenario.mtimes in
  fs_wf s ∧ is_initialized d s = true ∧
  (∃ l, list_refs d s = Ok l) ∧
  (∃ b, exists_ref d s c = Ok b) ∧
  (∃ o, latest_ref getmtime d s = Ok o) ∧
  (∃ h, current_ref (PS := Scenario.plain_names) d s = Ok h) ∧
  (∃ b, _has_unstaged_changes (PS := Scenario.plain_names) d s = Ok b) ∧
  (check_unstaged_changes (PS := Scenario.plain_names) d s = Raise e → e = UnstagedChanges) ∧
  (current_hash (PS := Scenario.plain_names) d s = Raise e → e = UnstagedChanges) ∧
  ((create_ref (PS := Scenario.plain_names) d None s).2 = Raise e → e = FileIOError) ∧
  (c ≠ EmptyString →
   (create_ref (PS := Scenario.plain_names) d (Some c) s).2 = Raise e →
   e = CommitDoesNotExist) ∧
  ((delete_ref d c s).2 = Raise e → e = FileIOError ∧ exists_ref d s c = Ok false) ∧
  ((checkout_ref (PS := Scenario.plain_names) d c s).2 = Raise e →
   e = FileIOError ∨ e = UnstagedChanges ∨ e = OSError).
Proof.
  intros d s c e getmtime.
  assert (fs_wf s) as Hwf by (apply fs_wf_check_sound; vm_compute; reflexivity).
  assert (is_initialized d s = true) as Hi by (vm_compute; reflexivity).
  split; [exact Hwf|]. split; [exact Hi|].
  exact (raised_exceptions (PS := Scenario.plain_names) d getmtime s c e Hwf Hi).
Defined.

Lemma failed_checkout_loses_tree_witness :
  let d := Scenario.drv in
  let s := Scenario.corrupted_ab in
  let tracked := _get_tracked_files (PS := Scenario.plain_names) d s in
  tracked = [["a.txt"]; ["b.txt"]] ∧
  exists_ref d s "bad" = Ok true ∧
  _has_unstaged_changes (PS := Scenario.plain_names) d s = Ok false ∧
  current_ref (PS := Scenario.plain_names) d s ≠ Ok "bad" ∧
  s !! (_code_filepath d ++ ["bad"]) = Some (File "garbage") ∧
  file_lines "garbage" = ["garbage"] ∧
  nonempty (rstrip "garbage") = true ∧
  split_comma (rstrip "garbage") = None ∧
  ∃ s', checkout_ref (PS := Scenario.plain_names) d "bad" s = (s', Raise FileIOError) ∧
    (∀ p, p ∈ tracked → s' !! (root d ++ p) = None) ∧
    (∀ q, (∀ p, p ∈ tracked → q ≠ root d ++ p) → s' !! q = s !! q).
Proof.
  intros d s tracked.
  assert (exists_ref d s "bad" = Ok true) as He by (vm_compute; reflexivity).
  assert (_has_unstaged_changes (PS := Scenario.plain_names) d s = Ok false) as Hu
    by (vm_compute; reflexivity).
  assert (current_ref (PS := Scenario.plain_names) d s ≠ Ok "bad") as Hcur
    by (vm_compute; discriminate).
  assert (s !! (_code_filepath d ++ ["bad"]) = Some (File "garbage")) as Hrec
    by (vm_compute; reflexivity).
  assert (file_lines "garbage" = ["garbage"]) as Hl by (vm_compute; reflexivity).
  assert (nonempty (rstrip "garbage") = true) as Hne by (vm_compute; reflexivity).
  assert (split_comma (rstrip "garbage") = None) as Hsc by (vm_compute; reflexivity).
  split; [vm_compute; reflexivity|].
  split; [exact He|]. split; [exact Hu|]. split; [exact Hcur|]. split; [exact Hrec|].
  split; [exact Hl|]. split; [exact Hne|]. split; [exact Hsc|].
  exact (failed_checkout_loses_tree (PS := Scenario.plain_names) d s "bad" "garbage"
           "garbage" [] He Hu Hcur Hrec Hl Hne (or_introl Hsc)).
Defined.

Lemma checkout_restores_fingerprint_witness :
  let d := Scenario.drv in
  let s0 := Scenario.project_ab in
  let s2 := Scenario.recommitted_ab in
  let s3 := Scenario.restored_ab in
  let h := Scenario.D1 in
  create_ref (PS := Scenario.plain_names) d None s0 = (Scenario.committed_ab, Ok h) ∧
  current_ref (PS := Scenario.plain_names) d s2 ≠ Ok h ∧
  checkout_ref (PS := Scenario.plain_names) d h s2 = (s3, Ok true) ∧
  isfile s0 (_prodat_ignore_filepath d) = false ∧
  isfile s2 (_prodat_ignore_filepath d) = false ∧
  tracked_tree (PS := Scenario.plain_names) d s3
    ≡ₚ tracked_tree (PS := Scenario.plain_names) d s0 ∧
  current_ref (PS := Scenario.plain_names) d s3 = Ok h ∧
  exists_ref d s3 h = Ok true ∧
  _has_unstaged_changes (PS := Scenario.plain_names) d s3 = Ok false ∧
  checkout_ref (PS := Scenario.plain_names) d h s3 = (s3, Ok true).
Proof.
  intros d s0 s2 s3 h.
  assert (tracked_tree (PS := Scenario.plain_names) d s0
          = [(["a.txt"], "x"); (["b.txt"], "y")]) as HT by (vm_compute; reflexivity).
  assert (create_ref (PS := Scenario.plain_names) d None s0
          = (Scenario.committed_ab, Ok h)) as Hc
    by (apply run_result; vm_compute; reflexivity).
  assert (current_ref (PS := Scenario.plain_names) d s2 ≠ Ok h) as Hcur
    by (vm_compute; discriminate).
  assert (checkout_ref (PS := Scenario.plain_names) d h s2 = (s3, Ok true)) as Hco
    by (apply run_result; vm_compute; reflexivity).
  assert (isfile s0 (_prodat_ignore_filepath d) = false) as Hig0 by (vm_compute; reflexivity).
  assert (isfile s2 (_prodat_ignore_filepath d) = false) as Hig2 by (vm_compute; reflexivity).
  split; [exact Hc|]. split; [exact Hcur|]. split; [exact Hco|].
  split; [exact Hig0|]. split; [exact Hig2|].
  apply (checkout_restores_fingerprint (PS := Scenario.plain_names) d
           s0 Scenario.committed_ab s2 s3 h).
  - apply fs_wf_check_sound. vm_compute; reflexivity.
  - exact Hc.
  - vm_compute; reflexivity.
  - rewrite HT. repeat constructor.
  - rewrite HT. intros e c' He.
    apply elem_of_cons in He as [->|He]; [vm_compute; discriminate|].
    apply elem_of_cons in He as [->|He]; [vm_compute; discriminate|].
    destruct (not_elem_of_nil _ He).
  - vm_compute; reflexivity.
  - rewrite HT. intros e He.
    apply elem_of_cons in He as [->|He]; [vm_compute; reflexivity|].
    apply elem_of_cons in He as [->|He]; [vm_compute; reflexivity|].
    destruct (not_elem_of_nil _ He).
  - rewrite HT. intros e He.
    apply elem_of_cons in He as [->|He]; [vm_compute; reflexivity|].
    apply elem_of_cons in He as [->|He]; [vm_compute; reflexivity|].
    destruct (not_elem_of_nil _ He).
  - exact Hcur.
  - exact Hco.
  - exact Hig0.
  - exact Hig2.
Defined.

Lemma commit_stores_every_blob_witness :
  let d := Scenario.drv in
  let s := Scenario.project_ab in
  let s' := Scenario.committed_ab in
  let h := Scenario.D1 in
  fs_wf s ∧ exists_ref d s h = Ok false ∧
  create_ref (PS := Scenario.plain_names) d None s = (s', Ok h) ∧
  ∀ p, p ∈ _get_tracked_files (PS := Scenario.plain_names) d s →
    let c := content_at s (root d ++ p) in
    isdir s (blob_path d p c) = false →
    ∃ c', s' !! blob_path d p c = Some (File c') ∧
          (c' = c ∨ s !! blob_path d p c = Some (File c')).
Proof.
  intros d s s' h.
  assert (fs_wf s) as Hwf by (apply fs_wf_check_sound; vm_compute; reflexivity).
  assert (exists_ref d s h = Ok false) as He by (vm_compute; reflexivity).
  assert (create_ref (PS := Scenario.plain_names) d None s = (s', Ok h)) as Hc
    by (apply run_result; vm_compute; reflexivity).
  split; [exact Hwf|]. split; [exact He|]. split; [exact Hc|].
  exact (commit_stores_every_blob (PS := Scenario.plain_names) d s s' h Hwf He Hc).
Defined.

Lemma fingerprint_ignores_store_and_git_witness :
  let d := Scenario.drv in
  let s := Scenario.edited_ab in
  let s' := Scenario.edited_with_git in
  is_initialized d s = true ∧ is_initialized d s' = true ∧
  (∀ p, _prodat_directory_name d ∉ p → ".git" ∉ p →
        s' !! (root d ++ p) = s !! (root d ++ p)) ∧
  s' !! _prodat_ignore_filepath d = s !! _prodat_ignore_filepath d ∧
  s' !! (root d ++ [".git"; "config"]) = Some (File "g") ∧
  s !! (root d ++ [".git"; "config"]) = None ∧
  tracked_tree (PS := Scenario.plain_names) d s'
    ≡ₚ tracked_tree (PS := Scenario.plain_names) d s ∧
  current_ref (PS := Scenario.plain_names) d s'
    = current_ref (PS := Scenario.plain_names) d s.
Proof.
  intros d s s'.
  assert (is_initialized d s = true) as Hi by (vm_compute; reflexivity).
  assert (is_initialized d s' = true) as Hi' by (vm_compute; reflexivity).
  assert (∀ p, _prodat_directory_name d ∉ p → ".git" ∉ p →
               s' !! (root d ++ p) = s !! (root d ++ p)) as Hout.
  { intros p _ Hg. unfold s', Scenario.edited_with_git. fold s.
    rewrite !lookup_insert_ne; [done|..].
    - intros Heq. apply Hg. injection Heq as <-. apply elem_of_cons. by left.
    - intros Heq. apply Hg. injection Heq as <-. apply elem_of_cons. by left. }
  assert (s' !! _prodat_ignore_filepath d = s !! _prodat_ignore_filepath d) as Hig.
  { unfold s', Scenario.edited_with_git. fold s. by rewrite !lookup_insert_ne. }
  split; [exact Hi|]. split; [exact Hi'|]. split; [exact Hout|]. split; [exact Hig|].
  split; [vm_compute; reflexivity|]. split; [vm_compute; reflexivity|].
  exact (fingerprint_ignores_store_and_git (PS := Scenario.plain_names) d s s'
           Hi Hi' Hout Hig).
Defined.
